(** * chrononoteai: the note-processing pipeline of [notes/notes.go]

    A shallow embedding of the package [notes] (splitter, metadata decoding,
    validation, path resolution, serialisation and the orchestrator
    [ProcessNotes]) together with the parts of the Go standard library and of
    [gopkg.in/yaml.v3] that the package calls, followed by the properties of
    the pipeline.

    Go strings are byte sequences: they are modelled by [string], whose
    characters are the 256 byte values. *)

From Stdlib Require Import Ascii String List ZArith Lia Bool.
From stdpp Require Import base option list strings gmap.

Local Open Scope Z_scope.

(** [simpl] and [cbn] go through the concatenation of strings as they go
    through that of lists. *)
#[local] Arguments String.append !_ _ / : simpl nomatch.

(** ** Bytes and small string helpers *)

Definition byte_of (n : N) : ascii := ascii_of_N n.
Definition code (c : ascii) : Z := Z.of_N (N_of_ascii c).

Definition str1 (c : ascii) : string := String c EmptyString.

Definition LF : ascii := byte_of 10.
Definition DQUOTE : ascii := byte_of 34.
Definition nl : string := str1 LF.

Fixpoint srev_append (s acc : string) : string :=
  match s with
  | EmptyString => acc
  | String c r => srev_append r (String c acc)
  end.

Definition srev (s : string) : string := srev_append s EmptyString.

Fixpoint sconcat (l : list string) : string :=
  match l with
  | [] => EmptyString
  | s :: r => s +:+ sconcat r
  end.

(** [strings.Join(l, sep)]. *)
Fixpoint strings_Join (l : list string) (sep : string) : string :=
  match l with
  | [] => EmptyString
  | [s] => s
  | s :: r => s +:+ sep +:+ strings_Join r sep
  end.

(** [strings.HasPrefix(s, p)]. *)
Fixpoint strings_HasPrefix (s p : string) : bool :=
  match p, s with
  | EmptyString, _ => true
  | String a p', String b s' => Ascii.eqb a b && strings_HasPrefix s' p'
  | String _ _, EmptyString => false
  end.

(** One more byte in front of the first segment. *)
Definition cons_head (c : ascii) (l : list string) : list string :=
  match l with
  | seg :: segs => String c seg :: segs
  | [] => [str1 c]
  end.

(** Cutting a string at every occurrence of one byte: the lines of a text
    for a line feed, the elements of a path for a slash. *)
Fixpoint split_byte (sep : ascii) (s : string) : list string :=
  match s with
  | EmptyString => [EmptyString]
  | String c r =>
      if Ascii.eqb c sep then EmptyString :: split_byte sep r
      else cons_head c (split_byte sep r)
  end.

(** ** Package [strings] *)

Definition is_dash (c : ascii) : bool := Ascii.eqb c "-"%char.

(** [strings.Split(s, "---")]: the segments between the successive
    non-overlapping occurrences of the delimiter, found from the left. *)
Fixpoint strings_Split_delim (s : string) : list string :=
  match s with
  | EmptyString => [EmptyString]
  | String a rest =>
      match rest with
      | String b (String c rest') =>
          if is_dash a && is_dash b && is_dash c
          then EmptyString :: strings_Split_delim rest'
          else cons_head a (strings_Split_delim rest)
      | _ => cons_head a (strings_Split_delim rest)
      end
  end.

(** The white space of [unicode.IsSpace], as UTF-8 byte sequences. The six
    ASCII ones are the table [asciiSpace] of package [strings]. *)
Definition asciiSpace (c : ascii) : bool :=
  let n := code c in
  (n =? 9) || (n =? 10) || (n =? 11) || (n =? 12) || (n =? 13) || (n =? 32).

(** U+0085 and U+00A0. *)
Definition space2 (a b : ascii) : bool :=
  (code a =? 194) && ((code b =? 133) || (code b =? 160)).

(** U+1680, U+2000 to U+200A, U+2028, U+2029, U+202F, U+205F, U+3000. *)
Definition space3 (a b c : ascii) : bool :=
  let x := code a in let y := code b in let z := code c in
  ((x =? 225) && (y =? 154) && (z =? 128))
  || ((x =? 226) && (y =? 128)
      && (((128 <=? z) && (z <=? 138)) || (z =? 168) || (z =? 169) || (z =? 175)))
  || ((x =? 226) && (y =? 129) && (z =? 159))
  || ((x =? 227) && (y =? 128) && (z =? 128)).

(** [strings.TrimLeftFunc(s, unicode.IsSpace)]. *)
Fixpoint trimLeftSpace (s : string) : string :=
  match s with
  | EmptyString => EmptyString
  | String a r1 =>
      if asciiSpace a then trimLeftSpace r1
      else match r1 with
           | String b r2 =>
               if space2 a b then trimLeftSpace r2
               else match r2 with
                    | String c r3 => if space3 a b c then trimLeftSpace r3 else s
                    | EmptyString => s
                    end
           | EmptyString => s
           end
  end.

(** The same scan over the reversed string: [utf8.DecodeLastRuneInString]
    reads the bytes of the last rune backwards. *)
Fixpoint trimLeftSpace_rev (s : string) : string :=
  match s with
  | EmptyString => EmptyString
  | String a r1 =>
      if asciiSpace a then trimLeftSpace_rev r1
      else match r1 with
           | String b r2 =>
               if space2 b a then trimLeftSpace_rev r2
               else match r2 with
                    | String c r3 => if space3 c b a then trimLeftSpace_rev r3 else s
                    | EmptyString => s
                    end
           | EmptyString => s
           end
  end.

(** [strings.TrimRightFunc(s, unicode.IsSpace)]. *)
Definition trimRightSpace (s : string) : string := srev (trimLeftSpace_rev (srev s)).

(** [strings.TrimSpace(s)]: leading white space goes first, then trailing
    white space of what is left. *)
Definition strings_TrimSpace (s : string) : string := trimRightSpace (trimLeftSpace s).

(** ** Package [time], for the layout ["2006-01-02"] *)

Definition isDigitB (c : ascii) : bool := (48 <=? code c) && (code c <=? 57).
Definition digitVal (c : ascii) : Z := code c - 48.
Definition digitChar (d : Z) : ascii := byte_of (Z.to_N (48 + d)).

(** [time.ParseError]. *)
Record ParseError : Type := mkParseError {
  Layout : string;
  Value : string;
  LayoutElem : string;
  ValueElem : string;
  Message : string
}.

(** A [time.Time] obtained from a date-only layout, as its calendar date. *)
Record Time : Type := mkTime { Year : Z; Month : Z; Day : Z }.

Definition lowerhex (n : Z) : ascii :=
  if n <? 10 then byte_of (Z.to_N (48 + n)) else byte_of (Z.to_N (87 + n)).

(** [time.quote]: the text between double quotes, quote and backslash
    escaped, control and non-ASCII bytes in hexadecimal. *)
Fixpoint quote_body (s : string) : string :=
  match s with
  | EmptyString => str1 DQUOTE
  | String c r =>
      let n := code c in
      if (128 <=? n) || (n <? 32) then
        String "\"%char (String "x"%char
          (String (lowerhex (n / 16)) (String (lowerhex (n mod 16)) (quote_body r))))
      else if (n =? 34) || (n =? 92) then String "\"%char (String c (quote_body r))
      else String c (quote_body r)
  end.

Definition time_quote (s : string) : string := String DQUOTE (quote_body s).

(** The method [Error] of [ParseError]. *)
Definition ParseError_Error (e : ParseError) : string :=
  match Message e with
  | EmptyString =>
      "parsing time " +:+ time_quote (Value e) +:+ " as " +:+ time_quote (Layout e)
      +:+ ": cannot parse " +:+ time_quote (ValueElem e) +:+ " as "
      +:+ time_quote (LayoutElem e)
  | m => "parsing time " +:+ time_quote (Value e) +:+ m
  end.

Definition isLeap (year : Z) : bool :=
  (year mod 4 =? 0) && (negb (year mod 100 =? 0) || (year mod 400 =? 0)).

Definition daysIn (m year : Z) : Z :=
  if m =? 2 then (if isLeap year then 29 else 28)
  else if (m =? 4) || (m =? 6) || (m =? 9) || (m =? 11) then 30
  else 31.

(** [getnum]: one or two digits, exactly two when [fixed]. *)
Definition getnum (s : string) (fixed : bool) : option (Z * string) :=
  match s with
  | String a r =>
      if isDigitB a then
        match r with
        | String b r' =>
            if isDigitB b then Some (digitVal a * 10 + digitVal b, r')
            else if fixed then None else Some (digitVal a, r)
        | EmptyString => if fixed then None else Some (digitVal a, r)
        end
      else None
  | EmptyString => None
  end.

(** [atoi] on the four bytes of a year, the first of which is a digit: every
    byte has to be a digit. *)
Fixpoint atoi_digits (acc : Z) (s : string) : option Z :=
  match s with
  | EmptyString => Some acc
  | String c r => if isDigitB c then atoi_digits (acc * 10 + digitVal c) r else None
  end.

Definition layout_ymd : string := "2006-01-02".

(** [skip(value, "-")]. *)
Definition skip_dash (value : string) : option string :=
  match value with
  | String c r => if is_dash c then Some r else None
  | EmptyString => None
  end.

(** [time.Parse("2006-01-02", value)], chunk by chunk as [parse] goes through
    the layout: the four-digit year, the two-digit month with its range
    check, the two-digit day, no text left over, and at the end the day
    checked against the length of the month. *)
Definition time_Parse (avalue : string) : ParseError + Time :=
  let bad elem rest msg := inl (mkParseError layout_ymd avalue elem rest msg) in
  match avalue with
  | String c0 (String c1 (String c2 (String c3 v1))) =>
      if negb (isDigitB c0) then bad "2006" avalue EmptyString else
      match atoi_digits 0 (String c0 (String c1 (String c2 (String c3 EmptyString)))) with
      | None => bad "2006" avalue EmptyString
      | Some year =>
          match skip_dash v1 with
          | None => bad "-" v1 EmptyString
          | Some v2 =>
              match getnum v2 true with
              | None => bad "01" v2 EmptyString
              | Some (month, v3) =>
                  if (month <=? 0) || (12 <? month)
                  then bad "01" v3 ": month out of range" else
                  match skip_dash v3 with
                  | None => bad "-" v3 EmptyString
                  | Some v4 =>
                      match getnum v4 true with
                      | None => bad "02" v4 EmptyString
                      | Some (day, v5) =>
                          match v5 with
                          | String _ _ =>
                              bad EmptyString v5 (": extra text: " +:+ time_quote v5)
                          | EmptyString =>
                              if (day <? 1) || (daysIn month year <? day)
                              then bad EmptyString v5 ": day out of range"
                              else inr (mkTime year month day)
                          end
                      end
                  end
              end
          end
      end
  | _ => bad "2006" avalue EmptyString
  end.

(** Decimal digits of a non-negative integer, most significant first. *)
Fixpoint decimal_go (fuel : nat) (x : Z) (acc : string) : string :=
  match fuel with
  | O => acc
  | S f =>
      let acc' := String (digitChar (x mod 10)) acc in
      if x <? 10 then acc' else decimal_go f (x / 10) acc'
  end.

Definition decimal (x : Z) : string := decimal_go 20 x EmptyString.

Fixpoint zeros (n : nat) : string :=
  match n with
  | O => EmptyString
  | S k => String "0"%char (zeros k)
  end.

(** [appendInt(b, x, width)]: zero-padded decimal. *)
Definition appendInt (x : Z) (width : nat) : string :=
  let d := decimal (Z.abs x) in
  (if x <? 0 then "-" else EmptyString) +:+ zeros (width - String.length d) +:+ d.

(** [t.Format("2006/01")]. *)
Definition Time_Format_year_month (t : Time) : string :=
  appendInt (Year t) 4 +:+ "/" +:+ appendInt (Month t) 2.

(** ** Package [fmt] *)

(** [fmt.Sprintf("%02d.md", d)]: the sign counts in the width. *)
Definition Sprintf_02d_md (d : Z) : string :=
  let ds := decimal (Z.abs d) in
  (if d <? 0 then "-" +:+ zeros (1 - String.length ds) else zeros (2 - String.length ds))
  +:+ ds +:+ ".md".

(** ** Package [path/filepath] (Unix) *)

Definition SLASH : ascii := "/"%char.

(** One element of the path under [Clean]: empty and [.] elements vanish, [..]
    removes the element before it, stays in front of a relative path and is
    dropped at the root. The stack holds the elements kept so far, last first. *)
Definition clean_step (rooted : bool) (stack : list string) (e : string) : list string :=
  if String.eqb e EmptyString || String.eqb e "." then stack
  else if String.eqb e ".." then
    match stack with
    | top :: below => if String.eqb top ".." then e :: stack else below
    | [] => if rooted then [] else [e]
    end
  else e :: stack.

Definition is_rooted (path : string) : bool :=
  match path with
  | String c _ => Ascii.eqb c SLASH
  | EmptyString => false
  end.

(** [filepath.Clean]. *)
Definition filepath_Clean (path : string) : string :=
  match path with
  | EmptyString => "."
  | _ =>
      let rooted := is_rooted path in
      let stack := fold_left (clean_step rooted) (split_byte SLASH path) [] in
      let body := strings_Join (rev stack) "/" in
      if rooted then String SLASH body
      else match body with EmptyString => "." | _ => body end
  end.

(** [filepath.Join(a, b)]: empty elements are ignored, the rest is joined
    with a slash and cleaned. *)
Definition filepath_Join (a b : string) : string :=
  match a, b with
  | EmptyString, EmptyString => EmptyString
  | EmptyString, _ => filepath_Clean b
  | _, _ => filepath_Clean (a +:+ "/" +:+ b)
  end.

(** The path up to and including its last slash. *)
Fixpoint dir_prefix (s : string) : string :=
  match s with
  | EmptyString => EmptyString
  | String c r =>
      let d := dir_prefix r in
      if Ascii.eqb c SLASH then String c d
      else match d with EmptyString => EmptyString | _ => String c d end
  end.

(** [filepath.Dir]. *)
Definition filepath_Dir (path : string) : string := filepath_Clean (dir_prefix path).

(** ** Package [regexp], for the pattern [(?m)^date:.*$]

    The template of [ReplaceAllString] goes through [Regexp.expand]: a dollar
    sign followed by a name, or by a name in braces, refers to a submatch. The
    pattern has no group of its own, so only the name [0] refers to something
    (the whole match), and every other reference expands to nothing. *)

Definition DOLLAR : ascii := "$"%char.

Definition ascii_word (c : ascii) : bool :=
  let n := code c in
  ((48 <=? n) && (n <=? 57)) || ((65 <=? n) && (n <=? 90))
  || ((97 <=? n) && (n <=? 122)) || (n =? 95).

Fixpoint stake (n : nat) (s : string) : string :=
  match n, s with
  | S k, String c r => String c (stake k r)
  | _, _ => EmptyString
  end.

Fixpoint sdrop (n : nat) (s : string) : string :=
  match n, s with
  | S k, String _ r => sdrop k r
  | _, _ => s
  end.

(** [strings.Cut(s, "$")]. *)
Fixpoint cut_dollar (s : string) : option (string * string) :=
  match s with
  | EmptyString => None
  | String c r =>
      if Ascii.eqb c DOLLAR then Some (EmptyString, r)
      else match cut_dollar r with
           | Some (before, after) => Some (String c before, after)
           | None => None
           end
  end.

Section Expand.

(** The letters and digits of [unicode.IsLetter] and [unicode.IsDigit]
    beyond ASCII are a table of the standard library: [unicode_word s] is the
    length in bytes of the first rune of [s] when that rune is one of them,
    and [0] otherwise. It is asked only for a non-ASCII first byte. *)
Variable unicode_word : string -> nat.

Definition word_len (s : string) : nat :=
  match s with
  | EmptyString => 0%nat
  | String c _ =>
      if code c <? 128 then (if ascii_word c then 1%nat else 0%nat)
      else unicode_word s
  end.

(** The longest prefix of letters, digits and underscores, and the rest. *)
Fixpoint scan_name (fuel : nat) (s : string) : string * string :=
  match fuel with
  | O => (EmptyString, s)
  | S f =>
      match word_len s with
      | O => (EmptyString, s)
      | n =>
          let '(name, rest) := scan_name f (sdrop n s) in
          (stake n s +:+ name, rest)
      end
  end.

(** The number a name stands for, [None] for a name that is not a number
    ([num = -1] in the source). *)
Fixpoint name_num_go (num : Z) (name : string) : option Z :=
  match name with
  | EmptyString => Some num
  | String c r =>
      if negb (isDigitB c) || (100000000 <=? num) then None
      else name_num_go (num * 10 + digitVal c) r
  end.

Definition name_num (name : string) : option Z :=
  match name with
  | String c (String _ _) =>
      if Ascii.eqb c "0"%char then None else name_num_go 0 name
  | _ => name_num_go 0 name
  end.

(** [extract]: the name at the head of the template, after the dollar. *)
Definition extract (str : string) : option (string * option Z * string) :=
  match str with
  | EmptyString => None
  | String c r =>
      let brace := Ascii.eqb c "{"%char in
      let body := if brace then r else str in
      let '(name, rest) := scan_name (String.length body) body in
      match name with
      | EmptyString => None
      | _ =>
          if brace then
            match rest with
            | String d rest' =>
                if Ascii.eqb d "}"%char then Some (name, name_num name, rest')
                else None
            | EmptyString => None
            end
          else Some (name, name_num name, rest)
      end
  end.

(** [Regexp.expand] for a pattern without groups; [matched] is the text of
    the whole match. *)
Fixpoint expand (fuel : nat) (template matched : string) : string :=
  match fuel with
  | O => template
  | S f =>
      match cut_dollar template with
      | None => template
      | Some (before, after) =>
          before +:+
          match after with
          | String c r =>
              if Ascii.eqb c DOLLAR then String DOLLAR (expand f r matched)
              else match extract after with
                   | None => String DOLLAR (expand f after matched)
                   | Some (_, num, rest) =>
                       (match num with
                        | Some 0 => matched
                        | _ => EmptyString
                        end) +:+ expand f rest matched
                   end
          | EmptyString => str1 DOLLAR
          end
      end
  end.

(** [regexp.MustCompile(`(?m)^date:.*$`).ReplaceAllString(src, repl)]: in
    multi-line mode the pattern matches exactly the lines that start with
    [date:], each from its first byte to the end of the line. *)
Definition ReplaceAllString_date_line (src repl : string) : string :=
  strings_Join
    (map (fun line =>
            if strings_HasPrefix line "date:"
            then expand (S (String.length repl)) repl line
            else line)
         (split_byte LF src))
    nl.

End Expand.

(** ** Errors *)

(** The values of the interface [error] that go through the package: those
    made by [errors.New], the parse errors of package [time], and the errors
    of the YAML library and of the file system, which the package only passes
    on. *)
Inductive error : Type :=
| errorString (s : string)
| timeParseError (e : ParseError)
| foreignError (s : string).

(** The method [Error]. *)
Definition error_Error (e : error) : string :=
  match e with
  | errorString s => s
  | timeParseError pe => ParseError_Error pe
  | foreignError s => s
  end.

(** [errors.New]. *)
Definition errors_New (s : string) : error := errorString s.

(** ** Package [notes]: data *)

(** [Note]: a single note with metadata and content. *)
Record Note : Type := mkNote {
  Title : string;
  Date : string;
  Tags : list string;
  Content : string
}.

(** [FrontMatter]: the YAML front matter of a note. *)
Module FrontMatter.
Record t : Type := mk {
  Title : string;
  Date : string;
  Tags : list string
}.
End FrontMatter.

(** The zero value of [Note]. *)
Definition zeroNote : Note := mkNote EmptyString EmptyString [] EmptyString.

Definition with_Content (n : Note) (c : string) : Note :=
  mkNote (Title n) (Date n) (Tags n) c.

(** What the package takes from outside the repository and the standard
    library models above: the two entry points of [gopkg.in/yaml.v3] at the
    types the package uses them, and the Unicode letter table. Nothing is
    assumed about them here. Decoding works on a note passed by reference: it
    returns the error and the note as it has left it. *)
Class Libraries : Type := {
  yaml_Unmarshal : string -> Note -> option error * Note;
  yaml_Marshal : FrontMatter.t -> error + string;
  unicode_word_len : string -> nat
}.

(** [os.FileMode]. *)
Definition FileMode : Type := Z.
Definition os_ModePerm : FileMode := 511.

(** The interface [FileSystem]: each method takes the state of the
    implementation and returns it with its result. *)
Class FileSystem (S : Type) : Type := {
  ReadFile : string -> S -> (error + string) * S;
  WriteFile : string -> string -> FileMode -> S -> option error * S;
  AppendToFile : string -> string -> S -> option error * S;
  MkdirAll : string -> FileMode -> S -> option error * S
}.

(** ** Package [notes]: functions

    The calls to package [log] write to the log only and are left out. *)

(** The loop of [parseNotes] reads [entries[1]], [entries[3]], ... as metadata
    and the entry after each, trimmed, as its content (empty when there is
    none): [pairUp] is that reading of [entries[1:]]. *)
Fixpoint pairUp (entries : list string) : list (string * string) :=
  match entries with
  | [] => []
  | [metadata] => [(metadata, EmptyString)]
  | metadata :: content :: rest => (metadata, strings_TrimSpace content) :: pairUp rest
  end.

(** The pairs of a buffer: segment 0 is not read. *)
Definition splitPairs (data : string) : list (string * string) :=
  pairUp (tail (strings_Split_delim data)).

(** The test of the [continue] in [parseNotes]. *)
Definition isNoOp (p : string * string) : bool :=
  String.eqb (strings_TrimSpace (fst p)) EmptyString && String.eqb (snd p) EmptyString.

(** [validateNote]: checks if the note has all required fields and valid
    data. *)
Definition validateNote (note : Note) : option error :=
  if String.eqb (Title note) EmptyString then Some (errors_New "missing title")
  else if String.eqb (Date note) EmptyString then Some (errors_New "missing date")
  else match time_Parse (Date note) with
       | inl err => Some (timeParseError err)
       | inr _ => None
       end.

(** [buildMarkdownPath]: the file path for a note based on its date. *)
Definition buildMarkdownPath (note : Note) (baseDir : string) : error + string :=
  match time_Parse (Date note) with
  | inl err => inl (timeParseError err)
  | inr noteDate =>
      let datePath := filepath_Join baseDir (Time_Format_year_month noteDate) in
      let fileName := Sprintf_02d_md (Day noteDate) in
      inr (filepath_Join datePath fileName)
  end.

Section Notes.

Context `{Lib : Libraries}.

(** [removeQuotesFromDateField]. *)
Definition removeQuotesFromDateField (yamlContent dateValue : string) : string :=
  let unquotedDate := "date: " +:+ dateValue in
  ReplaceAllString_date_line unicode_word_len yamlContent unquotedDate.

(** The variable [yamlFrontMatter] of [formatNoteContent] once the date
    field has been post-processed. *)
Definition yamlFrontMatterOf (note : Note) : error + string :=
  let frontMatter := FrontMatter.mk (Title note) (Date note) (Tags note) in
  match yaml_Marshal frontMatter with
  | inl err => inl err
  | inr yamlFrontMatter => inr (removeQuotesFromDateField yamlFrontMatter (Date note))
  end.

(** [formatNoteContent]: the note's content with YAML front matter. *)
Definition formatNoteContent (note : Note) : error + string :=
  match yamlFrontMatterOf note with
  | inl err => inl err
  | inr yamlFrontMatter =>
      inr ("---" +:+ nl +:+ yamlFrontMatter +:+ "---" +:+ nl
           +:+ Content note +:+ nl +:+ nl)
  end.

(** The body of the loop of [parseNotes] over the pairs still to read;
    [notes] is the slice built so far. *)
Fixpoint parsePairs (pairs : list (string * string)) (notes : list Note)
  : error + list Note :=
  match pairs with
  | [] => inr notes
  | (metadata, content) :: rest =>
      if isNoOp (metadata, content) then parsePairs rest notes
      else match yaml_Unmarshal metadata zeroNote with
           | (Some err, _) => inl err
           | (None, note) => parsePairs rest (notes ++ [with_Content note content])
           end
  end.

(** [parseNotes]: splits the input data into individual notes. *)
Definition parseNotes (data : string) : error + list Note :=
  parsePairs (splitPairs data) [].

(** The first loop of [ProcessNotes]. *)
Fixpoint validateAll (notes : list Note) : option error :=
  match notes with
  | [] => None
  | note :: rest =>
      match validateNote note with
      | Some err => Some err
      | None => validateAll rest
      end
  end.

Context {S : Type} `{FS : FileSystem S}.

(** The body of the second loop of [ProcessNotes], for one note. *)
Definition saveNote (note : Note) (markdownDir : string) (fs : S) : option error * S :=
  match buildMarkdownPath note markdownDir with
  | inl err => (Some err, fs)
  | inr filePath =>
      match MkdirAll (filepath_Dir filePath) os_ModePerm fs with
      | (Some err, fs) => (Some err, fs)
      | (None, fs) =>
          match formatNoteContent note with
          | inl err => (Some err, fs)
          | inr fullNote =>
              match AppendToFile filePath fullNote fs with
              | (Some err, fs) => (Some err, fs)
              | (None, fs) => (None, fs)
              end
          end
      end
  end.

(** The second loop of [ProcessNotes]. *)
Fixpoint saveAll (notes : list Note) (markdownDir : string) (fs : S) : option error * S :=
  match notes with
  | [] => (None, fs)
  | note :: rest =>
      match saveNote note markdownDir fs with
      | (Some err, fs) => (Some err, fs)
      | (None, fs) => saveAll rest markdownDir fs
      end
  end.

(** [ProcessNotes]: parses, validates, and saves notes from the provided
    data. *)
Definition ProcessNotes (data markdownDir : string) (fs : S) : option error * S :=
  match parseNotes data with
  | inl err => (Some err, fs)
  | inr notes =>
      match validateAll notes with
      | Some err => (Some err, fs)
      | None => saveAll notes markdownDir fs
      end
  end.

End Notes.

(** ** Implementations of [FileSystem] *)

(** [MockFileSystem] of the package's tests: files and directories in two
    maps. *)
Record MockFileSystem : Type := mkMock {
  Files : gmap string string;
  Dirs : gmap string bool
}.

Definition NewMockFileSystem : MockFileSystem := mkMock ∅ ∅.

Definition os_ErrNotExist : error := foreignError "file does not exist".

#[export] Instance MockFS : FileSystem MockFileSystem := {
  ReadFile path fs :=
    (match Files fs !! path with
     | Some data => inr data
     | None => inl os_ErrNotExist
     end, fs);
  WriteFile path data _ fs := (None, mkMock (<[path := data]> (Files fs)) (Dirs fs));
  AppendToFile path data fs :=
    (None, mkMock (<[path := default EmptyString (Files fs !! path) +:+ data]> (Files fs))
                  (Dirs fs));
  MkdirAll path _ fs := (None, mkMock (Files fs) (<[path := true]> (Dirs fs)))
}.

(** The calls an implementation receives. *)
Inductive Call : Type :=
| CallReadFile (path : string)
| CallWriteFile (path data : string) (perm : FileMode)
| CallAppendToFile (path data : string)
| CallMkdirAll (path : string) (perm : FileMode).

(** Any implementation, with the list of the calls it has received so far
    (oldest first). *)
#[export] Instance TracedFS {S : Type} `{FS : FileSystem S} : FileSystem (list Call * S) := {
  ReadFile path st :=
    let '(r, fs) := ReadFile path (snd st) in (r, (fst st ++ [CallReadFile path], fs));
  WriteFile path data perm st :=
    let '(r, fs) := WriteFile path data perm (snd st) in
    (r, (fst st ++ [CallWriteFile path data perm], fs));
  AppendToFile path data st :=
    let '(r, fs) := AppendToFile path data (snd st) in
    (r, (fst st ++ [CallAppendToFile path data], fs));
  MkdirAll path perm st :=
    let '(r, fs) := MkdirAll path perm (snd st) in
    (r, (fst st ++ [CallMkdirAll path perm], fs))
}.

(** An implementation whose storage gives out: it serves the number of calls
    in its state and fails every call after them, leaving the files as they
    are. *)
Definition errNoSpace : error := foreignError "no space left on device".

#[export] Instance LimitedFS {S : Type} `{FS : FileSystem S} : FileSystem (nat * S) := {
  ReadFile path st :=
    let '(r, fs) := ReadFile path (snd st) in (r, (fst st, fs));
  WriteFile path data perm st :=
    match fst st with
    | O => (Some errNoSpace, st)
    | Datatypes.S k => let '(r, fs) := WriteFile path data perm (snd st) in (r, (k, fs))
    end;
  AppendToFile path data st :=
    match fst st with
    | O => (Some errNoSpace, st)
    | Datatypes.S k => let '(r, fs) := AppendToFile path data (snd st) in (r, (k, fs))
    end;
  MkdirAll path perm st :=
    match fst st with
    | O => (Some errNoSpace, st)
    | Datatypes.S k => let '(r, fs) := MkdirAll path perm (snd st) in (r, (k, fs))
    end
}.

(** ** [gopkg.in/yaml.v3] on flat front matter

    The library is not part of the repository. What follows describes its two
    entry points on the documents the package itself writes and its tests
    read: a block mapping with the keys [title], [date] and [tags], plain or
    double-quoted scalars on one line, and the tags as a block sequence. Both
    descriptions are partial: [None] means that the document or the value is
    outside what is described, not that the library fails on it. *)
Module Yaml.

Definition SP : ascii := " "%char.

Definition is_letter (c : ascii) : bool :=
  let n := code c in ((65 <=? n) && (n <=? 90)) || ((97 <=? n) && (n <=? 122)).

Fixpoint all_chars (p : ascii -> bool) (s : string) : bool :=
  match s with
  | EmptyString => true
  | String c r => p c && all_chars p r
  end.

Fixpoint last_char (s : string) : option ascii :=
  match s with
  | EmptyString => None
  | String c EmptyString => Some c
  | String _ r => last_char r
  end.

Fixpoint drop_spaces (s : string) : string :=
  match s with
  | String c r => if Ascii.eqb c SP then drop_spaces r else s
  | EmptyString => EmptyString
  end.

Fixpoint count_spaces (s : string) : nat :=
  match s with
  | String c r => if Ascii.eqb c SP then Datatypes.S (count_spaces r) else O
  | EmptyString => O
  end.

Definition trim_spaces (s : string) : string := srev (drop_spaces (srev (drop_spaces s))).

Definition in_list (s : string) (l : list string) : bool := existsb (String.eqb s) l.

(** *** Reading *)

(** What stands after the colon of a key or the dash of an item. Nothing and
    the word [null] both give null; they are kept apart because only after
    nothing can a block sequence begin on the next line: after a plain scalar,
    the word [null] as any other, a line indented further goes on with the
    scalar. *)
Inductive value : Type :=
| VNull
| VNullWord
| VStr (s : string)
| VEmptySeq.

(** The bytes a plain scalar is made of here: letters, digits, spaces,
    dashes and underscores, the first one a letter or a digit. *)
Definition plain_char (c : ascii) : bool :=
  is_letter c || isDigitB c || Ascii.eqb c SP || Ascii.eqb c "-"%char || Ascii.eqb c "_"%char.

Definition plain_start (c : ascii) : bool := is_letter c || isDigitB c.

(** Printable ASCII other than the double quote and the backslash. *)
Definition quoted_char (c : ascii) : bool :=
  let n := code c in (32 <=? n) && (n <=? 126) && negb (n =? 34) && negb (n =? 92).

Definition null_words : list string := ["null"; "Null"; "NULL"].

(** A scalar with the spaces around it removed. Into a string field every
    plain scalar gives its own text, whatever it resolves to, except null,
    which leaves the field as it is. *)
Definition read_scalar (text : string) : option value :=
  match text with
  | EmptyString => Some VNull
  | String c r =>
      if Ascii.eqb c DQUOTE then
        match srev r with
        | String d body_rev =>
            if Ascii.eqb d DQUOTE && all_chars quoted_char body_rev
            then Some (VStr (srev body_rev)) else None
        | EmptyString => None
        end
      else if String.eqb text "[]" then Some VEmptySeq
      else if plain_start c && all_chars plain_char text then
        if in_list text null_words then Some VNullWord else Some (VStr text)
      else None
  end.

(** What follows the colon of a key or the dash of an item: nothing, or a
    space and a scalar. *)
Definition after_indicator (rest : string) : option value :=
  match rest with
  | EmptyString => Some VNull
  | String c _ => if Ascii.eqb c SP then read_scalar (trim_spaces rest) else None
  end.

Inductive line : Type :=
| Blank
| Key (k : string) (v : value)
| Item (indent : nat) (v : value)
| Unknown.

Definition key_line (k : string) (l : string) : line :=
  match after_indicator (sdrop (Datatypes.S (String.length k)) l) with
  | Some v => Key k v
  | None => Unknown
  end.

Definition classify (l : string) : line :=
  match drop_spaces l with
  | EmptyString => Blank
  | String c rest =>
      if strings_HasPrefix l "title:" then key_line "title" l
      else if strings_HasPrefix l "date:" then key_line "date" l
      else if strings_HasPrefix l "tags:" then key_line "tags" l
      else if Ascii.eqb c "-"%char then
        match after_indicator rest with
        | Some v => Item (count_spaces l) v
        | None => Unknown
        end
      else Unknown
  end.

(** The mapping read so far: the fields seen, and whether items of the
    sequence of tags may follow, with their indentation once it is known.
    Items may follow the key [tags] with nothing after its colon, and an item
    of the same indentation; after every other line an item is outside the
    description. *)
Record state : Type := mkState {
  s_title : option string;
  s_date : option string;
  s_tags : option (list string);
  s_seq : option (option nat)
}.

Definition string_field (v : value) : option string :=
  match v with
  | VNull | VNullWord => Some EmptyString
  | VStr s => Some s
  | VEmptySeq => None
  end.

Definition step (st : state) (l : line) : option state :=
  match l with
  | Blank => Some st
  | Unknown => None
  | Key k v =>
      if String.eqb k "title" then
        match s_title st, string_field v with
        | None, Some s => Some (mkState (Some s) (s_date st) (s_tags st) None)
        | _, _ => None
        end
      else if String.eqb k "date" then
        match s_date st, string_field v with
        | None, Some s => Some (mkState (s_title st) (Some s) (s_tags st) None)
        | _, _ => None
        end
      else
        match s_tags st, v with
        | None, VNull => Some (mkState (s_title st) (s_date st) (Some []) (Some None))
        | None, VNullWord | None, VEmptySeq =>
            Some (mkState (s_title st) (s_date st) (Some []) None)
        | _, _ => None
        end
  | Item n v =>
      match s_seq st, v, n with
      | Some indent, VStr s, Datatypes.S _ =>
          if match indent with None => true | Some m => Nat.eqb m n end
          then Some (mkState (s_title st) (s_date st)
                       (Some (default [] (s_tags st) ++ [s])) (Some (Some n)))
          else None
      | _, _, _ => None
      end
  end.

Fixpoint run (st : state) (ls : list line) : option state :=
  match ls with
  | [] => Some st
  | l :: rest =>
      match step st l with
      | Some st' => run st' rest
      | None => None
      end
  end.

(** [yaml.Unmarshal] into a zero [Note], where described. *)
Definition decode_front (data : string) : option Note :=
  match run (mkState None None None None) (map classify (split_byte LF data)) with
  | Some st =>
      Some (mkNote (default EmptyString (s_title st)) (default EmptyString (s_date st))
              (default [] (s_tags st)) EmptyString)
  | None => None
  end.

(** *** Writing *)

(** The words that resolve to a boolean or to null. *)
Definition reserved_words : list string :=
  ["y"; "Y"; "yes"; "Yes"; "YES"; "n"; "N"; "no"; "No"; "NO";
   "true"; "True"; "TRUE"; "false"; "False"; "FALSE";
   "on"; "On"; "ON"; "off"; "Off"; "OFF"; "null"; "Null"; "NULL"].

Definition word_char (c : ascii) : bool := is_letter c || isDigitB c || Ascii.eqb c SP.

(** Strings written as plain scalars: words of letters and digits, the first
    byte a letter, no space at the end, not a reserved word, short enough
    for one line. *)
Definition plain_out (s : string) : bool :=
  match s with
  | EmptyString => false
  | String c _ =>
      is_letter c && all_chars word_char s
      && negb (match last_char s with Some d => Ascii.eqb d SP | None => false end)
      && negb (in_list s reserved_words)
      && (String.length s <=? 64)%nat
  end.

Definition is_date (s : string) : bool :=
  match time_Parse s with
  | inr _ => true
  | inl _ => false
  end.

(** Strings that resolve to something else than a string (here: the empty
    string, null, a date) are written between double quotes. *)
Definition write_scalar (s : string) : option string :=
  if plain_out s then Some s
  else if String.eqb s EmptyString || String.eqb s "null" || is_date s
  then Some (String DQUOTE (s +:+ str1 DQUOTE))
  else None.

Fixpoint write_items (tags : list string) : option string :=
  match tags with
  | [] => Some EmptyString
  | t :: rest =>
      match write_scalar t, write_items rest with
      | Some s, Some more => Some ("    - " +:+ s +:+ nl +:+ more)
      | _, _ => None
      end
  end.

(** [yaml.Marshal] of a [FrontMatter], where described: the fields in the
    order of the struct, the items of a sequence indented by four spaces,
    an empty sequence in flow style. *)
Definition encode_front (fm : FrontMatter.t) : option string :=
  match write_scalar (FrontMatter.Title fm), write_scalar (FrontMatter.Date fm),
        write_items (FrontMatter.Tags fm) with
  | Some t, Some d, Some items =>
      Some ("title: " +:+ t +:+ nl +:+ "date: " +:+ d +:+ nl
            +:+ match FrontMatter.Tags fm with
                | [] => "tags: []" +:+ nl
                | _ => "tags:" +:+ nl +:+ items
                end)
  | _, _, _ => None
  end.

(** A library agrees with the description wherever the description says
    something. *)
Definition Conforms (L : Libraries) : Prop :=
  (forall data note, decode_front data = Some note ->
                     yaml_Unmarshal data zeroNote = (None, note))
  /\ (forall fm text, encode_front fm = Some text -> yaml_Marshal fm = inr text).

(** The description completed into an instance: an error outside what is
    described, and no letters beyond ASCII. *)
Definition errUndescribed : error := foreignError "yaml: not described".

Definition Reference : Libraries := {|
  yaml_Unmarshal data out :=
    match decode_front data with
    | Some note => (None, note)
    | None => (Some errUndescribed, out)
    end;
  yaml_Marshal fm :=
    match encode_front fm with
    | Some text => inr text
    | None => inl errUndescribed
    end;
  unicode_word_len _ := O
|}.

End Yaml.

(** ** Vocabulary of the statements *)

(** The pairs of a buffer that [parseNotes] does not skip. *)
Definition keptPairs (data : string) : list (string * string) :=
  List.filter (fun p => negb (isNoOp p)) (splitPairs data).

Section Vocabulary.

Context `{Lib : Libraries}.

(** The outcome of decoding the metadata of a pair. *)
Definition decodeError (p : string * string) : option error :=
  fst (yaml_Unmarshal (fst p) zeroNote).

Definition decodedNote (p : string * string) : Note :=
  with_Content (snd (yaml_Unmarshal (fst p) zeroNote)) (snd p).

(** The calls that saving one note makes when nothing fails. *)
Definition noteCalls (markdownDir : string) (note : Note) : list Call :=
  match buildMarkdownPath note markdownDir, formatNoteContent note with
  | inr filePath, inr fullNote =>
      [CallMkdirAll (filepath_Dir filePath) os_ModePerm; CallAppendToFile filePath fullNote]
  | inr filePath, inl _ => [CallMkdirAll (filepath_Dir filePath) os_ModePerm]
  | inl _, _ => []
  end.

Definition plannedCalls (markdownDir : string) (notes : list Note) : list Call :=
  concat (map (noteCalls markdownDir) notes).

End Vocabulary.

Definition isAppend (c : Call) : bool :=
  match c with
  | CallAppendToFile _ _ => true
  | _ => false
  end.

(** The number of blocks appended by a list of calls. *)
Definition appendedBlocks (calls : list Call) : nat := length (List.filter isAppend calls).

(** Two implementations of [FileSystem] answer alike on states related by
    [R]: the same call gets the same result from both and leaves them in
    related states. *)
Definition respondAlike {S1 S2 : Type} `{FS1 : FileSystem S1} `{FS2 : FileSystem S2}
    (R : S1 -> S2 -> Prop) : Prop :=
  (forall path perm s1 s2, R s1 s2 ->
     fst (MkdirAll path perm s1) = fst (MkdirAll path perm s2)
     /\ R (snd (MkdirAll path perm s1)) (snd (MkdirAll path perm s2)))
  /\ (forall path data s1 s2, R s1 s2 ->
        fst (AppendToFile path data s1) = fst (AppendToFile path data s2)
        /\ R (snd (AppendToFile path data s1)) (snd (AppendToFile path data s2))).

(** The strict calendar format [YYYY-MM-DD]: four digits of a year, two of a
    month between 1 and 12, two of a day that the month has in that year. *)
Definition two_digits (n : Z) : string :=
  String (digitChar (n / 10)) (String (digitChar (n mod 10)) EmptyString).

Definition four_digits (n : Z) : string :=
  String (digitChar (n / 1000)) (String (digitChar (n / 100 mod 10)) (two_digits (n mod 100))).

Definition dateString (y m d : Z) : string :=
  four_digits y +:+ "-" +:+ two_digits m +:+ "-" +:+ two_digits d.

Definition calendarDate (s : string) : Prop :=
  exists y m d,
    0 <= y <= 9999 /\ 1 <= m <= 12 /\ 1 <= d <= daysIn m y /\ s = dateString y m d.

(** Occurrences of the delimiter in a text: anywhere, and at the start of a
    line (at the start of the text or right after a line feed). *)
Fixpoint containsDelimiter (s : string) : bool :=
  match s with
  | EmptyString => false
  | String _ r => strings_HasPrefix s "---" || containsDelimiter r
  end.

Fixpoint delimiterStartsALine_from (at_start : bool) (s : string) : bool :=
  match s with
  | EmptyString => false
  | String c r =>
      (at_start && strings_HasPrefix s "---") || delimiterStartsALine_from (Ascii.eqb c LF) r
  end.

Definition delimiterStartsALine (s : string) : bool := delimiterStartsALine_from true s.

(** The elements [Clean] keeps: not empty, not [.], without a slash. *)
Fixpoint no_slash (s : string) : bool :=
  match s with
  | EmptyString => true
  | String c r => negb (Ascii.eqb c SLASH) && no_slash r
  end.

Definition kept_elem (e : string) : bool :=
  negb (String.eqb e EmptyString) && negb (String.eqb e ".") && no_slash e.

(** Those among them that name something: not [..] either. *)
Definition real_elem (e : string) : bool := kept_elem e && negb (String.eqb e "..").

(** The stacks [Clean] builds: kept elements, with [..] only at the bottom of
    a relative path. *)
Fixpoint clean_stack (rooted : bool) (stack : list string) : Prop :=
  match stack with
  | [] => True
  | e :: below =>
      kept_elem e = true
      /\ (e = ".." -> rooted = false /\ Forall (fun x => x = "..") below)
      /\ clean_stack rooted below
  end.

(** The path of a stack. *)
Definition render (rooted : bool) (stack : list string) : string :=
  let body := strings_Join (rev stack) "/" in
  if rooted then String SLASH body
  else match body with EmptyString => "." | _ => body end.

(** A text without a line feed. *)
Definition one_line (s : string) : bool :=
  Yaml.all_chars (fun c => negb (Ascii.eqb c LF)) s.

(** Every line of [src] that starts with [date:] replaced by [repl], as it
    is. *)
Definition replaceDateLines (src repl : string) : string :=
  strings_Join
    (map (fun line => if strings_HasPrefix line "date:" then repl else line)
         (split_byte LF src))
    nl.

(** The tags of the front matter as the library writes them. *)
Definition tagsBlock (tags : list string) : string :=
  match tags with
  | [] => "tags: []" +:+ nl
  | _ => "tags:" +:+ nl +:+ sconcat (map (fun t => "    - " +:+ t +:+ nl) tags)
  end.

(** The front matter of a note, with the date as it stands in the note. *)
Definition canonicalFrontMatter (note : Note) : string :=
  "title: " +:+ Title note +:+ nl +:+ "date: " +:+ Date note +:+ nl +:+ tagsBlock (Tags note).


(** Strings that read back as themselves from a plain scalar. *)
Definition plain_in (s : string) : bool :=
  match s with
  | EmptyString => false
  | String c _ =>
      Yaml.plain_start c && Yaml.all_chars Yaml.plain_char s
      && negb (match Yaml.last_char s with Some d => Ascii.eqb d Yaml.SP | None => false end)
      && negb (Yaml.in_list s Yaml.null_words)
  end.

(** ** Sample buffers *)

(** The buffer of [TestProcessNotes_InvalidNotes]: a note without a title. *)
Definition buffer_without_title : string :=
"---
title:
date: 2023-10-01
tags:
  - testing
---
Content without a title.
".

(** Two notes of the same day. *)
Definition buffer_two_notes : string :=
"---
title: First
date: 2024-09-12
tags:
  - a
---
One
---
title: Second
date: 2024-09-12
tags:
---
Two
".

(** A note whose body holds the delimiter in the middle of a line. *)
Definition buffer_dashes_in_body : string :=
"---
title: T
date: 2024-09-12
---
see a---b".




(** The buffer of [TestProcessNotes_ValidNotes]. *)
Definition buffer_valid_note : string :=
"---
title: Test Note
date: 2023-10-01
tags:
    - testing
    - golang
---
This is a test note content.
".

(** The buffer of [TestParseNotes]. *)
Definition buffer_parse_notes : string :=
"---
title: First Note
date: 2023-10-01
tags:
  - test
---
Content of the first note.
---
title: Second Note
date: 2023-10-02
tags:
  - test
---
Content of the second note.
".

(** * The rest of the repository

    What follows [ProcessNotes] and what stands around it: the implementation
    of [FileSystem] on the operating system, the caller [main], the defaults
    of package [config], and the first version of the pipeline, which
    [main.go] still holds. *)

(** ** [OSFileSystem]

    The functions of package [os] that the repository calls on files, on a
    state of the operating system: each takes the state and returns it with
    its result. [File] is the type of open files. *)
Class OperatingSystem (W File : Type) : Type := {
  os_ReadFile : string -> W -> (error + string) * W;
  os_WriteFile : string -> string -> FileMode -> W -> option error * W;
  os_MkdirAll : string -> FileMode -> W -> option error * W;
  os_OpenFile : string -> Z -> FileMode -> W -> (error + File) * W;
  File_WriteString : File -> string -> W -> option error * W;
  File_Close : File -> W -> option error * W
}.

(** [os.O_APPEND|os.O_CREATE|os.O_WRONLY] (Linux). *)
Definition os_O_WRONLY : Z := 1.
Definition os_O_CREATE : Z := 64.
Definition os_O_APPEND : Z := 1024.
Definition appendFlags : Z := Z.lor (Z.lor os_O_APPEND os_O_CREATE) os_O_WRONLY.

(** [fmt.Errorf("failed to close file %s: %w", path, closeError)]. *)
Definition errClose (path : string) (closeError : error) : error :=
  foreignError ("failed to close file " +:+ path +:+ ": " +:+ error_Error closeError).

Section OSFileSystem.

Context {W File : Type} `{OS : OperatingSystem W File}.

(** [OSFileSystem.AppendToFile] of package [notes]. The result of the method
    has no name: the [return] statements fix it, and the deferred function,
    which runs after them, assigns the variable [err] only. The function
    below returns the result together with the last value of [err]. *)
Definition OSFileSystem_AppendToFile (path data : string) (w : W)
  : (option error * option error) * W :=
  match os_OpenFile path appendFlags 420 w with
  | (inl err, w) => ((Some err, Some err), w)
  | (inr f, w) =>
      let '(err, w) := File_WriteString f data w in
      let result := err in
      let '(closeError, w) := File_Close f w in
      let err := match closeError, err with
                 | Some ce, None => Some (errClose path ce)
                 | _, _ => err
                 end in
      ((result, err), w)
  end.

(** [OSFileSystem]: the implementation of [FileSystem] on the operating
    system. *)
#[export] Instance OSFileSystem : FileSystem W := {
  ReadFile path w := os_ReadFile path w;
  WriteFile path data perm w := os_WriteFile path data perm w;
  AppendToFile path data w :=
    let '(r, w) := OSFileSystem_AppendToFile path data w in (fst r, w);
  MkdirAll path perm w := os_MkdirAll path perm w
}.

End OSFileSystem.

(** ** Package [path/filepath], with any number of elements *)

(** [filepath.Join(elem...)]: the elements from the first one that is not
    empty, joined with slashes and cleaned. *)
Fixpoint filepath_JoinN (elem : list string) : string :=
  match elem with
  | [] => EmptyString
  | e :: rest =>
      if String.eqb e EmptyString then filepath_JoinN rest
      else filepath_Clean (strings_Join elem "/")
  end.

(** ** Package [config] *)

(** [Config]. *)
Record Config : Type := mkConfig {
  BufferFile : string;
  NotesDir : string;
  ConfigFile : string
}.

Definition dirName : string := "chrononoteai".

(** The default path of the configuration file in [InitializeWithArgs], for
    the home directory that [os.UserHomeDir] has returned. *)
Definition defaultConfigPath (homeDir : string) : string :=
  filepath_JoinN [homeDir; ".config"; "chrononoteai"; "config.json"].

(** [setDefaults]; [userHomeDir] is what [os.UserHomeDir] returns. *)
Definition setDefaults (userHomeDir : error + string) (c : Config) : option error * Config :=
  match userHomeDir with
  | inl err => (Some err, c)
  | inr homeDir =>
      (None, mkConfig (filepath_JoinN [homeDir; ".config"; dirName; "note.md"])
                      (filepath_JoinN [homeDir; ".config"; dirName; "notes"])
                      (ConfigFile c))
  end.

(** ** Package [main] *)

(** What [main] logs last. *)
Inductive Logged : Type :=
| ErrorReadingBufferFile (err : error)
| ErrorProcessingNotes (err : error)
| ErrorClearingBufferFile (err : error)
| BufferFileCleared.

Section Main.

Context `{Lib : Libraries} {S : Type} `{FS : FileSystem S}.

(** [main], once [config.Initialize] has returned [cfg]: the buffer file is
    read, its notes are processed, and the buffer file is overwritten with
    nothing. In the source [fs] is [notes.OSFileSystem{}]; nothing in [main]
    depends on it, and the function is written for every implementation of
    [FileSystem]. *)
Definition main (cfg : Config) (fs : S) : Logged * S :=
  match ReadFile (BufferFile cfg) fs with
  | (inl err, fs) => (ErrorReadingBufferFile err, fs)
  | (inr data, fs) =>
      match ProcessNotes data (NotesDir cfg) fs with
      | (Some err, fs) => (ErrorProcessingNotes err, fs)
      | (None, fs) =>
          match WriteFile (BufferFile cfg) EmptyString 420 fs with
          | (Some err, fs) => (ErrorClearingBufferFile err, fs)
          | (None, fs) => (BufferFileCleared, fs)
          end
      end
  end.

End Main.

(** ** The first version of package [main]

    [main.go] keeps the version of the pipeline from before package [notes]:
    it decodes what it can, validates nothing and formats the front matter
    itself. *)
Module Legacy.

(** [OSFileSystem.AppendToFile]. *)
Definition OSFileSystem_AppendToFile {W File : Type} `{OS : OperatingSystem W File}
    (path data : string) (w : W) : option error * W :=
  match os_OpenFile path appendFlags 420 w with
  | (inl err, w) => (Some err, w)
  | (inr f, w) =>
      let '(err, w) := File_WriteString f data w in
      let '(_, w) := File_Close f w in
      (err, w)
  end.

(** [buildMarkdownPath]: the empty path for a date that does not parse. *)
Definition buildMarkdownPath (note : Note) (baseDir : string) : string :=
  match time_Parse (Date note) with
  | inl _ => EmptyString
  | inr noteDate =>
      let datePath := filepath_Join baseDir (Time_Format_year_month noteDate) in
      let fileName := Sprintf_02d_md (Day noteDate) in
      filepath_Join datePath fileName
  end.

(** The variable [fullNote] of [processNotes]: the front matter is written
    by hand, the tags one per line after two spaces and a dash. *)
Definition fullNote (note : Note) : string :=
  let tags := fold_left (fun tags tag => tags +:+ "  - " +:+ tag +:+ nl) (Tags note) EmptyString in
  let yamlFrontMatter :=
    "---" +:+ nl +:+ "title: " +:+ Title note +:+ nl +:+ "date: " +:+ Date note +:+ nl
    +:+ "tags:" +:+ nl +:+ tags +:+ "---" in
  yamlFrontMatter +:+ nl +:+ Content note +:+ nl +:+ nl.

Section Pipeline.

Context `{Lib : Libraries}.

(** The body of the loop of [parseNotes] for the metadata [entries[i]];
    [content] is [entries[i+1]] when there is one. *)
Definition parseEntry (metadata : string) (content : option string) (notes : list Note)
  : list Note :=
  if String.eqb (strings_TrimSpace metadata) EmptyString then notes
  else match yaml_Unmarshal metadata zeroNote with
       | (Some _, _) => notes
       | (None, note) =>
           notes ++ [match content with
                     | Some c => with_Content note (strings_TrimSpace c)
                     | None => note
                     end]
       end.

(** The loop of [parseNotes] over [entries[1:]]. *)
Fixpoint parseEntries (entries : list string) (notes : list Note) : list Note :=
  match entries with
  | [] => notes
  | [metadata] => parseEntry metadata None notes
  | metadata :: content :: rest => parseEntries rest (parseEntry metadata (Some content) notes)
  end.

(** [parseNotes]. *)
Definition parseNotes (data : string) : list Note :=
  parseEntries (tail (strings_Split_delim data)) [].

Context {S : Type} `{FS : FileSystem S}.

(** The body of the loop of [processNotes]. *)
Definition saveNote (note : Note) (markdownDir : string) (fs : S) : option error * S :=
  let filePath := buildMarkdownPath note markdownDir in
  match MkdirAll (filepath_Dir filePath) os_ModePerm fs with
  | (Some err, fs) => (Some err, fs)
  | (None, fs) => AppendToFile filePath (fullNote note) fs
  end.

Fixpoint saveAll (notes : list Note) (markdownDir : string) (fs : S) : option error * S :=
  match notes with
  | [] => (None, fs)
  | note :: rest =>
      match saveNote note markdownDir fs with
      | (Some err, fs) => (Some err, fs)
      | (None, fs) => saveAll rest markdownDir fs
      end
  end.

(** [processNotes]. *)
Definition processNotes (data markdownDir : string) (fs : S) : option error * S :=
  saveAll (parseNotes data) markdownDir fs.

End Pipeline.

(** [MockFileSystem] of [main_test.go]: it keeps the last data written and
    the last data appended, and answers every call with [Err]. *)
Record MockFileSystem : Type := mkMock {
  ReadData : string;
  WriteData : string;
  AppendedData : string;
  Err : option error
}.

#[export] Instance MockFS : FileSystem MockFileSystem := {
  ReadFile _ mfs :=
    (match Err mfs with Some err => inl err | None => inr (ReadData mfs) end, mfs);
  WriteFile _ data _ mfs := (Err mfs, mkMock (ReadData mfs) data (AppendedData mfs) (Err mfs));
  AppendToFile _ data mfs := (Err mfs, mkMock (ReadData mfs) (WriteData mfs) data (Err mfs));
  MkdirAll _ _ mfs := (Err mfs, mfs)
}.

End Legacy.

(** ** Vocabulary of the further statements *)

(** Calls in pairs: a directory is created with every permission bit, the
    next call appends to a file of that directory, and so on; the last
    directory may be left without its file. *)
Fixpoint directoryThenFile (calls : list Call) : bool :=
  match calls with
  | [] => true
  | CallMkdirAll dir perm :: rest =>
      (perm =? os_ModePerm)
      && match rest with
         | [] => true
         | CallAppendToFile path _ :: rest' =>
             String.eqb dir (filepath_Dir path) && directoryThenFile rest'
         | _ => false
         end
  | _ => false
  end.

Definition readsOrOverwrites (c : Call) : bool :=
  match c with
  | CallReadFile _ | CallWriteFile _ _ _ => true
  | _ => false
  end.

(** The content of a file of the mock: the empty string for a file that is
    not there, as the map of the mock gives it. *)
Definition fileContent (fs : MockFileSystem) (path : string) : string :=
  default EmptyString (Files fs !! path).

Section Blocks.

Context `{Lib : Libraries}.

(** The block of a note when it goes to [path], and nothing otherwise. *)
Definition noteBlockAt (markdownDir path : string) (note : Note) : string :=
  match buildMarkdownPath note markdownDir, formatNoteContent note with
  | inr filePath, inr fullNote => if String.eqb filePath path then fullNote else EmptyString
  | _, _ => EmptyString
  end.

Definition blocksAt (markdownDir path : string) (notes : list Note) : string :=
  sconcat (map (noteBlockAt markdownDir path) notes).

End Blocks.

(** A library that leaves alone the field [Content], which the struct tags
    keep out of the YAML. *)
Definition leavesContent (L : Libraries) : Prop :=
  forall data note,
    yaml_Unmarshal (Libraries := L) data zeroNote = (None, note) -> Content note = EmptyString.

(** The calls of the first version for one note. *)
Definition legacyCalls (markdownDir : string) (note : Note) : list Call :=
  let filePath := Legacy.buildMarkdownPath note markdownDir in
  [CallMkdirAll (filepath_Dir filePath) os_ModePerm;
   CallAppendToFile filePath (Legacy.fullNote note)].

(** What stands in front of [YYYY/MM/DD.md] in the path of a note: nothing
    for an empty base and for a base that cleans to [.], the slash of the
    root, and otherwise the cleaned base with a slash. *)
Definition archivePrefix (baseDir : string) : string :=
  match baseDir with
  | EmptyString => EmptyString
  | _ =>
      let base := filepath_Clean baseDir in
      if String.eqb base "/" then "/"
      else if String.eqb base "." then EmptyString
      else base +:+ "/"
  end.

(** The path of a calendar day below the base. *)
Definition dayPath (y m d : Z) : string :=
  four_digits y +:+ "/" +:+ two_digits m +:+ "/" +:+ two_digits d +:+ ".md".

(** What [removeQuotesFromDateField] makes of one line. *)
Definition dateLine (dateValue line : string) : string :=
  if strings_HasPrefix line "date:" then "date: " +:+ dateValue else line.

(** The notes whose block reads back: valid, with a title and tags that the
    library writes as they are, and a content as [parseNotes] leaves it. *)
Definition archivable (note : Note) : Prop :=
  validateNote note = None
  /\ Yaml.plain_out (Title note) = true
  /\ Forall (fun t => Yaml.plain_out t = true) (Tags note)
  /\ strings_TrimSpace (Content note) = Content note
  /\ containsDelimiter (Content note) = false.

(** The block of a note as [formatNoteContent] writes it. *)
Definition canonicalBlock (note : Note) : string :=
  "---" +:+ nl +:+ canonicalFrontMatter note +:+ "---" +:+ nl +:+ Content note +:+ nl +:+ nl.

(** The two segments of a block. *)
Definition blockMetadata (note : Note) : string := nl +:+ canonicalFrontMatter note.
Definition blockBody (note : Note) : string := nl +:+ Content note +:+ nl +:+ nl.

(** The metadata segment of a block of the first version. *)
Definition legacyMetadata (note : Note) : string :=
  nl +:+ "title: " +:+ Title note +:+ nl +:+ "date: " +:+ Date note +:+ nl
  +:+ "tags:" +:+ nl +:+ sconcat (map (fun t => "  - " +:+ t +:+ nl) (Tags note)).

(** A block made of a metadata segment and of the body of the note. *)
Definition blockOf (metadata : Note -> string) (note : Note) : string :=
  "---" +:+ metadata note +:+ "---" +:+ blockBody note.

(** What reading a block back needs of its metadata segment and of the
    note: the delimiter cannot be found in the segment or across its end,
    the segment is not blank and decodes to the title, the date and the tags
    of the note, and the content is as [parseNotes] leaves one. *)
Definition readsBack (metadata : Note -> string) (n : Note) : Prop :=
  containsDelimiter (metadata n +:+ "--") = false
  /\ strings_TrimSpace (metadata n) <> EmptyString
  /\ Yaml.decode_front (metadata n)
     = Some (mkNote (Title n) (Date n) (Tags n) EmptyString)
  /\ strings_TrimSpace (Content n) = Content n
  /\ containsDelimiter (Content n) = false.

(** A byte of white space or of a rune beyond ASCII. *)
Definition spaceOrHigh (c : ascii) : bool := asciiSpace c || (128 <=? code c).

(** The first difference decides. *)
Definition lexThen (c rest : comparison) : comparison :=
  match c with
  | Eq => rest
  | Lt => Lt
  | Gt => Gt
  end.

(** The order of the calendar. *)
Definition dateCompare (y1 m1 d1 y2 m2 d2 : Z) : comparison :=
  lexThen (y1 ?= y2) (lexThen (m1 ?= m2) (d1 ?= d2)).

(** ** Further samples *)

(** Two notes, the second with a day that its month does not have. *)
Definition buffer_second_invalid : string :=
"---
title: First
date: 2024-09-12
---
One
---
title: Second
date: 2024-02-30
---
Two
".

(** * Properties *)

(** Every hypothesis on a list with a head, taken apart. *)
Ltac invert_Forall :=
  repeat match goal with
         | H : Forall _ (_ :: _) |- _ => inversion H; subst; clear H
         end.

(** ** Strings *)

Lemma append_assoc (a b c : string) : (a +:+ b) +:+ c = a +:+ (b +:+ c).
Proof. induction a as [|x a IH]; simpl; [reflexivity | rewrite IH; reflexivity]. Qed.

Lemma append_nil_r (a : string) : a +:+ EmptyString = a.
Proof. induction a as [|x a IH]; simpl; [reflexivity | rewrite IH; reflexivity]. Qed.

(** ** The tests of the package, on the model

    The expectations of [notes_test.go], with the description of the YAML
    library completed into an instance. *)

Example TestFormatNoteContent_PostProcessing :
  formatNoteContent (Lib := Yaml.Reference)
    (mkNote "Test Note" "2023-10-01" ["testing"; "golang"] "This is a test note content.")
  = inr "---
title: Test Note
date: 2023-10-01
tags:
    - testing
    - golang
---
This is a test note content.

".
Proof. vm_compute. reflexivity. Qed.

Example TestProcessNotes_ValidNotes :
  let r := ProcessNotes (Lib := Yaml.Reference) (FS := MockFS) buffer_valid_note "/notes"
             NewMockFileSystem in
  fst r = None
  /\ Files (snd r) !! "/notes/2023/10/01.md" = Some "---
title: Test Note
date: 2023-10-01
tags:
    - testing
    - golang
---
This is a test note content.

".
Proof. vm_compute. split; reflexivity. Qed.

Example TestProcessNotes_InvalidNotes :
  option_map error_Error
    (fst (ProcessNotes (Lib := Yaml.Reference) (FS := MockFS) buffer_without_title "/notes"
            NewMockFileSystem))
  = Some "missing title".
Proof. vm_compute. reflexivity. Qed.

Example TestValidateNote :
  validateNote (mkNote "Valid Note" "2023-10-01" [] EmptyString) = None
  /\ validateNote (mkNote EmptyString "2023-10-01" [] EmptyString) <> None.
Proof. split; [vm_compute; reflexivity | vm_compute; discriminate]. Qed.

Example TestParseNotes :
  option_map (map Title)
    (match parseNotes (Lib := Yaml.Reference) buffer_parse_notes with
     | inr notes => Some notes
     | inl _ => None
     end)
  = Some ["First Note"; "Second Note"].
Proof. vm_compute. reflexivity. Qed.

(** Two notes of the same day land in one file, in the order of the buffer. *)
Example two_notes_of_one_day :
  Files (snd (ProcessNotes (Lib := Yaml.Reference) (FS := MockFS) buffer_two_notes "/archive"
                NewMockFileSystem)) !! "/archive/2024/09/12.md"
  = Some "---
title: First
date: 2024-09-12
tags:
    - a
---
One

---
title: Second
date: 2024-09-12
tags: []
---
Two

".
Proof. vm_compute. reflexivity. Qed.

(** ** The loops of the pipeline *)

Section PipelineFacts.

Context `{Lib : Libraries}.

Lemma parsePairs_inr pairs acc notes :
  parsePairs pairs acc = inr notes ->
  Forall (fun p => decodeError p = None) (List.filter (fun p => negb (isNoOp p)) pairs)
  /\ notes = acc ++ map decodedNote (List.filter (fun p => negb (isNoOp p)) pairs).
Proof.
  revert acc notes.
  induction pairs as [|[metadata content] rest IH]; intros acc notes H; simpl in *.
  - inversion H. rewrite app_nil_r. split; [constructor | reflexivity].
  - destruct (isNoOp (metadata, content)) eqn:Hn; simpl.
    + apply IH, H.
    + destruct (yaml_Unmarshal metadata zeroNote) as [[err|] note] eqn:Hu; [discriminate|].
      apply IH in H as [Hall Hnotes]. split.
      * constructor; [unfold decodeError; simpl; rewrite Hu; reflexivity | exact Hall].
      * rewrite Hnotes, <- app_assoc. unfold decodedNote at 2. simpl. rewrite Hu.
        reflexivity.
Qed.

Lemma parsePairs_all_decoded pairs acc :
  Forall (fun p => decodeError p = None) (List.filter (fun p => negb (isNoOp p)) pairs) ->
  parsePairs pairs acc
  = inr (acc ++ map decodedNote (List.filter (fun p => negb (isNoOp p)) pairs)).
Proof.
  revert acc. induction pairs as [|[metadata content] rest IH]; intros acc H; simpl in *.
  - rewrite app_nil_r. reflexivity.
  - destruct (isNoOp (metadata, content)) eqn:Hn; simpl in *.
    + apply IH, H.
    + inversion H as [|p l Hp Hl]; subst. unfold decodeError in Hp. simpl in Hp.
      unfold decodedNote. simpl.
      destruct (yaml_Unmarshal metadata zeroNote) as [[err|] note]; [discriminate|].
      rewrite (IH _ Hl). simpl. rewrite <- app_assoc. reflexivity.
Qed.

Lemma parsePairs_first_failure pairs acc pre p post err :
  List.filter (fun p => negb (isNoOp p)) pairs = pre ++ p :: post ->
  Forall (fun q => decodeError q = None) pre ->
  decodeError p = Some err ->
  parsePairs pairs acc = inl err.
Proof.
  revert acc pre. induction pairs as [|[metadata content] rest IH]; intros acc pre Hk Hpre Hp.
  - destruct pre; discriminate.
  - simpl in *. destruct (isNoOp (metadata, content)) eqn:Hn; simpl in *.
    + eapply IH; eauto.
    + destruct pre as [|q pre]; simpl in Hk; inversion Hk; subst.
      * unfold decodeError in Hp. simpl in Hp.
        destruct (yaml_Unmarshal metadata zeroNote) as [[e|] note]; simpl in Hp;
          congruence.
      * inversion Hpre as [|x l Hq Hl]; subst. unfold decodeError in Hq. simpl in Hq.
        destruct (yaml_Unmarshal metadata zeroNote) as [[e|] note]; simpl in Hq;
          [discriminate|].
        eapply IH; eauto.
Qed.

Lemma validateAll_Some notes :
  Exists (fun n => validateNote n <> None) notes ->
  exists err n, In n notes /\ validateNote n = Some err /\ validateAll notes = Some err.
Proof.
  induction 1 as [n l Hn | n l _ IH]; simpl.
  - destruct (validateNote n) as [err|] eqn:Hv; [|congruence].
    exists err, n. auto.
  - destruct (validateNote n) as [err|] eqn:Hv.
    + exists err, n. auto.
    + destruct IH as (err & m & Hin & Hm & Ha). exists err, m. auto.
Qed.

Lemma validateAll_None notes :
  validateAll notes = None <-> Forall (fun n => validateNote n = None) notes.
Proof.
  induction notes as [|n l IH]; simpl.
  - split; [constructor | reflexivity].
  - destruct (validateNote n) eqn:Hv.
    + split; [discriminate | intros H; inversion H; congruence].
    + rewrite IH. split; [constructor; assumption | intros H; inversion H; assumption].
Qed.

Context {S : Type} `{FS : FileSystem S}.

(** Saving through the traced implementation is saving through the
    implementation underneath, with the calls written down. *)
Lemma saveNote_traced note dir calls fs :
  exists k,
    saveNote (FS := TracedFS) note dir (calls, fs)
    = (fst (saveNote note dir fs), (calls ++ firstn k (noteCalls dir note), snd (saveNote note dir fs)))
    /\ (fst (saveNote note dir fs) = None -> k = length (noteCalls dir note)).
Proof.
  unfold saveNote, noteCalls.
  destruct (buildMarkdownPath note dir) as [e|filePath].
  { exists O. simpl. rewrite app_nil_r. split; [reflexivity | discriminate]. }
  simpl.
  destruct (MkdirAll (filepath_Dir filePath) os_ModePerm fs) as [[e|] fs1] eqn:Hm.
  { exists 1%nat. destruct (formatNoteContent note); simpl; split;
      first [reflexivity | discriminate]. }
  destruct (formatNoteContent note) as [e|fullNote].
  { exists 1%nat. simpl. split; [reflexivity | discriminate]. }
  simpl. destruct (AppendToFile filePath fullNote fs1) as [[e|] fs2] eqn:Ha;
    exists 2%nat; simpl; rewrite <- app_assoc; simpl; split; first [reflexivity | discriminate].
Qed.

Lemma saveAll_traced notes dir calls fs :
  exists k,
    saveAll (FS := TracedFS) notes dir (calls, fs)
    = (fst (saveAll notes dir fs),
       (calls ++ firstn k (plannedCalls dir notes), snd (saveAll notes dir fs)))
    /\ (fst (saveAll notes dir fs) = None -> k = length (plannedCalls dir notes)).
Proof.
  revert calls fs. induction notes as [|n l IH]; intros calls fs.
  - exists O. simpl. rewrite app_nil_r. split; reflexivity.
  - simpl. destruct (saveNote_traced n dir calls fs) as (k & Hk & Hfull).
    rewrite Hk. unfold plannedCalls. simpl.
    destruct (saveNote n dir fs) as [[e|] fs1] eqn:Hs; simpl in *.
    + exists (Nat.min k (length (noteCalls dir n))). split; [|discriminate].
      rewrite firstn_app.
      replace (Nat.min k (length (noteCalls dir n)) - length (noteCalls dir n))%nat
        with O by lia.
      simpl. rewrite app_nil_r. rewrite <- firstn_firstn, firstn_all. reflexivity.
    + rewrite (Hfull eq_refl), firstn_all.
      destruct (IH (calls ++ noteCalls dir n) fs1) as (k' & Hk' & Hfull').
      exists (length (noteCalls dir n) + k')%nat. rewrite Hk'. split.
      * rewrite firstn_app_2, app_assoc. reflexivity.
      * intros H. rewrite (Hfull' H), length_app. reflexivity.
Qed.

Lemma saveAll_app pre post dir fs :
  saveAll (pre ++ post) dir fs
  = match saveAll pre dir fs with
    | (Some err, fs') => (Some err, fs')
    | (None, fs') => saveAll post dir fs'
    end.
Proof.
  revert fs. induction pre as [|n l IH]; intros fs; simpl.
  - reflexivity.
  - destruct (saveNote n dir fs) as [[e|] fs1]; [reflexivity | apply IH].
Qed.

End PipelineFacts.

(** ** The orchestrator *)

Section Orchestrator.

Context `{Lib : Libraries}.

Lemma ProcessNotes_respondAlike {S1 S2 : Type} `{FS1 : FileSystem S1} `{FS2 : FileSystem S2}
    (R : S1 -> S2 -> Prop) data dir s1 s2 :
  respondAlike R -> R s1 s2 ->
  fst (ProcessNotes data dir s1) = fst (ProcessNotes data dir s2)
  /\ R (snd (ProcessNotes data dir s1)) (snd (ProcessNotes data dir s2)).
Proof.
  intros [Hmk Hap] HR. unfold ProcessNotes.
  destruct (parseNotes data) as [e|notes]; [simpl; auto|].
  destruct (validateAll notes) as [e|]; [simpl; auto|].
  clear data. revert s1 s2 HR. induction notes as [|n l IH]; intros s1 s2 HR; simpl; [auto|].
  unfold saveNote. destruct (buildMarkdownPath n dir) as [e|filePath]; [simpl; auto|].
  destruct (Hmk (filepath_Dir filePath) os_ModePerm s1 s2 HR) as [Hr1 HR1].
  destruct (MkdirAll (filepath_Dir filePath) os_ModePerm s1) as [r1 t1].
  destruct (MkdirAll (filepath_Dir filePath) os_ModePerm s2) as [r2 t2].
  simpl in Hr1, HR1. subst r2. destruct r1 as [e|]; [simpl; auto|].
  destruct (formatNoteContent n) as [e|fullNote]; [simpl; auto|].
  destruct (Hap filePath fullNote t1 t2 HR1) as [Hr2 HR2].
  destruct (AppendToFile filePath fullNote t1) as [r1 u1].
  destruct (AppendToFile filePath fullNote t2) as [r2 u2].
  simpl in Hr2, HR2. subst r2. destruct r1 as [e|]; [simpl; auto|].
  apply IH, HR2.
Qed.

Lemma respondAlike_traced {S1 S2 : Type} `{FS1 : FileSystem S1} `{FS2 : FileSystem S2}
    (R : S1 -> S2 -> Prop) :
  respondAlike R ->
  respondAlike (FS1 := TracedFS) (FS2 := TracedFS)
    (fun t1 t2 => fst t1 = fst t2 /\ R (snd t1) (snd t2)).
Proof.
  intros [Hmk Hap]. split.
  - intros path perm [c1 s1] [c2 s2] [Hc HR]. simpl in *. subst c2.
    destruct (Hmk path perm s1 s2 HR) as [Hr HR'].
    destruct (MkdirAll path perm s1), (MkdirAll path perm s2). simpl in *. auto.
  - intros path data [c1 s1] [c2 s2] [Hc HR]. simpl in *. subst c2.
    destruct (Hap path data s1 s2 HR) as [Hr HR'].
    destruct (AppendToFile path data s1), (AppendToFile path data s2). simpl in *. auto.
Qed.

End Orchestrator.

(** C1. All-or-nothing validation: when some pair of the buffer decodes into
    a note that fails validation, [ProcessNotes] returns an error and leaves
    every file system as it found it; seen through the traced implementation,
    it makes no call at all. The error is the validation error of a note of
    the buffer whenever all the notes decode. *)
Theorem validation_all_or_nothing `{Lib : Libraries} {S : Type} `{FS : FileSystem S}
    (data markdownDir : string) :
  Exists (fun p => decodeError p = None /\ validateNote (decodedNote p) <> None)
         (keptPairs data) ->
  exists err,
    (forall fs, ProcessNotes data markdownDir fs = (Some err, fs))
    /\ (forall calls fs,
          ProcessNotes (FS := TracedFS) data markdownDir (calls, fs) = (Some err, (calls, fs)))
    /\ (forall notes,
          parseNotes data = inr notes ->
          exists n, In n notes /\ validateNote n = Some err).
Proof.
  intros Hbad. destruct (parseNotes data) as [e|notes] eqn:Hparse.
  - exists e. repeat split; try discriminate;
      intros; unfold ProcessNotes; rewrite Hparse; reflexivity.
  - assert (Hinvalid : Exists (fun n => validateNote n <> None) notes).
    { apply parsePairs_inr in Hparse as [_ ->]. simpl. fold (keptPairs data).
      apply List.Exists_exists in Hbad as (p & Hin & _ & Hp).
      apply List.Exists_exists. exists (decodedNote p). split; [|exact Hp].
      apply in_map, Hin. }
    destruct (validateAll_Some notes Hinvalid) as (err & n & Hin & Hn & Hall).
    exists err. split; [|split].
    + intros fs. unfold ProcessNotes. rewrite Hparse, Hall. reflexivity.
    + intros calls fs. unfold ProcessNotes. rewrite Hparse, Hall. reflexivity.
    + intros notes' Heq. inversion Heq; subst. eauto.
Qed.

Lemma validation_all_or_nothing_witness :
  exists err,
    (forall fs : MockFileSystem,
        ProcessNotes (Lib := Yaml.Reference) buffer_without_title "/notes" fs = (Some err, fs))
    /\ (forall calls (fs : MockFileSystem),
          ProcessNotes (Lib := Yaml.Reference) (FS := TracedFS) buffer_without_title "/notes"
            (calls, fs) = (Some err, (calls, fs)))
    /\ (forall notes,
          parseNotes (Lib := Yaml.Reference) buffer_without_title = inr notes ->
          exists n, In n notes /\ validateNote n = Some err).
Proof.
  apply (validation_all_or_nothing (Lib := Yaml.Reference) (FS := MockFS)).
  apply Exists_cons_hd. split; [vm_compute; reflexivity | vm_compute; discriminate].
Defined.

(** C5. A decode failure aborts the whole run: when the metadata of some pair
    that is not skipped fails to decode, [ProcessNotes] returns the error of
    the first such pair, whatever was decoded before it, and leaves every file
    system as it found it, the file that holds the buffer included; seen
    through the traced implementation, it makes no call at all. *)
Theorem decode_failure_aborts_run `{Lib : Libraries} {S : Type} `{FS : FileSystem S}
    (data markdownDir : string) :
  Exists (fun p => decodeError p <> None) (keptPairs data) ->
  exists pre p post err,
    keptPairs data = pre ++ p :: post
    /\ Forall (fun q => decodeError q = None) pre
    /\ decodeError p = Some err
    /\ parseNotes data = inl err
    /\ (forall fs, ProcessNotes data markdownDir fs = (Some err, fs))
    /\ (forall calls fs,
          ProcessNotes (FS := TracedFS) data markdownDir (calls, fs) = (Some err, (calls, fs))).
Proof.
  intros Hbad.
  assert (Hsplit : exists pre p post err,
             keptPairs data = pre ++ p :: post
             /\ Forall (fun q => decodeError q = None) pre /\ decodeError p = Some err).
  { induction Hbad as [p l Hp | p l _ IH].
    - destruct (decodeError p) as [err|] eqn:He; [|congruence].
      exists [], p, l, err. simpl. auto.
    - destruct (decodeError p) as [err|] eqn:He.
      + exists [], p, l, err. simpl. auto.
      + destruct IH as (pre & q & post & err & -> & Hpre & Hq).
        exists (p :: pre), q, post, err. simpl. auto. }
  destruct Hsplit as (pre & p & post & err & Hk & Hpre & Hp).
  assert (Hparse : parseNotes data = inl err)
    by (eapply parsePairs_first_failure; eauto).
  exists pre, p, post, err. repeat split; auto;
    intros; unfold ProcessNotes; rewrite Hparse; reflexivity.
Qed.

Lemma decode_failure_aborts_run_witness :
  exists pre p post err,
    keptPairs buffer_dashes_in_body = pre ++ p :: post
    /\ Forall (fun q => decodeError (Lib := Yaml.Reference) q = None) pre
    /\ decodeError (Lib := Yaml.Reference) p = Some err
    /\ parseNotes (Lib := Yaml.Reference) buffer_dashes_in_body = inl err
    /\ (forall fs : MockFileSystem,
          ProcessNotes (Lib := Yaml.Reference) buffer_dashes_in_body "/notes" fs = (Some err, fs))
    /\ (forall calls (fs : MockFileSystem),
          ProcessNotes (Lib := Yaml.Reference) (FS := TracedFS) buffer_dashes_in_body "/notes"
            (calls, fs) = (Some err, (calls, fs))).
Proof.
  apply (decode_failure_aborts_run (Lib := Yaml.Reference) (FS := MockFS)).
  apply Exists_cons_tl, Exists_cons_hd. vm_compute. discriminate.
Defined.

(** C8. Write phase: the notes are saved in the order of the buffer, and a
    failure is returned at once with nothing undone. The notes are the kept
    pairs decoded in the order of the buffer; the calls made are an initial
    part of the calls planned for them in that order, all of them when the run
    succeeds; when the notes before some note are saved and saving that note
    fails, the run returns that error with the file system exactly as the
    failing step left it; and a step fails only with the error of [MkdirAll],
    of the encoder or of [AppendToFile]. *)
Theorem write_phase_in_order_without_rollback `{Lib : Libraries} {S : Type}
    `{FS : FileSystem S} (data markdownDir : string) (notes : list Note) :
  parseNotes data = inr notes ->
  validateAll notes = None ->
  notes = map decodedNote (keptPairs data)
  /\ (forall calls fs, exists k,
        ProcessNotes (FS := TracedFS) data markdownDir (calls, fs)
        = (fst (ProcessNotes data markdownDir fs),
           (calls ++ firstn k (plannedCalls markdownDir notes),
            snd (ProcessNotes data markdownDir fs)))
        /\ (fst (ProcessNotes data markdownDir fs) = None ->
            k = length (plannedCalls markdownDir notes)))
  /\ (forall fs pre n post fs1 err fs2,
        notes = pre ++ n :: post ->
        saveAll pre markdownDir fs = (None, fs1) ->
        saveNote n markdownDir fs1 = (Some err, fs2) ->
        ProcessNotes data markdownDir fs = (Some err, fs2))
  /\ (forall n fs1 err fs2,
        In n notes ->
        saveNote n markdownDir fs1 = (Some err, fs2) ->
        exists filePath,
          buildMarkdownPath n markdownDir = inr filePath
          /\ (MkdirAll (filepath_Dir filePath) os_ModePerm fs1 = (Some err, fs2)
              \/ exists fs',
                   MkdirAll (filepath_Dir filePath) os_ModePerm fs1 = (None, fs')
                   /\ ((formatNoteContent n = inl err /\ fs2 = fs')
                       \/ exists fullNote,
                            formatNoteContent n = inr fullNote
                            /\ AppendToFile filePath fullNote fs' = (Some err, fs2)))).
Proof.
  intros Hparse Hvalid. split; [|split; [|split]].
  - apply parsePairs_inr in Hparse as [_ ->]. reflexivity.
  - intros calls fs. unfold ProcessNotes. rewrite Hparse, Hvalid.
    apply saveAll_traced.
  - intros fs pre n post fs1 err fs2 -> Hpre Hn. unfold ProcessNotes.
    rewrite Hparse, Hvalid, saveAll_app, Hpre. simpl. rewrite Hn. reflexivity.
  - intros n fs1 err fs2 Hin Hsave.
    apply validateAll_None in Hvalid. rewrite List.Forall_forall in Hvalid.
    specialize (Hvalid n Hin). unfold validateNote in Hvalid.
    unfold saveNote, buildMarkdownPath in *.
    destruct (String.eqb (Title n) EmptyString); [discriminate|].
    destruct (String.eqb (Date n) EmptyString); [discriminate|].
    destruct (time_Parse (Date n)) as [pe|t]; [discriminate|].
    eexists. split; [reflexivity|].
    destruct (MkdirAll _ os_ModePerm fs1) as [[e|] fs'] eqn:Hm.
    + inversion Hsave; subst. left. reflexivity.
    + right. exists fs'. split; [reflexivity|].
      destruct (formatNoteContent n) as [e|fullNote].
      * inversion Hsave; subst. left. auto.
      * right. exists fullNote. split; [reflexivity|].
        destruct (AppendToFile _ fullNote fs') as [[e|] fs3]; inversion Hsave; subst.
        reflexivity.
Qed.

Lemma write_phase_in_order_without_rollback_witness :
  let r := ProcessNotes (Lib := Yaml.Reference) (FS := LimitedFS (FS := MockFS))
             buffer_two_notes "/archive" (3%nat, NewMockFileSystem) in
  fst r = Some errNoSpace
  /\ Files (snd (snd r)) !! "/archive/2024/09/12.md"
     = Some "---
title: First
date: 2024-09-12
tags:
    - a
---
One

".
Proof.
  pose proof (write_phase_in_order_without_rollback
                (Lib := Yaml.Reference) (FS := LimitedFS (FS := MockFS))
                buffer_two_notes "/archive"
                [mkNote "First" "2024-09-12" ["a"] "One";
                 mkNote "Second" "2024-09-12" [] "Two"]) as H.
  destruct H as (_ & _ & Hfail & _); [vm_compute; reflexivity | vm_compute; reflexivity |].
  cbv zeta.
  erewrite (Hfail (3%nat, NewMockFileSystem) [mkNote "First" "2024-09-12" ["a"] "One"]
              (mkNote "Second" "2024-09-12" [] "Two") []);
    [ | reflexivity | vm_compute; reflexivity | vm_compute; reflexivity ].
  vm_compute. split; reflexivity.
Defined.

(** C10. Determinism: on two file systems that answer alike and start in
    related states (equal states of one implementation in particular), two
    runs on the same buffer and base directory return the same result, end in
    related states and make the same calls with the same arguments. *)
Theorem ProcessNotes_deterministic `{Lib : Libraries} {S1 S2 : Type}
    `{FS1 : FileSystem S1} `{FS2 : FileSystem S2} (R : S1 -> S2 -> Prop)
    (data markdownDir : string) (s1 : S1) (s2 : S2) :
  respondAlike R ->
  R s1 s2 ->
  fst (ProcessNotes data markdownDir s1) = fst (ProcessNotes data markdownDir s2)
  /\ R (snd (ProcessNotes data markdownDir s1)) (snd (ProcessNotes data markdownDir s2))
  /\ (forall calls,
        fst (snd (ProcessNotes (FS := TracedFS) data markdownDir (calls, s1)))
        = fst (snd (ProcessNotes (FS := TracedFS) data markdownDir (calls, s2)))).
Proof.
  intros Halike HR.
  destruct (ProcessNotes_respondAlike R data markdownDir s1 s2 Halike HR) as [Hres Hst].
  split; [exact Hres|]. split; [exact Hst|]. intros calls.
  apply (ProcessNotes_respondAlike (FS1 := TracedFS) (FS2 := TracedFS)
           (fun t1 t2 => fst t1 = fst t2 /\ R (snd t1) (snd t2))
           data markdownDir (calls, s1) (calls, s2)).
  - apply respondAlike_traced, Halike.
  - simpl. auto.
Qed.

Lemma ProcessNotes_deterministic_witness :
  fst (ProcessNotes (Lib := Yaml.Reference) (FS := MockFS) buffer_two_notes "/archive"
         NewMockFileSystem)
  = fst (ProcessNotes (Lib := Yaml.Reference) (FS := TracedFS (FS := MockFS)) buffer_two_notes
           "/archive" ([], NewMockFileSystem))
  /\ snd (ProcessNotes (Lib := Yaml.Reference) (FS := MockFS) buffer_two_notes "/archive"
            NewMockFileSystem)
     = snd (snd (ProcessNotes (Lib := Yaml.Reference) (FS := TracedFS (FS := MockFS))
                   buffer_two_notes "/archive" ([], NewMockFileSystem)))
  /\ (forall calls,
        fst (snd (ProcessNotes (Lib := Yaml.Reference) (FS := TracedFS (FS := MockFS))
                    buffer_two_notes "/archive" (calls, NewMockFileSystem)))
        = fst (snd (ProcessNotes (Lib := Yaml.Reference)
                      (FS := TracedFS (FS := TracedFS (FS := MockFS)))
                      buffer_two_notes "/archive" (calls, ([], NewMockFileSystem))))).
Proof.
  apply (ProcessNotes_deterministic (Lib := Yaml.Reference)
           (FS1 := MockFS) (FS2 := TracedFS (FS := MockFS))
           (fun s1 t2 => s1 = snd t2)
           buffer_two_notes "/archive" NewMockFileSystem ([], NewMockFileSystem)).
  - split; intros; subst; split; reflexivity.
  - reflexivity.
Defined.

(** ** Dates *)

Lemma isDigitB_range c : isDigitB c = true -> 0 <= digitVal c <= 9.
Proof. unfold isDigitB, digitVal. intros H. apply andb_true_iff in H. lia. Qed.

Lemma digitChar_digitVal c : isDigitB c = true -> digitChar (digitVal c) = c.
Proof.
  intros H. apply isDigitB_range in H. unfold digitChar, digitVal, code, byte_of in *.
  replace (48 + (Z.of_N (N_of_ascii c) - 48)) with (Z.of_N (N_of_ascii c)) by lia.
  rewrite N2Z.id. apply ascii_N_embedding.
Qed.

Lemma digitChar_digit k :
  0 <= k <= 9 -> isDigitB (digitChar k) = true /\ digitVal (digitChar k) = k.
Proof.
  intros H.
  assert (Hk : k = 0 \/ k = 1 \/ k = 2 \/ k = 3 \/ k = 4 \/ k = 5 \/ k = 6 \/ k = 7
               \/ k = 8 \/ k = 9) by lia.
  repeat (destruct Hk as [-> | Hk]; [split; reflexivity|]). subst. split; reflexivity.
Qed.

Lemma isDigitB_not_dash c : isDigitB c = true -> is_dash c = false.
Proof.
  intros H. unfold is_dash. destruct (Ascii.eqb_spec c "-"%char) as [->|]; [|reflexivity].
  discriminate H.
Qed.

Lemma two_digits_digits a b :
  isDigitB a = true -> isDigitB b = true ->
  two_digits (digitVal a * 10 + digitVal b) = String a (String b EmptyString).
Proof.
  intros Ha Hb. unfold two_digits.
  pose proof (isDigitB_range a Ha). pose proof (isDigitB_range b Hb).
  replace ((digitVal a * 10 + digitVal b) / 10) with (digitVal a)
    by (Z.div_mod_to_equations; lia).
  replace ((digitVal a * 10 + digitVal b) mod 10) with (digitVal b)
    by (Z.div_mod_to_equations; lia).
  rewrite !digitChar_digitVal by assumption. reflexivity.
Qed.

Lemma four_digits_digits a b c d :
  isDigitB a = true -> isDigitB b = true -> isDigitB c = true -> isDigitB d = true ->
  four_digits (((digitVal a * 10 + digitVal b) * 10 + digitVal c) * 10 + digitVal d)
  = String a (String b (String c (String d EmptyString))).
Proof.
  intros Ha Hb Hc Hd. unfold four_digits.
  pose proof (isDigitB_range a Ha). pose proof (isDigitB_range b Hb).
  pose proof (isDigitB_range c Hc). pose proof (isDigitB_range d Hd).
  set (y := ((digitVal a * 10 + digitVal b) * 10 + digitVal c) * 10 + digitVal d).
  replace (y / 1000) with (digitVal a) by (subst y; Z.div_mod_to_equations; lia).
  replace (y / 100 mod 10) with (digitVal b) by (subst y; Z.div_mod_to_equations; lia).
  replace (y mod 100) with (digitVal c * 10 + digitVal d)
    by (subst y; Z.div_mod_to_equations; lia).
  rewrite two_digits_digits, !digitChar_digitVal by assumption. reflexivity.
Qed.

(** A date that parses is made of ten bytes: digits and two dashes. *)
Lemma time_Parse_inr_shape s t :
  time_Parse s = inr t ->
  exists c0 c1 c2 c3 m0 m1 d0 d1,
    s = String c0 (String c1 (String c2 (String c3 (String "-"%char
          (String m0 (String m1 (String "-"%char (String d0 (String d1 EmptyString)))))))))
    /\ Forall (fun c => isDigitB c = true) [c0; c1; c2; c3; m0; m1; d0; d1]
    /\ t = mkTime (((digitVal c0 * 10 + digitVal c1) * 10 + digitVal c2) * 10 + digitVal c3)
                  (digitVal m0 * 10 + digitVal m1) (digitVal d0 * 10 + digitVal d1)
    /\ 1 <= Month t <= 12 /\ 1 <= Day t <= daysIn (Month t) (Year t).
Proof.
  unfold time_Parse. intros H.
  destruct s as [|c0 [|c1 [|c2 [|c3 v1]]]]; try discriminate.
  destruct (isDigitB c0) eqn:D0; simpl in H; [|discriminate].
  rewrite D0 in H.
  destruct (isDigitB c1) eqn:D1; [|discriminate].
  destruct (isDigitB c2) eqn:D2; [|discriminate].
  destruct (isDigitB c3) eqn:D3; [|discriminate].
  destruct v1 as [|dash1 v2]; [discriminate|]. simpl in H.
  destruct (is_dash dash1) eqn:Hd1; [|discriminate].
  apply Ascii.eqb_eq in Hd1. subst dash1.
  destruct v2 as [|m0 [|m1 v3]]; simpl in H; try discriminate.
  { destruct (isDigitB m0); discriminate. }
  destruct (isDigitB m0) eqn:M0; [|discriminate].
  destruct (isDigitB m1) eqn:M1; [|discriminate].
  destruct ((digitVal m0 * 10 + digitVal m1 <=? 0) || (12 <? digitVal m0 * 10 + digitVal m1))
    eqn:Hm; [discriminate|].
  destruct v3 as [|dash2 v4]; [discriminate|]. simpl in H.
  destruct (is_dash dash2) eqn:Hd2; [|discriminate].
  apply Ascii.eqb_eq in Hd2. subst dash2.
  destruct v4 as [|d0 [|d1 v5]]; simpl in H; try discriminate.
  { destruct (isDigitB d0); discriminate. }
  destruct (isDigitB d0) eqn:E0; [|discriminate].
  destruct (isDigitB d1) eqn:E1; [|discriminate].
  destruct v5; [|discriminate].
  match type of H with (if ?b then _ else _) = _ => destruct b eqn:Hday; [discriminate|] end.
  inversion H; subst t; clear H.
  exists c0, c1, c2, c3, m0, m1, d0, d1. simpl.
  apply orb_false_iff in Hm as [Hm1 Hm2]. apply orb_false_iff in Hday as [Hy1 Hy2].
  repeat split; try lia. repeat constructor; assumption.
Qed.

Lemma time_Parse_dateString y m d :
  0 <= y <= 9999 -> 1 <= m <= 12 -> 1 <= d <= daysIn m y ->
  time_Parse (dateString y m d) = inr (mkTime y m d).
Proof.
  intros Hy Hm Hd.
  assert (Hd31 : d <= 31).
  { unfold daysIn in Hd. destruct (m =? 2); [destruct (isLeap y)|]; [lia|lia|].
    destruct ((m =? 4) || (m =? 6) || (m =? 9) || (m =? 11)); lia. }
  unfold dateString, four_digits, two_digits, time_Parse. simpl.
  destruct (digitChar_digit (y / 1000)) as [A1 A2]; [Z.div_mod_to_equations; lia|].
  destruct (digitChar_digit (y / 100 mod 10)) as [B1 B2]; [Z.div_mod_to_equations; lia|].
  destruct (digitChar_digit (y mod 100 / 10)) as [C1 C2]; [Z.div_mod_to_equations; lia|].
  destruct (digitChar_digit (y mod 100 mod 10)) as [D1 D2]; [Z.div_mod_to_equations; lia|].
  destruct (digitChar_digit (m / 10)) as [E1 E2]; [Z.div_mod_to_equations; lia|].
  destruct (digitChar_digit (m mod 10)) as [F1 F2]; [Z.div_mod_to_equations; lia|].
  destruct (digitChar_digit (d / 10)) as [G1 G2]; [Z.div_mod_to_equations; lia|].
  destruct (digitChar_digit (d mod 10)) as [H1 H2]; [Z.div_mod_to_equations; lia|].
  rewrite A1, B1, C1, D1, A2, B2, C2, D2. simpl.
  rewrite E1, F1, E2, F2.
  replace (m / 10 * 10 + m mod 10) with m by (Z.div_mod_to_equations; lia).
  replace ((m <=? 0) || (12 <? m)) with false by lia.
  simpl. rewrite G1, H1, G2, H2.
  replace (d / 10 * 10 + d mod 10) with d by (Z.div_mod_to_equations; lia).
  replace ((((0 * 10 + y / 1000) * 10 + y / 100 mod 10) * 10 + y mod 100 / 10) * 10
           + y mod 100 mod 10) with y by (Z.div_mod_to_equations; lia).
  replace ((d <? 1) || (daysIn m y <? d)) with false by lia.
  reflexivity.
Qed.

Lemma time_Parse_calendarDate s :
  (exists t, time_Parse s = inr t) <-> calendarDate s.
Proof.
  split.
  - intros [t H]. apply time_Parse_inr_shape in H.
    destruct H as (c0 & c1 & c2 & c3 & m0 & m1 & d0 & d1 & -> & Hdig & -> & Hm & Hd).
    simpl in Hm, Hd.
    invert_Forall.
    repeat match goal with
           | H : isDigitB ?c = true |- _ =>
               lazymatch goal with
               | _ : 0 <= digitVal c <= 9 |- _ => fail
               | _ => pose proof (isDigitB_range c H)
               end
           end.
    eexists _, _, _. split; [|split; [exact Hm|split; [exact Hd|]]]; [lia|].
    unfold dateString. rewrite four_digits_digits, !two_digits_digits by assumption.
    reflexivity.
  - intros (y & m & d & Hy & Hm & Hd & ->). eexists. apply time_Parse_dateString; assumption.
Qed.

Lemma time_Parse_inl s pe :
  time_Parse s = inl pe -> Layout pe = layout_ymd /\ Value pe = s.
Proof.
  unfold time_Parse. intros H.
  repeat match type of H with
         | context [match ?x with _ => _ end] => destruct x
         end;
    inversion H; split; reflexivity.
Qed.

Lemma ParseError_Error_prefix pe :
  strings_HasPrefix (ParseError_Error pe) "parsing time " = true.
Proof. unfold ParseError_Error. destruct (Message pe); reflexivity. Qed.

Lemma validateNote_None_iff note :
  validateNote note = None
  <-> Title note <> EmptyString /\ Date note <> EmptyString /\ calendarDate (Date note).
Proof.
  unfold validateNote.
  destruct (String.eqb_spec (Title note) EmptyString) as [Ht|Ht];
    [split; [discriminate | tauto]|].
  destruct (String.eqb_spec (Date note) EmptyString) as [Hd|Hd];
    [split; [discriminate | tauto]|].
  destruct (time_Parse (Date note)) as [pe|t] eqn:Hp.
  - split; [discriminate|]. intros (_ & _ & Hc).
    apply time_Parse_calendarDate in Hc as [t Hc]. congruence.
  - split; [|reflexivity]. intros _. repeat split; auto.
    apply time_Parse_calendarDate. eauto.
Qed.

(** C3, as the code has it. Validation succeeds exactly when the title is not
    empty, the date is not empty and the date is a calendar date in the strict
    format. The checks run in that order: an empty title gives [missing
    title]; otherwise an empty date gives [missing date]; otherwise a date
    that is not in the format gives the error of [time.Parse] itself, a
    [ParseError] for the layout [2006-01-02] and that date, whose text starts
    with [parsing time]. *)
Theorem validateNote_contract (note : Note) :
  (validateNote note = None
   <-> Title note <> EmptyString /\ Date note <> EmptyString /\ calendarDate (Date note))
  /\ (Title note = EmptyString -> validateNote note = Some (errors_New "missing title"))
  /\ (Title note <> EmptyString -> Date note = EmptyString ->
      validateNote note = Some (errors_New "missing date"))
  /\ (Title note <> EmptyString -> Date note <> EmptyString -> ~ calendarDate (Date note) ->
      exists pe,
        time_Parse (Date note) = inl pe
        /\ validateNote note = Some (timeParseError pe)
        /\ Layout pe = "2006-01-02" /\ Value pe = Date note
        /\ strings_HasPrefix (error_Error (timeParseError pe)) "parsing time " = true).
Proof.
  split; [apply validateNote_None_iff|].
  unfold validateNote.
  destruct (String.eqb_spec (Title note) EmptyString) as [Ht|Ht]; [repeat split; tauto|].
  destruct (String.eqb_spec (Date note) EmptyString) as [Hd|Hd]; [repeat split; tauto|].
  split; [tauto|]. split; [tauto|]. intros _ _ Hnot.
  destruct (time_Parse (Date note)) as [pe|t] eqn:Hp.
  - exists pe. destruct (time_Parse_inl _ _ Hp) as [Hl Hv].
    repeat split; auto. apply ParseError_Error_prefix.
  - exfalso. apply Hnot, time_Parse_calendarDate. eauto.
Qed.

(** C3, counterexample: for a date outside the format the error returned is
    the parse error of package [time], not an error that reads [invalid
    date]. *)
Lemma invalid_date_is_a_parse_error :
  let note := mkNote "T" "2024-13-01" [] EmptyString in
  (exists pe, validateNote note = Some (timeParseError pe))
  /\ validateNote note <> Some (errors_New "invalid date")
  /\ option_map error_Error (validateNote note) <> Some "invalid date".
Proof.
  cbv zeta. split; [eexists; vm_compute; reflexivity|].
  split; vm_compute; discriminate.
Qed.

(** ** The splitter *)

Lemma cons_head_nonempty c l : cons_head c l <> [].
Proof. destruct l; discriminate. Qed.

Lemma strings_Join_cons_head c l sep :
  l <> [] -> strings_Join (cons_head c l) sep = String c (strings_Join l sep).
Proof. destruct l as [|seg [|seg' segs]]; [congruence | reflexivity | reflexivity]. Qed.

Lemma is_dash_true c : is_dash c = true -> c = "-"%char.
Proof. apply Ascii.eqb_eq. Qed.

Lemma strings_Split_delim_unfold a b c r :
  strings_Split_delim (String a (String b (String c r)))
  = if is_dash a && is_dash b && is_dash c
    then EmptyString :: strings_Split_delim r
    else cons_head a (strings_Split_delim (String b (String c r))).
Proof. reflexivity. Qed.

(** Induction along the scan of [strings_Split_delim]. *)
Lemma split_scan_ind (P : string -> Prop) :
  P EmptyString ->
  (forall r, P r -> P (String "-"%char (String "-"%char (String "-"%char r)))) ->
  (forall a r,
      strings_Split_delim (String a r) = cons_head a (strings_Split_delim r) ->
      P r -> P (String a r)) ->
  forall s, P s.
Proof.
  intros Hnil Hcut Hstep.
  assert (H : forall n s, (String.length s <= n)%nat -> P s).
  { induction n as [|n IH]; intros s Hlen.
    - destruct s; [exact Hnil | simpl in Hlen; lia].
    - destruct s as [|a r]; [exact Hnil|]. simpl in Hlen.
      destruct r as [|b [|c r']].
      + apply Hstep; [reflexivity | exact Hnil].
      + apply Hstep; [reflexivity | apply IH; simpl in *; lia].
      + destruct (is_dash a && is_dash b && is_dash c) eqn:Hd.
        * apply andb_true_iff in Hd as [Hd Hc]. apply andb_true_iff in Hd as [Ha Hb].
          apply is_dash_true in Ha, Hb, Hc. subst.
          apply Hcut, IH. simpl in *. lia.
        * apply Hstep; [rewrite strings_Split_delim_unfold, Hd; reflexivity|].
          apply IH. simpl in *. lia. }
  intros s. apply (H (String.length s)). lia.
Qed.

Lemma strings_Split_delim_nonempty s : strings_Split_delim s <> [].
Proof.
  induction s as [|r IH|a r Heq IH] using split_scan_ind.
  - discriminate.
  - rewrite strings_Split_delim_unfold. discriminate.
  - rewrite Heq. apply cons_head_nonempty.
Qed.

Lemma strings_Join_Split_delim s : strings_Join (strings_Split_delim s) "---" = s.
Proof.
  induction s as [|r IH|a r Heq IH] using split_scan_ind.
  - reflexivity.
  - rewrite strings_Split_delim_unfold. change (is_dash "-"%char) with true.
    cbv [andb].
    pose proof (strings_Split_delim_nonempty r) as Hne.
    destruct (strings_Split_delim r) as [|seg segs] eqn:Hs; [congruence|].
    change (strings_Join (EmptyString :: seg :: segs) "---")
      with ("---" +:+ strings_Join (seg :: segs) "---").
    rewrite IH. reflexivity.
  - rewrite Heq, strings_Join_cons_head by apply strings_Split_delim_nonempty.
    rewrite IH. reflexivity.
Qed.

Lemma strings_HasPrefix_empty s : strings_HasPrefix s EmptyString = true.
Proof. destruct s; reflexivity. Qed.

Lemma strings_Split_delim_step c r :
  strings_HasPrefix (String c r) "---" = false ->
  strings_Split_delim (String c r) = cons_head c (strings_Split_delim r).
Proof.
  intros H. destruct r as [|x [|y r']]; try reflexivity.
  rewrite strings_Split_delim_unfold. cbn [strings_HasPrefix] in H.
  unfold is_dash. rewrite (Ascii.eqb_sym c), (Ascii.eqb_sym x), (Ascii.eqb_sym y).
  rewrite strings_HasPrefix_empty, andb_true_r, andb_assoc in H. rewrite H. reflexivity.
Qed.

Lemma no_delimiter_before_cut c a b :
  strings_HasPrefix (String c (a +:+ "--")) "---" = false ->
  strings_HasPrefix (String c (a +:+ "---" +:+ b)) "---" = false.
Proof.
  destruct a as [|x [|y a']]; cbn -[Ascii.eqb];
    rewrite ?strings_HasPrefix_empty; intros H; exact H.
Qed.

Lemma strings_Split_delim_cut a b :
  containsDelimiter (a +:+ "--") = false ->
  strings_Split_delim (a +:+ "---" +:+ b) = a :: strings_Split_delim b.
Proof.
  induction a as [|c a IH]; intros H.
  - reflexivity.
  - cbn -[Ascii.eqb strings_HasPrefix] in H. apply orb_false_iff in H as [Hpre Hrest].
    change (String c a +:+ "---" +:+ b) with (String c (a +:+ "---" +:+ b)).
    rewrite strings_Split_delim_step by (apply no_delimiter_before_cut, Hpre).
    rewrite (IH Hrest). reflexivity.
Qed.

Lemma strings_HasPrefix_app x y p :
  strings_HasPrefix x p = true -> strings_HasPrefix (x +:+ y) p = true.
Proof.
  revert p. induction x as [|c r IH]; intros p H.
  - destruct p; [apply strings_HasPrefix_empty | discriminate].
  - destruct p as [|a p']; [reflexivity|]. cbn [strings_HasPrefix String.append] in *.
    apply andb_true_iff in H as [Ha Hp]. rewrite Ha, (IH _ Hp). reflexivity.
Qed.

Lemma strings_HasPrefix_delim_inv s :
  strings_HasPrefix s "---" = true -> exists r, s = "---" +:+ r.
Proof.
  destruct s as [|a [|b [|c r]]]; cbn [strings_HasPrefix]; intros H;
    repeat (apply andb_true_iff in H as [? H]); try discriminate.
  repeat match goal with
         | E : Ascii.eqb _ _ = true |- _ => apply Ascii.eqb_eq in E; subst
         end.
  exists r. reflexivity.
Qed.

Lemma strings_Split_delim_head s :
  exists seg segs rest, strings_Split_delim s = seg :: segs /\ s = seg +:+ rest.
Proof.
  pose proof (strings_Join_Split_delim s) as Hj.
  destruct (strings_Split_delim s) as [|seg [|seg' segs]] eqn:Hs.
  - exfalso. eapply strings_Split_delim_nonempty, Hs.
  - exists seg, [], EmptyString. rewrite append_nil_r. auto.
  - exists seg, (seg' :: segs), ("---" +:+ strings_Join (seg' :: segs) "---"). auto.
Qed.

(** No segment holds the delimiter. *)
Lemma strings_Split_delim_segments s :
  Forall (fun seg => containsDelimiter seg = false) (strings_Split_delim s).
Proof.
  induction s as [|r IH|a r Heq IH] using split_scan_ind.
  - repeat constructor.
  - rewrite strings_Split_delim_unfold. constructor; [reflexivity | exact IH].
  - rewrite Heq. destruct (strings_Split_delim_head r) as (seg & segs & rest & Hs & Hr).
    rewrite Hs in *. inversion IH as [|x y Hseg Hsegs]; subst x y.
    constructor; [|exact Hsegs].
    cbn [containsDelimiter]. rewrite Hseg, orb_false_r.
    destruct (strings_HasPrefix (String a seg) "---") eqn:Hp; [|reflexivity].
    exfalso. apply (strings_HasPrefix_app _ rest) in Hp.
    change (String a seg +:+ rest) with (String a (seg +:+ rest)) in Hp.
    rewrite <- Hr in Hp. apply strings_HasPrefix_delim_inv in Hp as [r' Hr'].
    rewrite Hr' in Heq. cbn [String.append] in Heq.
    rewrite strings_Split_delim_unfold in Heq. inversion Hr'; subst.
    cbn in Heq. destruct (strings_Split_delim _) in Heq; discriminate Heq.
Qed.

(** C9, as the code has it: the buffer is cut at every occurrence of the
    three dashes, found from the left, wherever it stands in its line. Putting
    the delimiter back between the segments gives the buffer again, no
    segment holds the delimiter, and the first occurrence in a text ends the
    first segment, the scan going on after it. *)
Theorem delimiter_cuts_anywhere (data : string) :
  strings_Join (strings_Split_delim data) "---" = data
  /\ Forall (fun seg => containsDelimiter seg = false) (strings_Split_delim data)
  /\ (forall a b,
        data = a +:+ "---" +:+ b ->
        containsDelimiter (a +:+ "--") = false ->
        strings_Split_delim data = a :: strings_Split_delim b).
Proof.
  split; [apply strings_Join_Split_delim|].
  split; [apply strings_Split_delim_segments|].
  intros a b -> H. apply strings_Split_delim_cut, H.
Qed.

Lemma delimiter_cuts_anywhere_witness :
  strings_Split_delim "see a---b" = ["see a"; "b"].
Proof.
  apply (proj2 (proj2 (delimiter_cuts_anywhere "see a---b")) "see a" "b"); reflexivity.
Defined.

(** C9, counterexample: in [x---y] the delimiter stands only in the middle
    of a line, and it makes a pair; in the sample buffer the same happens
    after a regular note. *)
Lemma delimiter_inside_a_line_makes_a_pair :
  delimiterStartsALine "x---y" = false
  /\ splitPairs "x---y" = [("y", EmptyString)]
  /\ splitPairs "x---y" <> []
  /\ List.length (splitPairs buffer_dashes_in_body) = 2%nat.
Proof. repeat split; try reflexivity. discriminate. Qed.

Lemma pairUp_lookup entries i :
  pairUp entries !! i
  = match entries !! (2 * i)%nat with
    | Some metadata =>
        Some (metadata,
              match entries !! (2 * i + 1)%nat with
              | Some content => strings_TrimSpace content
              | None => EmptyString
              end)
    | None => None
    end.
Proof.
  revert entries. induction i as [|i IH]; intros entries.
  - destruct entries as [|m [|b rest]]; reflexivity.
  - replace (2 * Datatypes.S i)%nat with (Datatypes.S (Datatypes.S (2 * i))) by lia.
    destruct entries as [|m [|b rest]]; try reflexivity.
    simpl pairUp. change ((m :: b :: rest) !! Datatypes.S (Datatypes.S (2 * i)))
      with (rest !! (2 * i)%nat).
    change ((m :: b :: rest) !! (Datatypes.S (Datatypes.S (2 * i)) + 1)%nat)
      with (rest !! (2 * i + 1)%nat).
    change (((m, strings_TrimSpace b) :: pairUp rest) !! Datatypes.S i)
      with (pairUp rest !! i).
    apply IH.
Qed.

Lemma appendedBlocks_app a b : appendedBlocks (a ++ b) = (appendedBlocks a + appendedBlocks b)%nat.
Proof. unfold appendedBlocks. rewrite List.filter_app, length_app. reflexivity. Qed.

Section Accounting.

Context `{Lib : Libraries} {S : Type} `{FS : FileSystem S}.

Lemma saveNote_None_calls n dir fs fs' :
  saveNote n dir fs = (None, fs') -> appendedBlocks (noteCalls dir n) = 1%nat.
Proof.
  unfold saveNote, noteCalls.
  destruct (buildMarkdownPath n dir) as [e|filePath]; [discriminate|].
  destruct (MkdirAll (filepath_Dir filePath) os_ModePerm fs) as [[e|] fs1]; [discriminate|].
  destruct (formatNoteContent n) as [e|fullNote]; [discriminate|].
  reflexivity.
Qed.

Lemma saveAll_None_blocks notes dir fs fs' :
  saveAll notes dir fs = (None, fs') ->
  appendedBlocks (plannedCalls dir notes) = length notes.
Proof.
  revert fs. induction notes as [|n l IH]; intros fs H; [reflexivity|].
  simpl in H. destruct (saveNote n dir fs) as [[e|] fs1] eqn:Hn; [discriminate|].
  unfold plannedCalls. simpl. rewrite appendedBlocks_app.
  rewrite (saveNote_None_calls _ _ _ _ Hn). f_equal. apply (IH fs1 H).
Qed.

End Accounting.

(** C4, as the code has it. Segment 0 is not read, and pair [i] is made of
    segments [2i+1] and [2i+2], the second one trimmed, or empty when it is
    missing. A pair whose trimmed metadata and body are both empty is skipped
    without being decoded, so it can cause no error: when the other pairs
    decode, [parseNotes] returns their notes in order. When [parseNotes]
    succeeds, and when a whole run succeeds, the notes and the appended blocks
    are as many as the pairs that are not skipped. The buffer [---] gives no
    note, no call and no error. *)
Theorem splitter_pair_accounting `{Lib : Libraries} {S : Type} `{FS : FileSystem S}
    (data markdownDir : string) :
  (forall i : nat,
      splitPairs data !! i
      = match strings_Split_delim data !! (2 * i + 1)%nat with
        | Some metadata =>
            Some (metadata,
                  match strings_Split_delim data !! (2 * i + 2)%nat with
                  | Some content => strings_TrimSpace content
                  | None => EmptyString
                  end)
        | None => None
        end)
  /\ (Forall (fun p => decodeError p = None) (keptPairs data) ->
      parseNotes data = inr (map decodedNote (keptPairs data)))
  /\ (forall notes,
        parseNotes data = inr notes ->
        notes = map decodedNote (keptPairs data) /\ length notes = length (keptPairs data))
  /\ (forall calls fs calls' fs',
        ProcessNotes (FS := TracedFS) data markdownDir (calls, fs) = (None, (calls', fs')) ->
        exists new, calls' = calls ++ new /\ appendedBlocks new = length (keptPairs data))
  /\ parseNotes "---" = inr []
  /\ (forall calls fs,
        ProcessNotes (FS := TracedFS) "---" markdownDir (calls, fs) = (None, (calls, fs))).
Proof.
  split; [|split; [|split; [|split; [|split]]]].
  - intros i. unfold splitPairs. rewrite pairUp_lookup.
    destruct (strings_Split_delim data) as [|seg segs]; [reflexivity|].
    simpl tail.
    assert (E1 : (seg :: segs) !! (2 * i + 1)%nat = segs !! (2 * i)%nat)
      by (replace (2 * i + 1)%nat with (Datatypes.S (2 * i)) by lia; reflexivity).
    assert (E2 : (seg :: segs) !! (2 * i + 2)%nat = segs !! (2 * i + 1)%nat)
      by (replace (2 * i + 2)%nat with (Datatypes.S (2 * i + 1)) by lia; reflexivity).
    rewrite E1, E2. reflexivity.
  - intros H. unfold parseNotes. rewrite (parsePairs_all_decoded _ [] H). reflexivity.
  - intros notes H. apply parsePairs_inr in H as [_ ->]. simpl.
    split; [reflexivity | apply length_map].
  - intros calls fs calls' fs' H. unfold ProcessNotes in H.
    destruct (parseNotes data) as [e|notes] eqn:Hparse; [discriminate|].
    destruct (validateAll notes) as [e|]; [discriminate|].
    destruct (saveAll_traced notes markdownDir calls fs) as (k & Hk & Hfull).
    rewrite Hk in H. inversion H as [[Hres Hcalls Hfs]].
    rewrite (Hfull Hres), firstn_all.
    exists (plannedCalls markdownDir notes). split; [reflexivity|].
    destruct (saveAll notes markdownDir fs) as [r fs1] eqn:Hs. simpl in Hres. subst r.
    rewrite (saveAll_None_blocks _ _ _ _ Hs).
    apply parsePairs_inr in Hparse as [_ ->]. simpl. apply length_map.
  - reflexivity.
  - reflexivity.
Qed.

Lemma splitter_pair_accounting_witness :
  exists new,
    [CallMkdirAll "/archive/2024/09" os_ModePerm;
     CallAppendToFile "/archive/2024/09/12.md" "---
title: First
date: 2024-09-12
tags:
    - a
---
One

";
     CallMkdirAll "/archive/2024/09" os_ModePerm;
     CallAppendToFile "/archive/2024/09/12.md" "---
title: Second
date: 2024-09-12
tags: []
---
Two

"] = [] ++ new
    /\ appendedBlocks new = length (keptPairs buffer_two_notes).
Proof.
  apply (proj1 (proj2 (proj2 (proj2
           (splitter_pair_accounting (Lib := Yaml.Reference) (FS := MockFS)
              buffer_two_notes "/archive"))))
           [] NewMockFileSystem _
           (snd (snd (ProcessNotes (Lib := Yaml.Reference) (FS := TracedFS (FS := MockFS))
                        buffer_two_notes "/archive" ([], NewMockFileSystem))))).
  vm_compute. reflexivity.
Defined.

(** ** Paths *)

Lemma split_byte_nonempty sep s : split_byte sep s <> [].
Proof.
  destruct s as [|c r]; simpl; [discriminate|].
  destruct (Ascii.eqb c sep); [discriminate | apply cons_head_nonempty].
Qed.

Lemma cons_head_app c l1 l2 : l1 <> [] -> cons_head c (l1 ++ l2) = cons_head c l1 ++ l2.
Proof. destruct l1; [congruence | reflexivity]. Qed.

Lemma split_byte_app sep a b :
  split_byte sep (a +:+ String sep b) = split_byte sep a ++ split_byte sep b.
Proof.
  induction a as [|c a IH]; simpl.
  - rewrite Ascii.eqb_refl. reflexivity.
  - destruct (Ascii.eqb c sep); rewrite IH; [reflexivity|].
    apply cons_head_app, split_byte_nonempty.
Qed.

Lemma split_byte_no_slash s : no_slash s = true -> split_byte SLASH s = [s].
Proof.
  induction s as [|c r IH]; simpl; [reflexivity|].
  intros H. apply andb_true_iff in H as [Hc Hr].
  destruct (Ascii.eqb c SLASH); [discriminate|]. rewrite (IH Hr). reflexivity.
Qed.

Lemma split_byte_elems s : Forall (fun e => no_slash e = true) (split_byte SLASH s).
Proof.
  induction s as [|c r IH]; simpl; [repeat constructor|].
  destruct (Ascii.eqb c SLASH) eqn:Hc; [constructor; [reflexivity | exact IH]|].
  destruct (split_byte SLASH r) as [|seg segs]; simpl.
  - repeat constructor. simpl. rewrite Hc. reflexivity.
  - inversion IH; subst. constructor; [simpl; rewrite Hc; assumption | assumption].
Qed.

Lemma split_byte_Join l :
  l <> [] -> Forall (fun e => no_slash e = true) l ->
  split_byte SLASH (strings_Join l "/") = l.
Proof.
  induction l as [|e [|e' r] IH]; intros Hne Hall; [congruence | |].
  - inversion Hall; subst. apply split_byte_no_slash. assumption.
  - inversion Hall as [|x y He Hr]; subst.
    change (strings_Join (e :: e' :: r) "/") with (e +:+ String SLASH (strings_Join (e' :: r) "/")).
    rewrite split_byte_app, split_byte_no_slash by assumption.
    rewrite IH by (assumption || discriminate). reflexivity.
Qed.

Lemma strings_Join_app l1 l2 sep :
  l1 <> [] -> l2 <> [] ->
  strings_Join (l1 ++ l2) sep = strings_Join l1 sep +:+ sep +:+ strings_Join l2 sep.
Proof.
  induction l1 as [|e [|e' r] IH]; intros H1 H2; [congruence | |].
  - destruct l2; [congruence | reflexivity].
  - change (strings_Join ((e :: e' :: r) ++ l2) sep)
      with (e +:+ sep +:+ strings_Join ((e' :: r) ++ l2) sep).
    rewrite IH by (assumption || discriminate).
    change (strings_Join (e :: e' :: r) sep) with (e +:+ sep +:+ strings_Join (e' :: r) sep).
    rewrite !append_assoc. reflexivity.
Qed.

Lemma kept_elem_spec e :
  kept_elem e = true -> e <> EmptyString /\ e <> "." /\ no_slash e = true.
Proof.
  unfold kept_elem. intros H. apply andb_true_iff in H as [H Hs].
  apply andb_true_iff in H as [H1 H2].
  destruct (String.eqb_spec e EmptyString); [discriminate|].
  destruct (String.eqb_spec e "."); [discriminate|]. auto.
Qed.

Lemma clean_step_kept rooted stack e :
  kept_elem e = true ->
  (e = ".." -> rooted = false /\ Forall (fun x => x = "..") stack) ->
  clean_step rooted stack e = e :: stack.
Proof.
  intros Hk Hdd. destruct (kept_elem_spec e Hk) as (H1 & H2 & _). unfold clean_step.
  destruct (String.eqb_spec e EmptyString); [contradiction|].
  destruct (String.eqb_spec e "."); [contradiction|]. simpl.
  destruct (String.eqb_spec e "..") as [Hd|]; [|reflexivity].
  destruct (Hdd Hd) as [-> Hall]. destruct stack as [|top below]; [reflexivity|].
  inversion Hall; subst. reflexivity.
Qed.

Lemma clean_stack_Forall rooted stack :
  clean_stack rooted stack -> Forall (fun e => kept_elem e = true) stack.
Proof.
  induction stack as [|e below IH]; simpl; [constructor|].
  intros (He & _ & Hb). constructor; auto.
Qed.

Lemma clean_step_clean_stack rooted stack e :
  no_slash e = true -> clean_stack rooted stack -> clean_stack rooted (clean_step rooted stack e).
Proof.
  intros Hs Hst. unfold clean_step.
  destruct (String.eqb_spec e EmptyString) as [|Hne]; [exact Hst|].
  destruct (String.eqb_spec e ".") as [|Hnd]; [exact Hst|]. simpl.
  assert (Hk : kept_elem e = true).
  { unfold kept_elem. rewrite Hs.
    destruct (String.eqb_spec e EmptyString); [contradiction|].
    destruct (String.eqb_spec e "."); [contradiction|]. reflexivity. }
  destruct (String.eqb_spec e "..") as [Hd|Hnd2].
  - destruct stack as [|top below].
    + destruct rooted; simpl; [exact I | repeat split; auto].
    + destruct (String.eqb_spec top "..") as [Ht|Ht].
      * simpl in Hst. destruct Hst as (Htk & Htd & Hb). destruct (Htd Ht) as [Hr Hall].
        simpl. split; [exact Hk|]. split; [|split; [exact Htk | split; [exact Htd | exact Hb]]].
        intros _. split; [exact Hr | constructor; [exact Ht | exact Hall]].
      * simpl in Hst. tauto.
  - simpl. split; [exact Hk|]. split; [intros; contradiction | exact Hst].
Qed.

Lemma fold_clean_stack rooted elems stack :
  Forall (fun e => no_slash e = true) elems -> clean_stack rooted stack ->
  clean_stack rooted (fold_left (clean_step rooted) elems stack).
Proof.
  revert stack. induction elems as [|e l IH]; intros stack Hall Hst; simpl; [exact Hst|].
  inversion Hall; subst. apply IH; [assumption|]. apply clean_step_clean_stack; assumption.
Qed.

(** Going through the elements of a stack again gives the stack back. *)
Lemma fold_rev_clean_stack rooted stack :
  clean_stack rooted stack -> fold_left (clean_step rooted) (rev stack) [] = stack.
Proof.
  induction stack as [|e below IH]; intros Hst; [reflexivity|].
  simpl in Hst. destruct Hst as (Hk & Hdd & Hb).
  simpl rev. rewrite fold_left_app. simpl. rewrite (IH Hb).
  apply clean_step_kept; assumption.
Qed.

Lemma strings_Join_first_elem e l :
  e <> EmptyString ->
  exists c r, strings_Join (e :: l) "/" = String c r /\ exists e', e = String c e'.
Proof.
  intros He. destruct e as [|c e']; [congruence|].
  destruct l; simpl; eauto.
Qed.

Lemma render_split rooted stack :
  clean_stack rooted stack ->
  fold_left (clean_step rooted) (split_byte SLASH (render rooted stack)) [] = stack
  /\ is_rooted (render rooted stack) = rooted
  /\ render rooted stack <> EmptyString.
Proof.
  intros Hst. pose proof (clean_stack_Forall _ _ Hst) as Hall.
  assert (Hns : Forall (fun e => no_slash e = true) (rev stack)).
  { apply List.Forall_rev. eapply List.Forall_impl; [|exact Hall].
    intros e He. apply kept_elem_spec in He. tauto. }
  unfold render. destruct (rev stack) as [|e l] eqn:Hrev.
  - assert (stack = []) as -> by (apply (f_equal (@rev string)) in Hrev;
                                   rewrite rev_involutive in Hrev; exact Hrev).
    destruct rooted; simpl; repeat split; discriminate.
  - assert (He : e <> EmptyString).
    { assert (Hin : Forall (fun e => kept_elem e = true) (e :: l))
        by (rewrite <- Hrev; apply List.Forall_rev, Hall).
      inversion Hin; subst. apply kept_elem_spec in H1. tauto. }
    destruct (strings_Join_first_elem e l He) as (c & r & Hj & e' & ->).
    assert (Hc : Ascii.eqb c SLASH = false).
    { inversion Hns as [|x y Hx Hy]; subst. simpl in Hx.
      destruct (Ascii.eqb c SLASH); [discriminate | reflexivity]. }
    assert (Hfold : fold_left (clean_step rooted)
                      (split_byte SLASH (strings_Join (String c e' :: l) "/")) [] = stack).
    { rewrite split_byte_Join by (discriminate || assumption).
      rewrite <- Hrev. apply fold_rev_clean_stack, Hst. }
    destruct rooted.
    + split; [|split; [reflexivity | discriminate]].
      change (split_byte SLASH (String SLASH (strings_Join (String c e' :: l) "/")))
        with (EmptyString :: split_byte SLASH (strings_Join (String c e' :: l) "/")).
      exact Hfold.
    + rewrite Hj in *. split; [exact Hfold|]. split; [simpl; exact Hc | discriminate].
Qed.

Lemma filepath_Clean_render path :
  path <> EmptyString ->
  filepath_Clean path
  = render (is_rooted path) (fold_left (clean_step (is_rooted path)) (split_byte SLASH path) []).
Proof. destruct path; [congruence | reflexivity]. Qed.

Lemma is_rooted_app a b : a <> EmptyString -> is_rooted (a +:+ b) = is_rooted a.
Proof. destruct a; [congruence | reflexivity]. Qed.

Lemma append_nonempty a b : a <> EmptyString -> a +:+ b <> EmptyString.
Proof. destruct a; [congruence | discriminate]. Qed.

(** Cleaning a path, adding elements and cleaning again is cleaning once. *)
Lemma filepath_Clean_Clean_app x e :
  x <> EmptyString ->
  filepath_Clean (filepath_Clean x +:+ "/" +:+ e) = filepath_Clean (x +:+ "/" +:+ e).
Proof.
  intros Hx.
  set (rooted := is_rooted x).
  set (stack := fold_left (clean_step rooted) (split_byte SLASH x) []).
  assert (Hst : clean_stack rooted stack)
    by (apply fold_clean_stack; [apply split_byte_elems | exact I]).
  destruct (render_split rooted stack Hst) as (Hfold & Hroot & Hne).
  rewrite (filepath_Clean_render x Hx). fold rooted. fold stack.
  rewrite !filepath_Clean_render by (apply append_nonempty; assumption).
  rewrite !is_rooted_app by assumption. rewrite Hroot. fold rooted.
  change ("/" +:+ e) with (String SLASH e).
  rewrite !split_byte_app, !fold_left_app, Hfold. reflexivity.
Qed.

Lemma fold_real_elems rooted elems stack :
  Forall (fun e => real_elem e = true) elems ->
  fold_left (clean_step rooted) elems stack = rev elems ++ stack.
Proof.
  revert stack. induction elems as [|e l IH]; intros stack Hall; [reflexivity|].
  inversion Hall as [|x y He Hl]; subst. simpl.
  unfold real_elem in He. apply andb_true_iff in He as [Hk Hd].
  rewrite clean_step_kept; [| assumption |].
  - rewrite (IH _ Hl), <- app_assoc. reflexivity.
  - intros ->. discriminate.
Qed.

(** Real elements added to a clean path other than the root and [.] stay as
    they are written. *)
Lemma filepath_Clean_app_real base elems :
  filepath_Clean base = base -> base <> "/" -> base <> "." ->
  elems <> [] -> Forall (fun e => real_elem e = true) elems ->
  filepath_Clean (base +:+ "/" +:+ strings_Join elems "/") = base +:+ "/" +:+ strings_Join elems "/".
Proof.
  intros Hclean Hroot Hdot Hne Hreal.
  assert (Hb : base <> EmptyString) by (intros ->; discriminate Hclean).
  assert (Hns : Forall (fun e => no_slash e = true) elems).
  { eapply List.Forall_impl; [|exact Hreal]. intros e He. unfold real_elem in He.
    apply andb_true_iff in He as [He _]. apply kept_elem_spec in He. tauto. }
  rewrite filepath_Clean_render by (apply append_nonempty; assumption).
  rewrite is_rooted_app by assumption.
  change ("/" +:+ strings_Join elems "/") with (String SLASH (strings_Join elems "/")).
  rewrite split_byte_app, fold_left_app, split_byte_Join by assumption.
  rewrite (filepath_Clean_render base Hb) in Hclean.
  remember (is_rooted base) as rooted eqn:Hrooted.
  remember (fold_left (clean_step rooted) (split_byte SLASH base) []) as stack eqn:Hstk.
  rewrite fold_real_elems by assumption.
  assert (Hstack : rev stack <> []).
  { intros Hrev. unfold render in Hclean. rewrite Hrev in Hclean.
    destruct rooted; simpl in Hclean; [apply Hroot | apply Hdot];
      rewrite <- Hclean; reflexivity. }
  unfold render in *. rewrite rev_app_distr, rev_involutive.
  rewrite strings_Join_app by assumption.
  destruct rooted.
  - rewrite <- Hclean. reflexivity.
  - destruct (strings_Join (rev stack) "/") as [|c r] eqn:Hj.
    + exfalso. destruct (rev stack) as [|e l] eqn:Hrev; [congruence|].
      assert (Hst : clean_stack false stack)
        by (subst stack; apply fold_clean_stack; [apply split_byte_elems | exact I]).
      assert (Hin : Forall (fun e => kept_elem e = true) (e :: l))
        by (rewrite <- Hrev; apply List.Forall_rev, clean_stack_Forall with (rooted := false), Hst).
      inversion Hin as [|x y Hk Hl]; subst. apply kept_elem_spec in Hk as [Hk _].
      destruct (strings_Join_first_elem e l Hk) as (c & r & Hj' & _). congruence.
    + rewrite <- Hclean. reflexivity.
Qed.

Lemma below_forallb (P : Z -> bool) (bound : Z) :
  forallb (fun n => P (Z.of_nat n)) (seq 0 (Z.to_nat bound)) = true ->
  forall x, 0 <= x < bound -> P x = true.
Proof.
  intros H x Hx. rewrite List.forallb_forall in H.
  specialize (H (Z.to_nat x)). rewrite Z2Nat.id in H by lia.
  apply H, List.in_seq. lia.
Qed.

Lemma appendInt_four y : 0 <= y <= 9999 -> appendInt y 4 = four_digits y.
Proof.
  intros H. apply String.eqb_eq.
  apply (below_forallb (fun y => String.eqb (appendInt y 4) (four_digits y)) 10000);
    [vm_compute; reflexivity | lia].
Qed.

Lemma appendInt_two m : 0 <= m <= 99 -> appendInt m 2 = two_digits m.
Proof.
  intros H. apply String.eqb_eq.
  apply (below_forallb (fun m => String.eqb (appendInt m 2) (two_digits m)) 100);
    [vm_compute; reflexivity | lia].
Qed.

Lemma Sprintf_02d_md_two d : 0 <= d <= 99 -> Sprintf_02d_md d = two_digits d +:+ ".md".
Proof.
  intros H. apply String.eqb_eq.
  apply (below_forallb (fun d => String.eqb (Sprintf_02d_md d) (two_digits d +:+ ".md")) 100);
    [vm_compute; reflexivity | lia].
Qed.

Lemma real_elem_four_digits y : 0 <= y <= 9999 -> real_elem (four_digits y) = true.
Proof.
  intros H. apply (below_forallb (fun y => real_elem (four_digits y)) 10000);
    [vm_compute; reflexivity | lia].
Qed.

Lemma real_elem_two_digits m : 0 <= m <= 99 -> real_elem (two_digits m) = true.
Proof.
  intros H. apply (below_forallb (fun m => real_elem (two_digits m)) 100);
    [vm_compute; reflexivity | lia].
Qed.

Lemma real_elem_day_file d : 0 <= d <= 99 -> real_elem (two_digits d +:+ ".md") = true.
Proof.
  intros H. apply (below_forallb (fun d => real_elem (two_digits d +:+ ".md")) 100);
    [vm_compute; reflexivity | lia].
Qed.

Lemma daysIn_le_31 m y : daysIn m y <= 31.
Proof.
  unfold daysIn. destruct (m =? 2); [destruct (isLeap y); lia|].
  destruct ((m =? 4) || (m =? 6) || (m =? 9) || (m =? 11)); lia.
Qed.

Lemma filepath_Clean_nonempty x : filepath_Clean x <> EmptyString.
Proof.
  destruct x as [|c r]; [discriminate|].
  rewrite filepath_Clean_render by discriminate.
  apply render_split, fold_clean_stack; [apply split_byte_elems | exact I].
Qed.

Lemma filepath_Join_nonempty a b :
  a <> EmptyString -> filepath_Join a b = filepath_Clean (a +:+ "/" +:+ b).
Proof. destruct a; [congruence | reflexivity]. Qed.

Lemma filepath_Join_empty b : b <> EmptyString -> filepath_Join EmptyString b = filepath_Clean b.
Proof. destruct b; [congruence | reflexivity]. Qed.

Lemma filepath_Clean_real_elems elems :
  elems <> [] -> Forall (fun e => real_elem e = true) elems ->
  filepath_Clean (strings_Join elems "/") = strings_Join elems "/".
Proof.
  intros Hne Hreal.
  assert (Hk : Forall (fun e => kept_elem e = true) elems).
  { eapply List.Forall_impl; [|exact Hreal]. intros e He. unfold real_elem in He.
    apply andb_true_iff in He. tauto. }
  assert (Hns : Forall (fun e => no_slash e = true) elems).
  { eapply List.Forall_impl; [|exact Hk]. intros e He. apply kept_elem_spec in He. tauto. }
  destruct elems as [|e l]; [congruence|].
  assert (He : e <> EmptyString).
  { inversion Hk as [|x y Hx Hy]; subst. apply kept_elem_spec in Hx. tauto. }
  destruct (strings_Join_first_elem e l He) as (c & r & Hj & e' & ->).
  assert (Hc : Ascii.eqb c SLASH = false).
  { inversion Hns as [|x y Hx Hy]; subst. simpl in Hx.
    destruct (Ascii.eqb c SLASH); [discriminate | reflexivity]. }
  rewrite filepath_Clean_render by (rewrite Hj; discriminate).
  rewrite split_byte_Join by assumption.
  rewrite fold_real_elems, app_nil_r by assumption.
  unfold render. rewrite rev_involutive, Hj. simpl. rewrite Hc. reflexivity.
Qed.

(** C6, as the code has it. For a note that passes validation, with the date
    [YYYY-MM-DD], the path is [filepath.Join(filepath.Join(base, YYYY/MM),
    DD.md)]: the cleaned form of [base/YYYY/MM/DD.md], and [YYYY/MM/DD.md] for
    an empty base. It is [base/YYYY/MM/DD.md] as written whenever the base is
    a clean path other than the root and [.]. *)
Theorem buildMarkdownPath_resolves (note : Note) (baseDir : string) :
  validateNote note = None ->
  exists y m d,
    0 <= y <= 9999 /\ 1 <= m <= 12 /\ 1 <= d <= daysIn m y
    /\ Date note = dateString y m d
    /\ let rel := four_digits y +:+ "/" +:+ two_digits m +:+ "/" +:+ two_digits d +:+ ".md" in
       buildMarkdownPath note baseDir
       = inr (match baseDir with
              | EmptyString => rel
              | _ => filepath_Clean (baseDir +:+ "/" +:+ rel)
              end)
       /\ (filepath_Clean baseDir = baseDir -> baseDir <> "/" -> baseDir <> "." ->
           buildMarkdownPath note baseDir = inr (baseDir +:+ "/" +:+ rel)).
Proof.
  intros Hvalid.
  destruct (proj1 (validateNote_None_iff note) Hvalid)
    as (_ & _ & y & m & d & Hy & Hm & Hd & Hdate).
  exists y, m, d. repeat (split; [assumption|]). cbv zeta.
  pose proof (daysIn_le_31 m y) as H31.
  set (Y := four_digits y). set (M := two_digits m). set (D := two_digits d +:+ ".md").
  assert (Hreal : Forall (fun e => real_elem e = true) [Y; M; D]).
  { repeat constructor; [apply real_elem_four_digits | apply real_elem_two_digits
                         | apply real_elem_day_file]; lia. }
  assert (Hbuild : buildMarkdownPath note baseDir
                   = inr (filepath_Join (filepath_Join baseDir (Y +:+ "/" +:+ M)) D)).
  { unfold buildMarkdownPath. rewrite Hdate, time_Parse_dateString by assumption.
    unfold Time_Format_year_month. simpl Year. simpl Month. simpl Day.
    rewrite appendInt_four, appendInt_two, Sprintf_02d_md_two by lia. reflexivity. }
  assert (HYM : Y +:+ "/" +:+ M <> EmptyString).
  { apply append_nonempty. unfold Y, four_digits. discriminate. }
  assert (Hrel : two_digits d +:+ ".md" = D) by reflexivity.
  assert (Hjoin3 : strings_Join [Y; M; D] "/" = Y +:+ "/" +:+ M +:+ "/" +:+ D) by reflexivity.
  assert (Hassoc : forall x, (x +:+ "/" +:+ Y +:+ "/" +:+ M) +:+ "/" +:+ D
                             = x +:+ "/" +:+ Y +:+ "/" +:+ M +:+ "/" +:+ D).
  { intros x. rewrite !append_assoc. reflexivity. }
  split.
  - rewrite Hbuild. f_equal. destruct baseDir as [|c base].
    + rewrite filepath_Join_empty by assumption.
      rewrite filepath_Join_nonempty by apply filepath_Clean_nonempty.
      rewrite filepath_Clean_Clean_app by assumption.
      rewrite append_assoc. change (("/" +:+ M) +:+ "/" +:+ D) with ("/" +:+ M +:+ "/" +:+ D).
      rewrite <- Hjoin3. apply filepath_Clean_real_elems; [discriminate | assumption].
    + rewrite (filepath_Join_nonempty (String c base)) by discriminate.
      rewrite filepath_Join_nonempty by apply filepath_Clean_nonempty.
      rewrite filepath_Clean_Clean_app by discriminate.
      rewrite Hassoc. reflexivity.
  - intros Hclean Hroot Hdot.
    assert (Hb : baseDir <> EmptyString) by (intros ->; discriminate Hclean).
    rewrite Hbuild. f_equal.
    rewrite (filepath_Join_nonempty baseDir) by assumption.
    rewrite filepath_Join_nonempty by apply filepath_Clean_nonempty.
    rewrite filepath_Clean_Clean_app by (apply append_nonempty; assumption).
    rewrite Hassoc, <- Hjoin3.
    apply filepath_Clean_app_real; (assumption || discriminate).
Qed.

Lemma buildMarkdownPath_resolves_witness :
  exists y m d,
    0 <= y <= 9999 /\ 1 <= m <= 12 /\ 1 <= d <= daysIn m y
    /\ "2024-09-12" = dateString y m d
    /\ let rel := four_digits y +:+ "/" +:+ two_digits m +:+ "/" +:+ two_digits d +:+ ".md" in
       buildMarkdownPath (mkNote "T" "2024-09-12" ["a"] "Body") "/archive"
       = inr (filepath_Clean ("/archive" +:+ "/" +:+ rel))
       /\ (filepath_Clean "/archive" = "/archive" -> "/archive" <> "/" -> "/archive" <> "." ->
           buildMarkdownPath (mkNote "T" "2024-09-12" ["a"] "Body") "/archive"
           = inr ("/archive" +:+ "/" +:+ rel)).
Proof.
  apply (buildMarkdownPath_resolves (mkNote "T" "2024-09-12" ["a"] "Body") "/archive").
  vm_compute. reflexivity.
Defined.

(** C6, counterexample: a base directory that is not in clean form does not
    appear as written in the path, as [TestBuildMarkdownPath] expects. *)
Lemma relative_base_is_cleaned :
  buildMarkdownPath (mkNote "T" "2024-09-12" [] EmptyString) "./notes"
  = inr "notes/2024/09/12.md"
  /\ buildMarkdownPath (mkNote "T" "2024-09-12" [] EmptyString) "./notes"
     <> inr "./notes/2024/09/12.md".
Proof. split; [vm_compute; reflexivity | vm_compute; discriminate]. Qed.

(** ** Libraries that agree with the description of the YAML library *)

(** An item is read only where a sequence is open: after the key [tags]
    with nothing behind its colon, and after an item. *)
Lemma step_item_closed st n v :
  Yaml.s_seq st = None -> Yaml.step st (Yaml.Item n v) = None.
Proof. intros H. unfold Yaml.step. rewrite H. reflexivity. Qed.

(** A key with a value, the word [null] as any other, opens none: the
    library reads a line indented below it as more of the scalar. *)
Lemma step_key_value_closed st st' k v :
  v <> Yaml.VNull -> Yaml.step st (Yaml.Key k v) = Some st' -> Yaml.s_seq st' = None.
Proof.
  intros Hv. unfold Yaml.step.
  destruct (String.eqb k "title").
  - destruct (Yaml.s_title st), (Yaml.string_field v); try discriminate.
    intros H. injection H as <-. reflexivity.
  - destruct (String.eqb k "date").
    + destruct (Yaml.s_date st), (Yaml.string_field v); try discriminate.
      intros H. injection H as <-. reflexivity.
    + destruct (Yaml.s_tags st), v; try discriminate; try contradiction;
        intros H; injection H as <-; reflexivity.
Qed.

Example null_tags_take_no_items :
  Yaml.decode_front ("tags: null" +:+ nl +:+ "  - a") = None
  /\ Yaml.decode_front "tags: null" = Some zeroNote
  /\ Yaml.decode_front ("tags:" +:+ nl +:+ "  - a")
     = Some (mkNote EmptyString EmptyString ["a"] EmptyString).
Proof. vm_compute. repeat split; reflexivity. Qed.

Lemma expand_no_dollar uw fuel template matched :
  cut_dollar template = None -> expand uw fuel template matched = template.
Proof. intros H. destruct fuel; simpl; [reflexivity | rewrite H; reflexivity]. Qed.

Lemma cut_dollar_date_line date :
  cut_dollar date = None -> cut_dollar ("date: " +:+ date) = None.
Proof. intros H. cbn -[Ascii.eqb]. rewrite H. reflexivity. Qed.

Lemma ReplaceAllString_no_dollar uw src date :
  cut_dollar date = None ->
  ReplaceAllString_date_line uw src ("date: " +:+ date) = replaceDateLines src ("date: " +:+ date).
Proof.
  intros H. unfold ReplaceAllString_date_line, replaceDateLines. f_equal.
  apply map_ext. intros line.
  rewrite expand_no_dollar by (apply cut_dollar_date_line, H). reflexivity.
Qed.

Lemma isDigitB_not_dollar c : isDigitB c = true -> Ascii.eqb c DOLLAR = false.
Proof.
  intros H. destruct (Ascii.eqb_spec c DOLLAR) as [->|]; [discriminate H | reflexivity].
Qed.

Lemma cut_dollar_calendar s t : time_Parse s = inr t -> cut_dollar s = None.
Proof.
  intros H. apply time_Parse_inr_shape in H.
  destruct H as (c0 & c1 & c2 & c3 & m0 & m1 & d0 & d1 & -> & Hdig & _).
  invert_Forall.
  cbn -[Ascii.eqb]. change (Ascii.eqb "-"%char DOLLAR) with false.
  rewrite !isDigitB_not_dollar by assumption. reflexivity.
Qed.

Lemma validateNote_no_dollar note : validateNote note = None -> cut_dollar (Date note) = None.
Proof.
  unfold validateNote. destruct (String.eqb (Title note) EmptyString); [discriminate|].
  destruct (String.eqb (Date note) EmptyString); [discriminate|].
  destruct (time_Parse (Date note)) as [pe|t] eqn:Hp; [discriminate|].
  intros _. eapply cut_dollar_calendar, Hp.
Qed.

Section Conformity.

Variable L : Libraries.
Hypothesis HL : Yaml.Conforms L.

Lemma yaml_Unmarshal_conforms data note :
  yaml_Unmarshal (Libraries := Yaml.Reference) data zeroNote = (None, note) ->
  yaml_Unmarshal (Libraries := L) data zeroNote = (None, note).
Proof.
  simpl. destruct (Yaml.decode_front data) as [n|] eqn:Hd; [|discriminate].
  intros H. inversion H; subst. apply (proj1 HL), Hd.
Qed.

Lemma yaml_Marshal_conforms fm text :
  yaml_Marshal (Libraries := Yaml.Reference) fm = inr text ->
  yaml_Marshal (Libraries := L) fm = inr text.
Proof.
  simpl. destruct (Yaml.encode_front fm) as [t|] eqn:He; [|discriminate].
  intros H. inversion H; subst. apply (proj2 HL), He.
Qed.

Lemma parsePairs_conforms pairs acc notes :
  parsePairs (Lib := Yaml.Reference) pairs acc = inr notes ->
  parsePairs (Lib := L) pairs acc = inr notes.
Proof.
  revert acc. induction pairs as [|[metadata content] rest IH]; intros acc H; [exact H|].
  cbn [parsePairs] in *. destruct (isNoOp (metadata, content)); [apply IH, H|].
  destruct (yaml_Unmarshal (Libraries := Yaml.Reference) metadata zeroNote)
    as [[e|] note] eqn:Hu; [discriminate|].
  rewrite (yaml_Unmarshal_conforms _ _ Hu). apply IH, H.
Qed.

Lemma parseNotes_conforms data notes :
  parseNotes (Lib := Yaml.Reference) data = inr notes ->
  parseNotes (Lib := L) data = inr notes.
Proof. apply parsePairs_conforms. Qed.

Lemma yamlFrontMatterOf_conforms note text :
  cut_dollar (Date note) = None ->
  yamlFrontMatterOf (Lib := Yaml.Reference) note = inr text ->
  yamlFrontMatterOf (Lib := L) note = inr text.
Proof.
  intros Hd. unfold yamlFrontMatterOf, removeQuotesFromDateField.
  destruct (yaml_Marshal (Libraries := Yaml.Reference) _) as [e|y] eqn:Hm; [discriminate|].
  rewrite (yaml_Marshal_conforms _ _ Hm).
  rewrite !ReplaceAllString_no_dollar by assumption. auto.
Qed.

Lemma formatNoteContent_conforms note text :
  cut_dollar (Date note) = None ->
  formatNoteContent (Lib := Yaml.Reference) note = inr text ->
  formatNoteContent (Lib := L) note = inr text.
Proof.
  intros Hd. unfold formatNoteContent.
  destruct (yamlFrontMatterOf (Lib := Yaml.Reference) note) as [e|y] eqn:Hy; [discriminate|].
  rewrite (yamlFrontMatterOf_conforms _ _ Hd Hy). auto.
Qed.

Context {S : Type} `{FS : FileSystem S}.

Lemma saveAll_conforms notes dir fs :
  Forall (fun n => validateNote n = None
                   /\ exists text, formatNoteContent (Lib := Yaml.Reference) n = inr text) notes ->
  saveAll (Lib := L) notes dir fs = saveAll (Lib := Yaml.Reference) notes dir fs.
Proof.
  revert fs. induction notes as [|n l IH]; intros fs Hall; [reflexivity|].
  inversion Hall as [|x y [Hv [text Hf]] Hl]; subst. simpl. unfold saveNote.
  rewrite (formatNoteContent_conforms n text (validateNote_no_dollar n Hv) Hf), Hf.
  destruct (buildMarkdownPath n dir) as [e|filePath]; [reflexivity|].
  destruct (MkdirAll (filepath_Dir filePath) os_ModePerm fs) as [[e|] fs1]; [reflexivity|].
  destruct (AppendToFile filePath text fs1) as [[e|] fs2]; [reflexivity|].
  apply IH, Hl.
Qed.

(** Where the completed description decodes every kept pair and encodes
    every note it has to, a library that agrees with the description runs as
    the completed description does. *)
Lemma ProcessNotes_conforms data dir fs notes :
  parseNotes (Lib := Yaml.Reference) data = inr notes ->
  (validateAll notes = None ->
   Forall (fun n => exists text, formatNoteContent (Lib := Yaml.Reference) n = inr text) notes) ->
  ProcessNotes (Lib := L) data dir fs = ProcessNotes (Lib := Yaml.Reference) data dir fs.
Proof.
  intros Hp Hf. unfold ProcessNotes. rewrite Hp, (parseNotes_conforms _ _ Hp).
  destruct (validateAll notes) eqn:Hv; [reflexivity|].
  apply saveAll_conforms. specialize (Hf eq_refl).
  apply validateAll_None in Hv. clear Hp.
  induction notes as [|n l IH]; [constructor|].
  inversion Hv; subst. inversion Hf; subst. constructor; auto.
Qed.

End Conformity.

Lemma Reference_conforms : Yaml.Conforms Yaml.Reference.
Proof.
  split.
  - intros data note H. simpl. rewrite H. reflexivity.
  - intros fm text H. simpl. rewrite H. reflexivity.
Qed.

(** C4, counterexample: the buffer of [TestProcessNotes_InvalidNotes] has one
    pair that is not skipped, and the run appends no block, whatever library
    agrees with the description. *)
Lemma invalid_note_leaves_pair_without_block :
  ~ (exists L : Libraries,
        Yaml.Conforms L
        /\ appendedBlocks
             (fst (snd (ProcessNotes (Lib := L) (FS := TracedFS (FS := MockFS))
                          buffer_without_title "/notes" ([], NewMockFileSystem))))
           = length (keptPairs buffer_without_title)).
Proof.
  intros (L & HL & H).
  rewrite (ProcessNotes_conforms L HL _ _ _
             [mkNote EmptyString "2023-10-01" ["testing"] "Content without a title."]) in H.
  - vm_compute in H. discriminate H.
  - vm_compute. reflexivity.
  - intros Hv. vm_compute in Hv. discriminate Hv.
Qed.

(** ** The front matter of plain notes *)

Lemma all_chars_impl (p q : ascii -> bool) s :
  (forall c, p c = true -> q c = true) ->
  Yaml.all_chars p s = true -> Yaml.all_chars q s = true.
Proof.
  intros Hpq. induction s as [|c r IH]; simpl; [reflexivity|].
  intros H. apply andb_true_iff in H as [Hc Hr]. rewrite (Hpq c Hc), (IH Hr). reflexivity.
Qed.

Lemma letter_neq c x : Yaml.is_letter c = true -> Yaml.is_letter x = false -> Ascii.eqb c x = false.
Proof. intros Hc Hx. destruct (Ascii.eqb_spec c x) as [->|]; [congruence | reflexivity]. Qed.

Lemma digit_neq c x : isDigitB c = true -> isDigitB x = false -> Ascii.eqb c x = false.
Proof. intros Hc Hx. destruct (Ascii.eqb_spec c x) as [->|]; [congruence | reflexivity]. Qed.

Lemma digit_not_letter c : isDigitB c = true -> Yaml.is_letter c = false.
Proof.
  unfold isDigitB, Yaml.is_letter. intros H. apply andb_true_iff in H.
  destruct ((65 <=? code c) && (code c <=? 90)) eqn:H1;
    destruct ((97 <=? code c) && (code c <=? 122)) eqn:H2; try reflexivity;
    try (apply andb_true_iff in H1); try (apply andb_true_iff in H2); lia.
Qed.

Lemma word_char_one_line c : Yaml.word_char c = true -> negb (Ascii.eqb c LF) = true.
Proof. destruct (Ascii.eqb_spec c LF) as [->|]; [discriminate | reflexivity]. Qed.

Lemma plain_char_one_line c : Yaml.plain_char c = true -> negb (Ascii.eqb c LF) = true.
Proof. destruct (Ascii.eqb_spec c LF) as [->|]; [discriminate | reflexivity]. Qed.

Lemma word_char_plain c : Yaml.word_char c = true -> Yaml.plain_char c = true.
Proof.
  unfold Yaml.word_char, Yaml.plain_char. intros H. rewrite H. reflexivity.
Qed.

Lemma in_list_false s l w : Yaml.in_list s l = false -> In w l -> String.eqb s w = false.
Proof.
  unfold Yaml.in_list. intros H Hin.
  destruct (String.eqb s w) eqn:He; [|reflexivity].
  assert (existsb (String.eqb s) l = true) by (apply List.existsb_exists; eauto).
  congruence.
Qed.

Lemma in_list_subset s l1 l2 :
  (forall w, In w l2 -> In w l1) -> Yaml.in_list s l1 = false -> Yaml.in_list s l2 = false.
Proof.
  intros Hsub H. unfold Yaml.in_list.
  destruct (existsb (String.eqb s) l2) eqn:He; [|reflexivity].
  apply List.existsb_exists in He as (w & Hin & Hw).
  rewrite (in_list_false s l1 w H (Hsub w Hin)) in Hw. discriminate.
Qed.

Lemma plain_out_plain_in s : Yaml.plain_out s = true -> plain_in s = true.
Proof.
  unfold Yaml.plain_out, plain_in. destruct s as [|c r]; [discriminate|].
  intros H. apply andb_true_iff in H as [H H0]. apply andb_true_iff in H as [H H1].
  apply andb_true_iff in H as [H H2]. apply andb_true_iff in H as [H H3].
  apply andb_true_iff; split; [apply andb_true_iff; split; [apply andb_true_iff; split|]|].
  - unfold Yaml.plain_start. rewrite H. reflexivity.
  - eapply all_chars_impl; [apply word_char_plain | eassumption].
  - assumption.
  - apply negb_true_iff. apply negb_true_iff in H1.
    eapply in_list_subset; [|exact H1].
    intros w Hw. simpl in Hw |- *. tauto.
Qed.

Lemma plain_in_one_line s : plain_in s = true -> one_line s = true.
Proof.
  unfold plain_in, one_line. destruct s as [|c r]; [discriminate|].
  intros H. apply andb_true_iff in H as [H _]. apply andb_true_iff in H as [H _].
  apply andb_true_iff in H as [_ H].
  eapply all_chars_impl; [apply plain_char_one_line | exact H].
Qed.

Lemma split_LF_one_line a : one_line a = true -> split_byte LF a = [a].
Proof.
  unfold one_line. induction a as [|c r IH]; simpl; [reflexivity|].
  intros H. apply andb_true_iff in H as [Hc Hr]. apply negb_true_iff in Hc.
  rewrite Hc, (IH Hr). reflexivity.
Qed.

Lemma split_LF_cons a rest :
  one_line a = true -> split_byte LF (a +:+ nl +:+ rest) = a :: split_byte LF rest.
Proof.
  intros H. change (nl +:+ rest) with (String LF rest).
  rewrite split_byte_app, split_LF_one_line by assumption. reflexivity.
Qed.

Lemma strings_Join_cons x l sep :
  l <> [] -> strings_Join (x :: l) sep = x +:+ sep +:+ strings_Join l sep.
Proof. destruct l; [congruence | reflexivity]. Qed.

Lemma replaceDateLines_cons a rest repl :
  one_line a = true ->
  replaceDateLines (a +:+ nl +:+ rest) repl
  = (if strings_HasPrefix a "date:" then repl else a) +:+ nl +:+ replaceDateLines rest repl.
Proof.
  intros H. unfold replaceDateLines. rewrite split_LF_cons by assumption.
  simpl map. apply strings_Join_cons.
  pose proof (split_byte_nonempty LF rest). destruct (split_byte LF rest); [congruence|].
  discriminate.
Qed.

Lemma one_line_item t : one_line t = true -> one_line ("    - " +:+ t) = true.
Proof. intros H. exact H. Qed.

Lemma item_line t more :
  ("    - " +:+ t +:+ nl) +:+ more = ("    - " +:+ t) +:+ nl +:+ more.
Proof. rewrite !append_assoc. reflexivity. Qed.

Lemma replaceDateLines_items tags repl :
  Forall (fun t => one_line t = true) tags ->
  replaceDateLines (sconcat (map (fun t => "    - " +:+ t +:+ nl) tags)) repl
  = sconcat (map (fun t => "    - " +:+ t +:+ nl) tags).
Proof.
  induction 1 as [|t l Ht Hl IH]; [reflexivity|].
  cbn [map sconcat]. rewrite item_line.
  rewrite replaceDateLines_cons by (apply one_line_item, Ht). rewrite IH. reflexivity.
Qed.

Lemma eqb_first_char c r c' r' :
  Ascii.eqb c c' = false -> String.eqb (String c r) (String c' r') = false.
Proof.
  intros H. destruct (String.eqb_spec (String c r) (String c' r')) as [E|]; [|reflexivity].
  inversion E; subst. rewrite Ascii.eqb_refl in H. discriminate.
Qed.

Lemma digit_plain_char c : isDigitB c = true -> Yaml.plain_char c = true.
Proof. intros H. unfold Yaml.plain_char. rewrite H, orb_true_r. reflexivity. Qed.

Lemma one_line_app a b : one_line (a +:+ b) = one_line a && one_line b.
Proof.
  unfold one_line. induction a as [|c r IH]; [reflexivity|].
  cbn [String.append Yaml.all_chars]. rewrite IH, andb_assoc. reflexivity.
Qed.

(** A calendar date reads back as itself from a plain scalar. *)
Lemma plain_in_date s t : time_Parse s = inr t -> plain_in s = true.
Proof.
  intros H. apply time_Parse_inr_shape in H.
  destruct H as (c0 & c1 & c2 & c3 & m0 & m1 & d0 & d1 & -> & Hdig & _).
  invert_Forall.
  unfold plain_in, Yaml.plain_start, Yaml.in_list, Yaml.null_words.
  cbn [Yaml.all_chars Yaml.last_char existsb].
  change (Yaml.plain_char "-"%char) with true.
  rewrite !digit_plain_char by assumption.
  rewrite !eqb_first_char by (apply digit_neq; [assumption | reflexivity]).
  rewrite (digit_neq d1 Yaml.SP) by (assumption || reflexivity).
  match goal with H : isDigitB c0 = true |- _ => rewrite H end.
  rewrite orb_true_r. reflexivity.
Qed.

Lemma write_scalar_plain t : Yaml.plain_out t = true -> Yaml.write_scalar t = Some t.
Proof. intros H. unfold Yaml.write_scalar. rewrite H. reflexivity. Qed.

Lemma write_scalar_date s t :
  time_Parse s = inr t -> Yaml.write_scalar s = Some (String DQUOTE (s +:+ str1 DQUOTE)).
Proof.
  intros H. unfold Yaml.write_scalar.
  assert (Hp : Yaml.plain_out s = false).
  { pose proof (time_Parse_inr_shape s t H) as (c0 & c1 & c2 & c3 & m0 & m1 & d0 & d1
                                                  & -> & Hdig & _).
    inversion Hdig as [|x y Hc0 _]; subst. unfold Yaml.plain_out.
    rewrite (digit_not_letter c0 Hc0). reflexivity. }
  rewrite Hp. unfold Yaml.is_date. rewrite H, orb_true_r. reflexivity.
Qed.

Lemma write_items_plain tags :
  Forall (fun t => Yaml.plain_out t = true) tags ->
  Yaml.write_items tags = Some (sconcat (map (fun t => "    - " +:+ t +:+ nl) tags)).
Proof.
  induction 1 as [|t l Ht Hl IH]; [reflexivity|].
  cbn [Yaml.write_items map sconcat]. rewrite (write_scalar_plain t Ht), IH.
  rewrite !append_assoc. reflexivity.
Qed.

Lemma encode_front_plain title date tags t :
  Yaml.plain_out title = true -> time_Parse date = inr t ->
  Forall (fun x => Yaml.plain_out x = true) tags ->
  Yaml.encode_front (FrontMatter.mk title date tags)
  = Some (("title: " +:+ title) +:+ nl
          +:+ ("date: " +:+ String DQUOTE (date +:+ str1 DQUOTE)) +:+ nl
          +:+ tagsBlock tags).
Proof.
  intros Ht Hd Htags. unfold Yaml.encode_front. cbn [FrontMatter.Title FrontMatter.Date
                                                      FrontMatter.Tags].
  rewrite (write_scalar_plain _ Ht), (write_scalar_date _ _ Hd), (write_items_plain _ Htags).
  unfold tagsBlock. rewrite !append_assoc. reflexivity.
Qed.

Lemma replaceDateLines_tagsBlock tags repl :
  Forall (fun x => Yaml.plain_out x = true) tags ->
  replaceDateLines (tagsBlock tags) repl = tagsBlock tags.
Proof.
  intros Htags. unfold tagsBlock. destruct tags as [|t l].
  - reflexivity.
  - rewrite replaceDateLines_cons by reflexivity.
    change (strings_HasPrefix "tags:" "date:") with false. cbv iota.
    rewrite replaceDateLines_items; [reflexivity|].
    eapply List.Forall_impl; [|exact Htags].
    intros x Hx. apply plain_in_one_line, plain_out_plain_in, Hx.
Qed.

(** The front matter of a plain note, written by a library that agrees with
    the description and post-processed, is the canonical one. *)
Lemma yamlFrontMatterOf_plain (L : Libraries) (note : Note) :
  Yaml.Conforms L ->
  validateNote note = None ->
  Yaml.plain_out (Title note) = true ->
  Forall (fun x => Yaml.plain_out x = true) (Tags note) ->
  yamlFrontMatterOf (Lib := L) note = inr (canonicalFrontMatter note).
Proof.
  intros HL Hvalid Htitle Htags.
  assert (Hdate : exists t, time_Parse (Date note) = inr t).
  { apply time_Parse_calendarDate. apply (validateNote_None_iff note), Hvalid. }
  destruct Hdate as [t Hdate].
  unfold yamlFrontMatterOf, removeQuotesFromDateField.
  rewrite (proj2 HL _ _ (encode_front_plain _ _ _ t Htitle Hdate Htags)).
  rewrite ReplaceAllString_no_dollar by (eapply cut_dollar_calendar, Hdate).
  f_equal. unfold canonicalFrontMatter.
  rewrite replaceDateLines_cons
    by (apply (plain_in_one_line (Title note)), plain_out_plain_in, Htitle).
  change (strings_HasPrefix ("title: " +:+ Title note) "date:") with false. cbv iota.
  rewrite replaceDateLines_cons.
  - change (strings_HasPrefix ("date: " +:+ String DQUOTE (Date note +:+ str1 DQUOTE)) "date:")
      with true. cbv iota.
    rewrite replaceDateLines_tagsBlock by assumption.
    rewrite !append_assoc. reflexivity.
  - change (one_line ("date: " +:+ String DQUOTE (Date note +:+ str1 DQUOTE)))
      with (one_line (Date note +:+ str1 DQUOTE)).
    rewrite one_line_app, (plain_in_one_line _ (plain_in_date _ _ Hdate)). reflexivity.
Qed.

(** ** Reading the canonical front matter back *)

Lemma srev_append_spec s acc : srev_append s acc = srev s +:+ acc.
Proof.
  unfold srev. revert acc. induction s as [|c r IH]; intros acc; [reflexivity|].
  cbn [srev_append]. rewrite (IH (String c acc)), (IH (String c EmptyString)).
  rewrite append_assoc. reflexivity.
Qed.

Lemma srev_cons c r : srev (String c r) = srev r +:+ str1 c.
Proof. unfold srev at 1. cbn [srev_append]. apply srev_append_spec. Qed.

Lemma srev_app a b : srev (a +:+ b) = srev b +:+ srev a.
Proof.
  induction a as [|c r IH]; cbn [String.append].
  - rewrite append_nil_r. reflexivity.
  - rewrite !srev_cons, IH, append_assoc. reflexivity.
Qed.

Lemma srev_involutive s : srev (srev s) = s.
Proof.
  induction s as [|c r IH]; [reflexivity|].
  rewrite srev_cons, srev_app, IH. reflexivity.
Qed.

Lemma srev_last s d : Yaml.last_char s = Some d -> exists r, srev s = String d r.
Proof.
  induction s as [|c [|c' r] IH]; intros H; [discriminate | |].
  - inversion H; subst. exists EmptyString. reflexivity.
  - destruct (IH H) as [r0 Hr]. rewrite srev_cons, Hr. eexists. reflexivity.
Qed.

Lemma plain_start_neq c x :
  Yaml.plain_start c = true -> Yaml.plain_start x = false -> Ascii.eqb c x = false.
Proof. intros Hc Hx. destruct (Ascii.eqb_spec c x) as [->|]; [congruence | reflexivity]. Qed.

Lemma last_char_cons c r : exists d, Yaml.last_char (String c r) = Some d.
Proof.
  revert c. induction r as [|c' r IH]; intros c; [eexists; reflexivity|].
  destruct (IH c') as [d Hd]. exists d. exact Hd.
Qed.

Lemma plain_in_spec s :
  plain_in s = true ->
  exists c r d,
    s = String c r /\ Yaml.plain_start c = true
    /\ Yaml.all_chars Yaml.plain_char s = true
    /\ Yaml.last_char s = Some d /\ Ascii.eqb d Yaml.SP = false
    /\ Yaml.in_list s Yaml.null_words = false.
Proof.
  unfold plain_in. destruct s as [|c r]; [discriminate|]. intros H.
  apply andb_true_iff in H as [H Hnull]. apply andb_true_iff in H as [H Hlast].
  apply andb_true_iff in H as [Hstart Hall].
  destruct (last_char_cons c r) as [d Hd]. rewrite Hd in Hlast.
  exists c, r, d. apply negb_true_iff in Hlast, Hnull. auto 10.
Qed.

Lemma trim_spaces_plain s : plain_in s = true -> Yaml.trim_spaces (String Yaml.SP s) = s.
Proof.
  intros H. destruct (plain_in_spec s H) as (c & r & d & -> & Hc & _ & Hd & Hsp & _).
  unfold Yaml.trim_spaces. cbn [Yaml.drop_spaces]. rewrite Ascii.eqb_refl.
  cbn [Yaml.drop_spaces]. rewrite (plain_start_neq c Yaml.SP Hc eq_refl).
  destruct (srev_last _ _ Hd) as [r0 Hr0]. rewrite Hr0.
  cbn [Yaml.drop_spaces]. rewrite Hsp, <- Hr0. apply srev_involutive.
Qed.

Lemma read_scalar_plain s : plain_in s = true -> Yaml.read_scalar s = Some (Yaml.VStr s).
Proof.
  intros H. destruct (plain_in_spec s H) as (c & r & d & -> & Hc & Hall & _ & _ & Hnull).
  unfold Yaml.read_scalar.
  rewrite (plain_start_neq c DQUOTE Hc eq_refl).
  rewrite (eqb_first_char c r "["%char "]") by (apply plain_start_neq; [assumption | reflexivity]).
  rewrite Hc, Hall, Hnull. reflexivity.
Qed.

Lemma after_indicator_plain s :
  plain_in s = true -> Yaml.after_indicator (String Yaml.SP s) = Some (Yaml.VStr s).
Proof.
  intros H. unfold Yaml.after_indicator. rewrite Ascii.eqb_refl.
  rewrite (trim_spaces_plain s H). apply read_scalar_plain, H.
Qed.

Lemma classify_title s :
  plain_in s = true -> Yaml.classify ("title: " +:+ s) = Yaml.Key "title" (Yaml.VStr s).
Proof.
  intros H. unfold Yaml.classify, Yaml.key_line.
  change (Yaml.drop_spaces ("title: " +:+ s)) with ("title: " +:+ s).
  change (strings_HasPrefix ("title: " +:+ s) "title:") with true.
  change (sdrop (Datatypes.S (String.length "title")) ("title: " +:+ s))
    with (String Yaml.SP s).
  cbn [String.append]. rewrite (after_indicator_plain s H). reflexivity.
Qed.

Lemma classify_date s :
  plain_in s = true -> Yaml.classify ("date: " +:+ s) = Yaml.Key "date" (Yaml.VStr s).
Proof.
  intros H. unfold Yaml.classify, Yaml.key_line.
  change (Yaml.drop_spaces ("date: " +:+ s)) with ("date: " +:+ s).
  change (strings_HasPrefix ("date: " +:+ s) "title:") with false.
  change (strings_HasPrefix ("date: " +:+ s) "date:") with true.
  change (sdrop (Datatypes.S (String.length "date")) ("date: " +:+ s))
    with (String Yaml.SP s).
  cbn [String.append]. rewrite (after_indicator_plain s H). reflexivity.
Qed.

Lemma classify_item s :
  plain_in s = true -> Yaml.classify ("    - " +:+ s) = Yaml.Item 4 (Yaml.VStr s).
Proof.
  intros H. unfold Yaml.classify.
  change (Yaml.drop_spaces ("    - " +:+ s)) with (String "-"%char (String Yaml.SP s)).
  change (strings_HasPrefix ("    - " +:+ s) "title:") with false.
  change (strings_HasPrefix ("    - " +:+ s) "date:") with false.
  change (strings_HasPrefix ("    - " +:+ s) "tags:") with false.
  change (Yaml.count_spaces ("    - " +:+ s)) with 4%nat.
  cbv iota. rewrite Ascii.eqb_refl, (after_indicator_plain s H). reflexivity.
Qed.

Lemma split_LF_items tags :
  Forall (fun t => one_line t = true) tags ->
  split_byte LF (sconcat (map (fun t => "    - " +:+ t +:+ nl) tags))
  = map (fun t => "    - " +:+ t) tags ++ [EmptyString].
Proof.
  induction 1 as [|t l Ht Hl IH]; [reflexivity|].
  cbn [map sconcat]. rewrite item_line.
  rewrite split_LF_cons by (apply one_line_item, Ht). rewrite IH. reflexivity.
Qed.

Lemma run_items title date acc indent tags :
  Forall (fun t => plain_in t = true) tags ->
  indent = None \/ indent = Some 4%nat ->
  Yaml.run (Yaml.mkState title date (Some acc) (Some indent))
    (map Yaml.classify (map (fun t => "    - " +:+ t) tags ++ [EmptyString]))
  = Some (Yaml.mkState title date (Some (acc ++ tags))
            (Some (match tags with [] => indent | _ => Some 4%nat end))).
Proof.
  intros Htags. revert acc indent.
  induction Htags as [|t l Ht Hl IH]; intros acc indent Hindent.
  - cbn. rewrite app_nil_r. reflexivity.
  - cbn [map app Yaml.run]. rewrite (classify_item t Ht).
    cbn [Yaml.step Yaml.s_seq Yaml.s_title Yaml.s_date Yaml.s_tags default].
    assert (Hok : match indent with None => true | Some m => Nat.eqb m 4 end = true)
      by (destruct Hindent as [-> | ->]; reflexivity).
    rewrite Hok. cbn [map] in IH. rewrite IH by auto.
    rewrite <- app_assoc. destruct l; reflexivity.
Qed.

Lemma decode_front_canonical note :
  plain_in (Title note) = true -> plain_in (Date note) = true ->
  Forall (fun t => plain_in t = true) (Tags note) ->
  Yaml.decode_front (canonicalFrontMatter note)
  = Some (mkNote (Title note) (Date note) (Tags note) EmptyString).
Proof.
  intros Ht Hd Htags. unfold Yaml.decode_front, canonicalFrontMatter.
  rewrite <- (append_assoc "title: "), split_LF_cons
    by (apply (plain_in_one_line (Title note)), Ht).
  rewrite <- (append_assoc "date: "), split_LF_cons
    by (apply (plain_in_one_line (Date note)), Hd).
  cbn [map Yaml.run]. rewrite (classify_title _ Ht), (classify_date _ Hd).
  cbn [Yaml.step Yaml.s_title Yaml.s_date Yaml.s_tags Yaml.s_seq Yaml.string_field
       String.eqb Ascii.eqb Bool.eqb].
  unfold tagsBlock. destruct (Tags note) as [|t l] eqn:Htg.
  - reflexivity.
  - rewrite split_LF_cons by reflexivity.
    rewrite split_LF_items.
    + cbn [map Yaml.run]. change (Yaml.classify "tags:") with (Yaml.Key "tags" Yaml.VNull).
      cbn [Yaml.step Yaml.s_title Yaml.s_date Yaml.s_tags Yaml.s_seq
           String.eqb Ascii.eqb Bool.eqb].
      change (("    - " +:+ t) :: map (fun t0 : string => "    - " +:+ t0) l)
        with (map (fun t0 : string => "    - " +:+ t0) (t :: l)).
      rewrite run_items by auto. reflexivity.
    + eapply List.Forall_impl; [|exact Htags]. intros x Hx. apply plain_in_one_line, Hx.
Qed.


Lemma validateNote_plain_date note : validateNote note = None -> plain_in (Date note) = true.
Proof.
  intros Hvalid.
  assert (Hdate : exists t, time_Parse (Date note) = inr t).
  { apply time_Parse_calendarDate. apply (validateNote_None_iff note), Hvalid. }
  destruct Hdate as [t Hdate]. eapply plain_in_date, Hdate.
Qed.







(** * Further properties *)

Lemma filepath_Clean_idempotent x : filepath_Clean (filepath_Clean x) = filepath_Clean x.
Proof.
  destruct x as [|c r]; [reflexivity|].
  set (x := String c r).
  assert (Hx : x <> EmptyString) by discriminate.
  set (rooted := is_rooted x).
  set (stack := fold_left (clean_step rooted) (split_byte SLASH x) []).
  assert (Hst : clean_stack rooted stack)
    by (apply fold_clean_stack; [apply split_byte_elems | exact I]).
  destruct (render_split rooted stack Hst) as (Hfold & Hroot & Hne).
  rewrite (filepath_Clean_render x Hx). fold rooted. fold stack.
  rewrite filepath_Clean_render by assumption.
  rewrite Hroot, Hfold. reflexivity.
Qed.

Lemma real_elems_no_slash elems :
  Forall (fun e => real_elem e = true) elems -> Forall (fun e => no_slash e = true) elems.
Proof.
  apply List.Forall_impl. intros e He. unfold real_elem in He.
  apply andb_true_iff in He as [He _]. apply kept_elem_spec in He. tauto.
Qed.

Lemma strings_Join_real_nonempty elems :
  elems <> [] -> Forall (fun e => real_elem e = true) elems ->
  exists c r, strings_Join elems "/" = String c r.
Proof.
  intros Hne Hreal. destruct elems as [|e l]; [congruence|].
  inversion Hreal as [|x y He Hl]; subst.
  unfold real_elem in He. apply andb_true_iff in He as [He _].
  apply kept_elem_spec in He as [He _].
  destruct (strings_Join_first_elem e l He) as (c & r & Hj & _). eauto.
Qed.

(** Real elements below the root. *)
Lemma filepath_Clean_root_real elems :
  elems <> [] -> Forall (fun e => real_elem e = true) elems ->
  filepath_Clean ("/" +:+ "/" +:+ strings_Join elems "/") = "/" +:+ strings_Join elems "/".
Proof.
  intros Hne Hreal.
  rewrite filepath_Clean_render by discriminate.
  change ("/" +:+ "/" +:+ strings_Join elems "/")
    with ("/" +:+ String SLASH (strings_Join elems "/")).
  rewrite split_byte_app, fold_left_app.
  rewrite split_byte_Join by (try assumption; apply real_elems_no_slash; assumption).
  change (is_rooted ("/" +:+ String SLASH (strings_Join elems "/"))) with true.
  change (fold_left (clean_step true) (split_byte SLASH "/") []) with (@nil string).
  rewrite fold_real_elems, app_nil_r by assumption.
  unfold render. rewrite rev_involutive. reflexivity.
Qed.

(** Real elements below the current directory. *)
Lemma filepath_Clean_dot_real elems :
  elems <> [] -> Forall (fun e => real_elem e = true) elems ->
  filepath_Clean ("." +:+ "/" +:+ strings_Join elems "/") = strings_Join elems "/".
Proof.
  intros Hne Hreal.
  rewrite filepath_Clean_render by discriminate.
  change ("." +:+ "/" +:+ strings_Join elems "/")
    with ("." +:+ String SLASH (strings_Join elems "/")).
  rewrite split_byte_app, fold_left_app.
  rewrite split_byte_Join by (try assumption; apply real_elems_no_slash; assumption).
  change (is_rooted ("." +:+ String SLASH (strings_Join elems "/"))) with false.
  change (fold_left (clean_step false) (split_byte SLASH ".") []) with (@nil string).
  rewrite fold_real_elems, app_nil_r by assumption.
  unfold render. rewrite rev_involutive.
  destruct (strings_Join_real_nonempty elems Hne Hreal) as (c & r & ->). reflexivity.
Qed.

(** Real elements below any base. *)
Lemma filepath_Clean_base_real baseDir elems :
  baseDir <> EmptyString ->
  elems <> [] -> Forall (fun e => real_elem e = true) elems ->
  filepath_Clean (baseDir +:+ "/" +:+ strings_Join elems "/")
  = archivePrefix baseDir +:+ strings_Join elems "/".
Proof.
  intros Hb Hne Hreal.
  rewrite <- filepath_Clean_Clean_app by assumption.
  unfold archivePrefix. destruct baseDir as [|c0 r0]; [congruence|].
  cbv zeta.
  destruct (String.eqb (filepath_Clean (String c0 r0)) "/") eqn:Hroot.
  { apply String.eqb_eq in Hroot. rewrite Hroot.
    apply filepath_Clean_root_real; assumption. }
  destruct (String.eqb (filepath_Clean (String c0 r0)) ".") eqn:Hdot.
  { apply String.eqb_eq in Hdot. rewrite Hdot.
    apply filepath_Clean_dot_real; assumption. }
  apply String.eqb_neq in Hroot, Hdot.
  rewrite filepath_Clean_app_real; try assumption.
  - rewrite append_assoc. reflexivity.
  - apply filepath_Clean_idempotent.
Qed.

Lemma buildMarkdownPath_Join note baseDir y m d :
  0 <= y <= 9999 -> 1 <= m <= 12 -> 1 <= d <= daysIn m y ->
  Date note = dateString y m d ->
  buildMarkdownPath note baseDir
  = inr (filepath_Join (filepath_Join baseDir (four_digits y +:+ "/" +:+ two_digits m))
           (two_digits d +:+ ".md")).
Proof.
  intros Hy Hm Hd Hdate. pose proof (daysIn_le_31 m y) as H31.
  unfold buildMarkdownPath. rewrite Hdate, time_Parse_dateString by assumption.
  unfold Time_Format_year_month. simpl Year. simpl Month. simpl Day.
  rewrite appendInt_four, appendInt_two, Sprintf_02d_md_two by lia. reflexivity.
Qed.

Lemma real_year_month y m :
  0 <= y <= 9999 -> 1 <= m <= 12 ->
  Forall (fun e => real_elem e = true) [four_digits y; two_digits m].
Proof.
  intros Hy Hm.
  repeat constructor; [apply real_elem_four_digits | apply real_elem_two_digits]; lia.
Qed.

Lemma real_year_month_day y m d :
  0 <= y <= 9999 -> 1 <= m <= 12 -> 1 <= d <= 31 ->
  Forall (fun e => real_elem e = true) [four_digits y; two_digits m; two_digits d +:+ ".md"].
Proof.
  intros Hy Hm Hd.
  repeat constructor; [apply real_elem_four_digits | apply real_elem_two_digits
                       | apply real_elem_day_file]; lia.
Qed.

(** The directory of the month: the first [filepath.Join] of
    [buildMarkdownPath]. *)
Lemma filepath_Join_year_month baseDir y m :
  0 <= y <= 9999 -> 1 <= m <= 12 ->
  filepath_Join baseDir (four_digits y +:+ "/" +:+ two_digits m)
  = archivePrefix baseDir +:+ four_digits y +:+ "/" +:+ two_digits m.
Proof.
  intros Hy Hm.
  pose proof (real_year_month y m Hy Hm) as Hreal.
  assert (HYM : four_digits y +:+ "/" +:+ two_digits m <> EmptyString)
    by (unfold four_digits; discriminate).
  change (four_digits y +:+ "/" +:+ two_digits m)
    with (strings_Join [four_digits y; two_digits m] "/") in *.
  destruct baseDir as [|c base].
  - rewrite filepath_Join_empty by assumption.
    apply filepath_Clean_real_elems; [discriminate | assumption].
  - rewrite filepath_Join_nonempty by discriminate.
    apply filepath_Clean_base_real; [discriminate | discriminate | assumption].
Qed.

Lemma buildMarkdownPath_dayPath note baseDir y m d :
  0 <= y <= 9999 -> 1 <= m <= 12 -> 1 <= d <= daysIn m y ->
  Date note = dateString y m d ->
  buildMarkdownPath note baseDir = inr (archivePrefix baseDir +:+ dayPath y m d).
Proof.
  intros Hy Hm Hd Hdate. pose proof (daysIn_le_31 m y) as H31.
  rewrite (buildMarkdownPath_Join note baseDir y m d) by assumption.
  f_equal. unfold dayPath.
  assert (Hreal := real_year_month_day y m d Hy Hm ltac:(lia)).
  assert (HYM : four_digits y +:+ "/" +:+ two_digits m <> EmptyString)
    by (unfold four_digits; discriminate).
  assert (Hjoin3 : strings_Join [four_digits y; two_digits m; two_digits d +:+ ".md"] "/"
                   = four_digits y +:+ "/" +:+ two_digits m +:+ "/" +:+ two_digits d +:+ ".md")
    by reflexivity.
  destruct baseDir as [|c base].
  - rewrite filepath_Join_empty by assumption.
    rewrite filepath_Join_nonempty by apply filepath_Clean_nonempty.
    rewrite filepath_Clean_Clean_app by assumption.
    rewrite append_assoc.
    change (("/" +:+ two_digits m) +:+ "/" +:+ two_digits d +:+ ".md")
      with ("/" +:+ two_digits m +:+ "/" +:+ two_digits d +:+ ".md").
    change (archivePrefix EmptyString) with EmptyString.
    change (EmptyString +:+ ?x) with x.
    rewrite <- Hjoin3. apply filepath_Clean_real_elems; [discriminate | assumption].
  - rewrite (filepath_Join_nonempty (String c base)) by discriminate.
    rewrite filepath_Join_nonempty by apply filepath_Clean_nonempty.
    rewrite filepath_Clean_Clean_app by discriminate.
    rewrite <- Hjoin3.
    rewrite <- (filepath_Clean_base_real (String c base)
                  [four_digits y; two_digits m; two_digits d +:+ ".md"]);
      [| discriminate | discriminate | assumption].
    f_equal. rewrite Hjoin3, !append_assoc. reflexivity.
Qed.

Lemma append_cancel_l (p a b : string) : p +:+ a = p +:+ b -> a = b.
Proof. induction p as [|c p IH]; simpl; [auto|]. intros H. injection H. auto. Qed.

Lemma dayPath_inj y1 m1 d1 y2 m2 d2 :
  dayPath y1 m1 d1 = dayPath y2 m2 d2 -> dateString y1 m1 d1 = dateString y2 m2 d2.
Proof.
  unfold dayPath, dateString, four_digits, two_digits. simpl.
  intros H. injection H. intros. congruence.
Qed.

Lemma dir_prefix_no_slash d : no_slash d = true -> dir_prefix d = EmptyString.
Proof.
  induction d as [|c r IH]; [reflexivity|]. simpl.
  destruct (Ascii.eqb c SLASH); [discriminate|]. simpl.
  intros H. rewrite IH by assumption. reflexivity.
Qed.

Lemma dir_prefix_app x d :
  no_slash d = true -> dir_prefix (x +:+ "/" +:+ d) = x +:+ "/".
Proof.
  intros Hd. induction x as [|c r IH].
  - simpl. rewrite dir_prefix_no_slash by assumption. reflexivity.
  - change (dir_prefix (String c r +:+ "/" +:+ d))
      with (let pre := dir_prefix (r +:+ "/" +:+ d) in
            if Ascii.eqb c SLASH then String c pre
            else match pre with EmptyString => EmptyString | _ => String c pre end).
    rewrite IH. cbv zeta.
    destruct (Ascii.eqb c SLASH); [reflexivity|].
    destruct r; reflexivity.
Qed.

(** A slash at the end of a path does not count. *)
Lemma filepath_Clean_trailing_slash x :
  x <> EmptyString -> filepath_Clean (x +:+ "/") = filepath_Clean x.
Proof.
  intros Hx.
  rewrite !filepath_Clean_render by (try apply append_nonempty; assumption).
  rewrite is_rooted_app by assumption.
  change ("/"%string) with (String SLASH EmptyString).
  rewrite split_byte_app, fold_left_app. reflexivity.
Qed.

Lemma filepath_Join_clean a b : b <> EmptyString ->
  filepath_Clean (filepath_Join a b) = filepath_Join a b.
Proof.
  intros Hb. destruct a as [|c r].
  - rewrite filepath_Join_empty by assumption. apply filepath_Clean_idempotent.
  - rewrite filepath_Join_nonempty by discriminate. apply filepath_Clean_idempotent.
Qed.

(** X6. The path in closed form, for every base directory: for a note
    that passes validation, with the date [YYYY-MM-DD], [buildMarkdownPath]
    returns [YYYY/MM/DD.md] after a prefix that depends on the base only:
    nothing for an empty base and for a base that cleans to [.], the slash
    for a base that cleans to the root, and otherwise the cleaned base and a
    slash. *)
Theorem buildMarkdownPath_closed_form (note : Note) (baseDir : string) :
  validateNote note = None ->
  exists y m d,
    0 <= y <= 9999 /\ 1 <= m <= 12 /\ 1 <= d <= daysIn m y
    /\ Date note = dateString y m d
    /\ buildMarkdownPath note baseDir = inr (archivePrefix baseDir +:+ dayPath y m d).
Proof.
  intros Hvalid.
  destruct (proj1 (validateNote_None_iff note) Hvalid)
    as (_ & _ & y & m & d & Hy & Hm & Hd & Hdate).
  exists y, m, d. repeat (split; [assumption|]).
  apply buildMarkdownPath_dayPath; assumption.
Qed.

Lemma buildMarkdownPath_closed_form_witness :
  exists y m d,
    0 <= y <= 9999 /\ 1 <= m <= 12 /\ 1 <= d <= daysIn m y
    /\ "2024-09-12" = dateString y m d
    /\ buildMarkdownPath (mkNote "T" "2024-09-12" [] EmptyString) "./notes/"
       = inr (archivePrefix "./notes/" +:+ dayPath y m d).
Proof.
  apply (buildMarkdownPath_closed_form (mkNote "T" "2024-09-12" [] EmptyString) "./notes/").
  vm_compute. reflexivity.
Defined.

(** X7. One file per calendar day: two notes that pass validation get the
    same path below the same base directory exactly when they have the same
    date. *)
Theorem one_file_per_calendar_day (note1 note2 : Note) (baseDir : string) :
  validateNote note1 = None ->
  validateNote note2 = None ->
  (buildMarkdownPath note1 baseDir = buildMarkdownPath note2 baseDir
   <-> Date note1 = Date note2).
Proof.
  intros H1 H2. split.
  - destruct (proj1 (validateNote_None_iff note1) H1)
      as (_ & _ & y1 & m1 & d1 & Hy1 & Hm1 & Hd1 & Hdate1).
    destruct (proj1 (validateNote_None_iff note2) H2)
      as (_ & _ & y2 & m2 & d2 & Hy2 & Hm2 & Hd2 & Hdate2).
    rewrite (buildMarkdownPath_dayPath note1 baseDir y1 m1 d1) by assumption.
    rewrite (buildMarkdownPath_dayPath note2 baseDir y2 m2 d2) by assumption.
    intros Heq. injection Heq as Heq. apply append_cancel_l, dayPath_inj in Heq.
    congruence.
  - intros Heq. unfold buildMarkdownPath. rewrite Heq. reflexivity.
Qed.

Lemma one_file_per_calendar_day_witness :
  buildMarkdownPath (mkNote "First" "2024-09-12" ["a"] "One") "/archive"
  = buildMarkdownPath (mkNote "Second" "2024-09-12" [] "Two") "/archive"
  <-> "2024-09-12" = "2024-09-12".
Proof.
  apply (one_file_per_calendar_day (mkNote "First" "2024-09-12" ["a"] "One")
           (mkNote "Second" "2024-09-12" [] "Two") "/archive");
    vm_compute; reflexivity.
Defined.

(** X8. The directory that [ProcessNotes] creates holds the file: for
    a note that passes validation, [filepath.Dir] of its path is
    [filepath.Join(base, YYYY/MM)], and the path is that directory, a slash
    and the file name [DD.md]. *)
Theorem created_directory_holds_the_file (note : Note) (baseDir : string) :
  validateNote note = None ->
  exists y m d filePath,
    Date note = dateString y m d
    /\ buildMarkdownPath note baseDir = inr filePath
    /\ filepath_Dir filePath = filepath_Join baseDir (four_digits y +:+ "/" +:+ two_digits m)
    /\ filePath = filepath_Dir filePath +:+ "/" +:+ two_digits d +:+ ".md"
    /\ no_slash (two_digits d +:+ ".md") = true.
Proof.
  intros Hvalid.
  destruct (proj1 (validateNote_None_iff note) Hvalid)
    as (_ & _ & y & m & d & Hy & Hm & Hd & Hdate).
  pose proof (daysIn_le_31 m y) as H31.
  set (dir := filepath_Join baseDir (four_digits y +:+ "/" +:+ two_digits m)).
  assert (Hdir : dir = archivePrefix baseDir +:+ four_digits y +:+ "/" +:+ two_digits m)
    by (apply filepath_Join_year_month; assumption).
  assert (Hfile : no_slash (two_digits d +:+ ".md") = true).
  { pose proof (real_elem_day_file d ltac:(lia)) as Hr. unfold real_elem in Hr.
    apply andb_true_iff in Hr as [Hr _]. apply kept_elem_spec in Hr. tauto. }
  assert (Hpath : archivePrefix baseDir +:+ dayPath y m d
                  = dir +:+ "/" +:+ two_digits d +:+ ".md").
  { rewrite Hdir. unfold dayPath. rewrite !append_assoc. reflexivity. }
  assert (HdirOf : filepath_Dir (dir +:+ "/" +:+ two_digits d +:+ ".md") = dir).
  { unfold filepath_Dir. rewrite dir_prefix_app by assumption.
    rewrite filepath_Clean_trailing_slash.
    - apply filepath_Join_clean. unfold four_digits. discriminate.
    - rewrite Hdir, <- append_assoc. apply not_eq_sym. unfold four_digits.
      destruct (archivePrefix baseDir); discriminate. }
  exists y, m, d, (dir +:+ "/" +:+ two_digits d +:+ ".md").
  split; [assumption|]. split.
  - rewrite (buildMarkdownPath_dayPath note baseDir y m d) by assumption.
    rewrite Hpath. reflexivity.
  - rewrite HdirOf. repeat split; try reflexivity. assumption.
Qed.

Lemma created_directory_holds_the_file_witness :
  exists y m d filePath,
    "2024-09-12" = dateString y m d
    /\ buildMarkdownPath (mkNote "T" "2024-09-12" [] EmptyString) "/" = inr filePath
    /\ filepath_Dir filePath = filepath_Join "/" (four_digits y +:+ "/" +:+ two_digits m)
    /\ filePath = filepath_Dir filePath +:+ "/" +:+ two_digits d +:+ ".md"
    /\ no_slash (two_digits d +:+ ".md") = true.
Proof.
  apply (created_directory_holds_the_file (mkNote "T" "2024-09-12" [] EmptyString) "/").
  vm_compute. reflexivity.
Defined.

(** ** White space around the content *)

(** The scan of [trimLeftSpace], case by case: a rune of white space of one,
    two or three bytes is passed, anything else stops the scan. *)
Lemma trimLeftSpace_cases :
  forall P : string -> string -> Prop,
    P EmptyString EmptyString ->
    (forall a r, asciiSpace a = true ->
                 P r (trimLeftSpace r) -> P (String a r) (trimLeftSpace r)) ->
    (forall a b r, asciiSpace a = false -> space2 a b = true ->
                   P r (trimLeftSpace r) -> P (String a (String b r)) (trimLeftSpace r)) ->
    (forall a b c r, asciiSpace a = false -> space2 a b = false -> space3 a b c = true ->
                     P r (trimLeftSpace r) ->
                     P (String a (String b (String c r))) (trimLeftSpace r)) ->
    (forall s, s <> EmptyString -> trimLeftSpace s = s -> P s s) ->
    forall s, P s (trimLeftSpace s).
Proof.
  intros P Hnil H1 H2 H3 Hstop s.
  remember (String.length s) as n eqn:Hn.
  revert s Hn. induction n as [n IH] using lt_wf_ind. intros s Hn.
  destruct s as [|a r1]; [exact Hnil|].
  simpl. destruct (asciiSpace a) eqn:Ha.
  { apply H1; [assumption|].
    apply (IH (String.length r1)); [subst n; simpl; lia | reflexivity]. }
  destruct r1 as [|b r2].
  { apply Hstop; [discriminate | simpl; rewrite Ha; reflexivity]. }
  destruct (space2 a b) eqn:Hb.
  { apply H2; [assumption | assumption |].
    apply (IH (String.length r2)); [subst n; simpl; lia | reflexivity]. }
  destruct r2 as [|c r3].
  { apply Hstop; [discriminate | simpl; rewrite Ha, Hb; reflexivity]. }
  destruct (space3 a b c) eqn:Hc.
  { apply H3; [assumption | assumption | assumption |].
    apply (IH (String.length r3)); [subst n; simpl; lia | reflexivity]. }
  apply Hstop; [discriminate | simpl; rewrite Ha, Hb, Hc; reflexivity].
Qed.

(** The same for the scan from the end. *)
Lemma trimLeftSpace_rev_cases :
  forall P : string -> string -> Prop,
    P EmptyString EmptyString ->
    (forall a r, asciiSpace a = true ->
                 P r (trimLeftSpace_rev r) -> P (String a r) (trimLeftSpace_rev r)) ->
    (forall a b r, asciiSpace a = false -> space2 b a = true ->
                   P r (trimLeftSpace_rev r) -> P (String a (String b r)) (trimLeftSpace_rev r)) ->
    (forall a b c r, asciiSpace a = false -> space2 b a = false -> space3 c b a = true ->
                     P r (trimLeftSpace_rev r) ->
                     P (String a (String b (String c r))) (trimLeftSpace_rev r)) ->
    (forall s, s <> EmptyString -> trimLeftSpace_rev s = s -> P s s) ->
    forall s, P s (trimLeftSpace_rev s).
Proof.
  intros P Hnil H1 H2 H3 Hstop s.
  remember (String.length s) as n eqn:Hn.
  revert s Hn. induction n as [n IH] using lt_wf_ind. intros s Hn.
  destruct s as [|a r1]; [exact Hnil|].
  simpl. destruct (asciiSpace a) eqn:Ha.
  { apply H1; [assumption|].
    apply (IH (String.length r1)); [subst n; simpl; lia | reflexivity]. }
  destruct r1 as [|b r2].
  { apply Hstop; [discriminate | simpl; rewrite Ha; reflexivity]. }
  destruct (space2 b a) eqn:Hb.
  { apply H2; [assumption | assumption |].
    apply (IH (String.length r2)); [subst n; simpl; lia | reflexivity]. }
  destruct r2 as [|c r3].
  { apply Hstop; [discriminate | simpl; rewrite Ha, Hb; reflexivity]. }
  destruct (space3 c b a) eqn:Hc.
  { apply H3; [assumption | assumption | assumption |].
    apply (IH (String.length r3)); [subst n; simpl; lia | reflexivity]. }
  apply Hstop; [discriminate | simpl; rewrite Ha, Hb, Hc; reflexivity].
Qed.

Lemma trimLeftSpace_suffix s : exists pre, s = pre +:+ trimLeftSpace s.
Proof.
  apply (trimLeftSpace_cases (fun s t => exists pre, s = pre +:+ t)).
  - exists EmptyString. reflexivity.
  - intros a r _ [pre H]. exists (String a pre). simpl. rewrite <- H. reflexivity.
  - intros a b r _ _ [pre H]. exists (String a (String b pre)). simpl. rewrite <- H. reflexivity.
  - intros a b c r _ _ _ [pre H]. exists (String a (String b (String c pre))).
    simpl. rewrite <- H. reflexivity.
  - intros t _ _. exists EmptyString. reflexivity.
Qed.

Lemma trimLeftSpace_rev_suffix s : exists pre, s = pre +:+ trimLeftSpace_rev s.
Proof.
  apply (trimLeftSpace_rev_cases (fun s t => exists pre, s = pre +:+ t)).
  - exists EmptyString. reflexivity.
  - intros a r _ [pre H]. exists (String a pre). simpl. rewrite <- H. reflexivity.
  - intros a b r _ _ [pre H]. exists (String a (String b pre)). simpl. rewrite <- H. reflexivity.
  - intros a b c r _ _ _ [pre H]. exists (String a (String b (String c pre))).
    simpl. rewrite <- H. reflexivity.
  - intros t _ _. exists EmptyString. reflexivity.
Qed.

Lemma trimLeftSpace_idempotent s : trimLeftSpace (trimLeftSpace s) = trimLeftSpace s.
Proof.
  apply (trimLeftSpace_cases (fun _ t => trimLeftSpace t = t)); auto.
Qed.

Lemma trimLeftSpace_rev_idempotent s :
  trimLeftSpace_rev (trimLeftSpace_rev s) = trimLeftSpace_rev s.
Proof.
  apply (trimLeftSpace_rev_cases (fun _ t => trimLeftSpace_rev t = t)); auto.
Qed.

Lemma length_append a b : String.length (a +:+ b) = (String.length a + String.length b)%nat.
Proof. induction a as [|c a IH]; simpl; [reflexivity | rewrite IH; reflexivity]. Qed.

Lemma trimLeftSpace_length s : (String.length (trimLeftSpace s) <= String.length s)%nat.
Proof.
  destruct (trimLeftSpace_suffix s) as [pre H]. rewrite H at 2. rewrite length_append. lia.
Qed.

Lemma srev_length s : String.length (srev s) = String.length s.
Proof.
  induction s as [|c r IH]; [reflexivity|].
  rewrite srev_cons, length_append, IH. simpl. lia.
Qed.

Lemma trimRightSpace_prefix s : exists post, s = trimRightSpace s +:+ post.
Proof.
  unfold trimRightSpace.
  destruct (trimLeftSpace_rev_suffix (srev s)) as [pre H].
  exists (srev pre).
  rewrite <- srev_app, <- H. symmetry. apply srev_involutive.
Qed.

Lemma trimRightSpace_idempotent s : trimRightSpace (trimRightSpace s) = trimRightSpace s.
Proof.
  unfold trimRightSpace. rewrite srev_involutive, trimLeftSpace_rev_idempotent. reflexivity.
Qed.

(** A string that does not start with white space has no prefix that
    does. *)
Lemma trimLeftSpace_prefix_stable x y :
  trimLeftSpace (x +:+ y) = x +:+ y -> trimLeftSpace x = x.
Proof.
  intros H.
  assert (Hlen : forall z k,
             (String.length z + k < String.length (x +:+ y))%nat ->
             trimLeftSpace z <> x +:+ y).
  { intros z k Hz Heq. pose proof (trimLeftSpace_length z) as Hl.
    rewrite Heq in Hl. lia. }
  destruct x as [|a [|b [|c x]]]; [reflexivity | | |].
  - simpl in *. destruct (asciiSpace a) eqn:Ha; [|reflexivity].
    exfalso. apply (Hlen y 0%nat); [simpl; lia | exact H].
  - simpl in *. destruct (asciiSpace a) eqn:Ha.
    { exfalso. apply (Hlen (String b y) 0%nat); [simpl; lia | exact H]. }
    destruct (space2 a b) eqn:Hb; [|reflexivity].
    exfalso. apply (Hlen y 0%nat); [simpl; lia | exact H].
  - simpl in *. destruct (asciiSpace a) eqn:Ha.
    { exfalso. apply (Hlen (String b (String c (x +:+ y))) 0%nat); [simpl; lia | exact H]. }
    destruct (space2 a b) eqn:Hb.
    { exfalso. apply (Hlen (String c (x +:+ y)) 0%nat); [simpl; lia | exact H]. }
    destruct (space3 a b c) eqn:Hc; [|reflexivity].
    exfalso. apply (Hlen (x +:+ y) 0%nat); [simpl; lia | exact H].
Qed.

Lemma strings_TrimSpace_idempotent s :
  strings_TrimSpace (strings_TrimSpace s) = strings_TrimSpace s.
Proof.
  unfold strings_TrimSpace.
  destruct (trimRightSpace_prefix (trimLeftSpace s)) as [post H].
  assert (Hleft : trimLeftSpace (trimRightSpace (trimLeftSpace s))
                  = trimRightSpace (trimLeftSpace s)).
  { apply (trimLeftSpace_prefix_stable _ post). rewrite <- H.
    apply trimLeftSpace_idempotent. }
  rewrite Hleft. apply trimRightSpace_idempotent.
Qed.

Lemma strings_TrimSpace_inside s :
  exists pre post, s = pre +:+ strings_TrimSpace s +:+ post.
Proof.
  unfold strings_TrimSpace.
  destruct (trimLeftSpace_suffix s) as [pre Hpre].
  destruct (trimRightSpace_prefix (trimLeftSpace s)) as [post Hpost].
  exists pre, post. rewrite <- Hpost. exact Hpre.
Qed.

(** ** Delimiters inside a text *)

Lemma containsDelimiter_app_r pre x :
  containsDelimiter (pre +:+ x) = false -> containsDelimiter x = false.
Proof.
  induction pre as [|c r IH]; [auto|].
  change (containsDelimiter (String c r +:+ x))
    with (strings_HasPrefix (String c (r +:+ x)) "---" || containsDelimiter (r +:+ x)).
  intros H. apply orb_false_iff in H as [_ H]. auto.
Qed.

Lemma containsDelimiter_app_l x post :
  containsDelimiter (x +:+ post) = false -> containsDelimiter x = false.
Proof.
  induction x as [|c r IH]; [reflexivity|].
  change (containsDelimiter (String c r +:+ post))
    with (strings_HasPrefix (String c r +:+ post) "---" || containsDelimiter (r +:+ post)).
  change (containsDelimiter (String c r))
    with (strings_HasPrefix (String c r) "---" || containsDelimiter r).
  intros H. apply orb_false_iff in H as [Hp H].
  rewrite (IH H), orb_false_r.
  destruct (strings_HasPrefix (String c r) "---") eqn:Hx; [|reflexivity].
  rewrite (strings_HasPrefix_app _ post _ Hx) in Hp. discriminate.
Qed.

Lemma containsDelimiter_TrimSpace s :
  containsDelimiter s = false -> containsDelimiter (strings_TrimSpace s) = false.
Proof.
  intros H. destruct (strings_TrimSpace_inside s) as (pre & post & Hs).
  rewrite Hs in H. apply containsDelimiter_app_r, containsDelimiter_app_l in H. exact H.
Qed.

Lemma strings_Split_delim_none s :
  containsDelimiter s = false -> strings_Split_delim s = [s].
Proof.
  induction s as [|c r IH]; [reflexivity|].
  change (containsDelimiter (String c r))
    with (strings_HasPrefix (String c r) "---" || containsDelimiter r).
  intros H. apply orb_false_iff in H as [Hp H].
  rewrite strings_Split_delim_step by assumption.
  rewrite IH by assumption. reflexivity.
Qed.

(** Lists read two elements at a time. *)
Lemma list_pairs_ind {A : Type} (P : list A -> Prop) :
  P [] -> (forall x, P [x]) -> (forall x y l, P l -> P (x :: y :: l)) -> forall l, P l.
Proof.
  intros Hnil Hone Hstep.
  fix rec 1. intros [|x [|y l]]; [exact Hnil | apply Hone | apply Hstep, rec].
Qed.

Lemma pairUp_contents entries :
  Forall (fun seg => containsDelimiter seg = false) entries ->
  Forall (fun p => strings_TrimSpace (snd p) = snd p /\ containsDelimiter (snd p) = false)
         (pairUp entries).
Proof.
  induction entries as [|m|m c rest IH] using list_pairs_ind; intros H.
  - constructor.
  - repeat constructor.
  - inversion H as [|? ? _ H']; subst. inversion H' as [|? ? Hc Hrest]; subst.
    change (pairUp (m :: c :: rest)) with ((m, strings_TrimSpace c) :: pairUp rest).
    constructor; [|auto]. simpl. split.
    + apply strings_TrimSpace_idempotent.
    + apply containsDelimiter_TrimSpace. assumption.
Qed.

(** ** What [parseNotes] reads and what it leaves out *)

Lemma splitPairs_contents data :
  Forall (fun p => strings_TrimSpace (snd p) = snd p /\ containsDelimiter (snd p) = false)
         (splitPairs data).
Proof.
  unfold splitPairs. apply pairUp_contents.
  pose proof (strings_Split_delim_segments data) as H.
  destruct (strings_Split_delim data); [constructor | inversion H; assumption].
Qed.

(** X4. The content of every note that [parseNotes] returns is
    trimmed, [strings.TrimSpace] leaves it as it is, and the delimiter does
    not occur in it. *)
Theorem parsed_content_is_trimmed_and_delimiter_free `{Lib : Libraries}
    (data : string) (notes : list Note) :
  parseNotes data = inr notes ->
  Forall (fun n => strings_TrimSpace (Content n) = Content n
                   /\ containsDelimiter (Content n) = false) notes.
Proof.
  intros Hparse. apply parsePairs_inr in Hparse as [_ ->]. simpl.
  apply Forall_map.
  pose proof (splitPairs_contents data) as H.
  induction H as [|p l Hp Hl IH]; [constructor|].
  simpl. destruct (negb (isNoOp p)); [constructor|]; assumption.
Qed.

Lemma parsed_content_is_trimmed_and_delimiter_free_witness :
  Forall (fun n => strings_TrimSpace (Content n) = Content n
                   /\ containsDelimiter (Content n) = false)
    [mkNote "First" "2024-09-12" ["a"] "One"; mkNote "Second" "2024-09-12" [] "Two"].
Proof.
  apply (parsed_content_is_trimmed_and_delimiter_free (Lib := Yaml.Reference) buffer_two_notes).
  vm_compute. reflexivity.
Defined.

(** X2. A buffer in which the delimiter does not occur holds no note:
    [parseNotes] returns no note and no error, and [ProcessNotes] returns
    [nil] without a call to the file system. *)
Theorem buffer_without_delimiter_is_ignored `{Lib : Libraries} {S : Type} `{FS : FileSystem S}
    (data markdownDir : string) :
  containsDelimiter data = false ->
  parseNotes data = inr []
  /\ (forall fs, ProcessNotes data markdownDir fs = (None, fs))
  /\ (forall calls fs,
        ProcessNotes (FS := TracedFS) data markdownDir (calls, fs) = (None, (calls, fs))).
Proof.
  intros H.
  assert (Hparse : parseNotes data = inr []).
  { unfold parseNotes, splitPairs. rewrite strings_Split_delim_none by assumption.
    reflexivity. }
  split; [assumption|].
  split; intros; unfold ProcessNotes; rewrite Hparse; reflexivity.
Qed.

Lemma buffer_without_delimiter_is_ignored_witness :
  parseNotes (Lib := Yaml.Reference) "title: T -- no front matter" = inr []
  /\ (forall fs : MockFileSystem,
        ProcessNotes (Lib := Yaml.Reference) "title: T -- no front matter" "/notes" fs
        = (None, fs))
  /\ (forall calls (fs : MockFileSystem),
        ProcessNotes (Lib := Yaml.Reference) (FS := TracedFS) "title: T -- no front matter"
          "/notes" (calls, fs) = (None, (calls, fs))).
Proof.
  apply (buffer_without_delimiter_is_ignored (Lib := Yaml.Reference) (FS := MockFS)
           "title: T -- no front matter" "/notes").
  reflexivity.
Defined.

(** X3. What stands before the first delimiter is not read: when
    the first occurrence of the delimiter starts right after [before], the
    pairs, [parseNotes] and [ProcessNotes] are those of the buffer without
    [before]. *)
Theorem text_before_first_delimiter_is_ignored `{Lib : Libraries} {S : Type}
    `{FS : FileSystem S} (before rest markdownDir : string) :
  containsDelimiter (before +:+ "--") = false ->
  splitPairs (before +:+ "---" +:+ rest) = pairUp (strings_Split_delim rest)
  /\ parseNotes (before +:+ "---" +:+ rest) = parseNotes ("---" +:+ rest)
  /\ (forall fs,
        ProcessNotes (before +:+ "---" +:+ rest) markdownDir fs
        = ProcessNotes ("---" +:+ rest) markdownDir fs).
Proof.
  intros H.
  assert (Hsplit : splitPairs (before +:+ "---" +:+ rest) = pairUp (strings_Split_delim rest)).
  { unfold splitPairs. rewrite strings_Split_delim_cut by assumption. reflexivity. }
  assert (Hsplit0 : splitPairs ("---" +:+ rest) = pairUp (strings_Split_delim rest)).
  { unfold splitPairs. change ("---" +:+ rest) with (EmptyString +:+ "---" +:+ rest).
    rewrite (strings_Split_delim_cut EmptyString rest) by reflexivity. reflexivity. }
  assert (Hparse : parseNotes (before +:+ "---" +:+ rest) = parseNotes ("---" +:+ rest)).
  { unfold parseNotes. rewrite Hsplit, Hsplit0. reflexivity. }
  split; [assumption|]. split; [assumption|].
  intros fs. unfold ProcessNotes. rewrite Hparse. reflexivity.
Qed.

Lemma text_before_first_delimiter_is_ignored_witness :
  splitPairs ("to do -- later" +:+ "---" +:+ "title: T---Body")
  = pairUp (strings_Split_delim "title: T---Body")
  /\ parseNotes (Lib := Yaml.Reference) ("to do -- later" +:+ "---" +:+ "title: T---Body")
     = parseNotes (Lib := Yaml.Reference) ("---" +:+ "title: T---Body")
  /\ (forall fs : MockFileSystem,
        ProcessNotes (Lib := Yaml.Reference) ("to do -- later" +:+ "---" +:+ "title: T---Body")
          "/notes" fs
        = ProcessNotes (Lib := Yaml.Reference) ("---" +:+ "title: T---Body") "/notes" fs).
Proof.
  apply (text_before_first_delimiter_is_ignored (Lib := Yaml.Reference) (FS := MockFS)
           "to do -- later" "title: T---Body" "/notes").
  reflexivity.
Defined.

(** X5. When [parseNotes] succeeds and a note fails validation after
    notes that pass it, [ProcessNotes] returns the error of that note, the
    first invalid one in the order of the buffer, and leaves the file system
    as it is. *)
Theorem first_invalid_note_is_reported `{Lib : Libraries} {S : Type} `{FS : FileSystem S}
    (data markdownDir : string) (valid : list Note) (note : Note) (rest : list Note)
    (err : error) :
  parseNotes data = inr (valid ++ note :: rest) ->
  Forall (fun n => validateNote n = None) valid ->
  validateNote note = Some err ->
  forall fs, ProcessNotes data markdownDir fs = (Some err, fs).
Proof.
  intros Hparse Hvalid Hnote fs. unfold ProcessNotes. rewrite Hparse.
  assert (Hall : validateAll (valid ++ note :: rest) = Some err).
  { clear Hparse. induction Hvalid as [|n l Hn Hl IH]; simpl.
    - rewrite Hnote. reflexivity.
    - rewrite Hn. exact IH. }
  rewrite Hall. reflexivity.
Qed.

Lemma first_invalid_note_is_reported_witness :
  let err := timeParseError
               (mkParseError "2006-01-02" "2024-02-30" EmptyString EmptyString
                  ": day out of range") in
  validateNote (mkNote "Second" "2024-02-30" [] "Two") = Some err
  /\ (forall fs : MockFileSystem,
        ProcessNotes (Lib := Yaml.Reference) buffer_second_invalid "/notes" fs = (Some err, fs)).
Proof.
  split; [reflexivity|].
  apply (first_invalid_note_is_reported (Lib := Yaml.Reference) (FS := MockFS)
           buffer_second_invalid "/notes"
           [mkNote "First" "2024-09-12" [] "One"] (mkNote "Second" "2024-02-30" [] "Two") []).
  - vm_compute. reflexivity.
  - repeat constructor.
  - reflexivity.
Defined.

(** ** The calls of a run *)

Lemma directoryThenFile_no_read_or_overwrite calls :
  directoryThenFile calls = true -> Forall (fun c => readsOrOverwrites c = false) calls.
Proof.
  induction calls as [|x|x y l IH] using (@list_pairs_ind Call); intros H.
  - constructor.
  - destruct x; try discriminate. repeat constructor.
  - simpl in H. destruct x; try discriminate.
    apply andb_true_iff in H as [_ H]. destruct y; try discriminate.
    apply andb_true_iff in H as [_ H].
    repeat constructor. auto.
Qed.

Section Calls.

Context `{Lib : Libraries} {S : Type} `{FS : FileSystem S}.

Lemma noteCalls_directoryThenFile dir note k :
  directoryThenFile (firstn k (noteCalls dir note)) = true.
Proof.
  unfold noteCalls.
  destruct (buildMarkdownPath note dir) as [e|p]; [destruct k; reflexivity|].
  destruct (formatNoteContent note) as [e|b].
  - destruct k as [|k]; [reflexivity|]. destruct k; reflexivity.
  - destruct k as [|[|k]]; try reflexivity.
    destruct k; simpl; rewrite String.eqb_refl; reflexivity.
Qed.

Lemma saveNote_None_noteCalls note dir fs fs' :
  saveNote note dir fs = (None, fs') ->
  exists filePath fullNote,
    buildMarkdownPath note dir = inr filePath
    /\ formatNoteContent note = inr fullNote
    /\ noteCalls dir note
       = [CallMkdirAll (filepath_Dir filePath) os_ModePerm; CallAppendToFile filePath fullNote].
Proof.
  unfold saveNote, noteCalls.
  destruct (buildMarkdownPath note dir) as [e|p]; [discriminate|].
  destruct (MkdirAll (filepath_Dir p) os_ModePerm fs) as [[e|] fs1]; [discriminate|].
  destruct (formatNoteContent note) as [e|b]; [discriminate|].
  intros _. exists p, b. auto.
Qed.

Lemma saveAll_traced_pairs notes dir calls fs :
  exists new,
    saveAll (FS := TracedFS) notes dir (calls, fs)
    = (fst (saveAll notes dir fs), (calls ++ new, snd (saveAll notes dir fs)))
    /\ directoryThenFile new = true.
Proof.
  revert calls fs. induction notes as [|n rest IH]; intros calls fs.
  - exists []. rewrite app_nil_r. auto.
  - destruct (saveNote_traced n dir calls fs) as (k & Htr & Hk).
    cbn [saveAll]. rewrite Htr.
    destruct (saveNote n dir fs) as [[err|] fs1] eqn:Hsave; cbn [fst snd] in *.
    + exists (firstn k (noteCalls dir n)). split; [reflexivity|].
      apply noteCalls_directoryThenFile.
    + specialize (Hk eq_refl). subst k. rewrite firstn_all.
      destruct (saveNote_None_noteCalls n dir fs fs1 Hsave) as (p & b & _ & _ & Hcalls).
      rewrite Hcalls.
      destruct (IH (calls ++ [CallMkdirAll (filepath_Dir p) os_ModePerm; CallAppendToFile p b])
                  fs1) as (new & Hrest & Hnew).
      exists ([CallMkdirAll (filepath_Dir p) os_ModePerm; CallAppendToFile p b] ++ new).
      split.
      * rewrite Hrest, <- app_assoc. reflexivity.
      * simpl. rewrite String.eqb_refl. exact Hnew.
Qed.

Lemma ProcessNotes_traced data dir calls fs :
  exists new,
    ProcessNotes (FS := TracedFS) data dir (calls, fs)
    = (fst (ProcessNotes data dir fs), (calls ++ new, snd (ProcessNotes data dir fs)))
    /\ directoryThenFile new = true.
Proof.
  unfold ProcessNotes.
  destruct (parseNotes data) as [err|notes].
  { exists []. rewrite app_nil_r. auto. }
  destruct (validateAll notes) as [err|].
  { exists []. rewrite app_nil_r. auto. }
  apply saveAll_traced_pairs.
Qed.

End Calls.

(** X1. For every buffer, base directory and implementation of
    [FileSystem], the calls of [ProcessNotes] come in pairs: [MkdirAll] of a
    directory with every permission bit, then [AppendToFile] on a file whose
    [filepath.Dir] is that directory; the last directory may stay without its
    file when the run stops there. It never calls [ReadFile] or [WriteFile],
    and recording the calls changes neither the result nor the state. *)
Theorem ProcessNotes_only_creates_and_appends `{Lib : Libraries} {S : Type}
    `{FS : FileSystem S} (data markdownDir : string) (calls : list Call) (fs : S) :
  exists new,
    ProcessNotes (FS := TracedFS) data markdownDir (calls, fs)
    = (fst (ProcessNotes data markdownDir fs),
       (calls ++ new, snd (ProcessNotes data markdownDir fs)))
    /\ directoryThenFile new = true
    /\ Forall (fun c => readsOrOverwrites c = false) new.
Proof.
  destruct (ProcessNotes_traced data markdownDir calls fs) as (new & Hrun & Hnew).
  exists new. repeat split; try assumption.
  apply directoryThenFile_no_read_or_overwrite. assumption.
Qed.

(** ** The caller: [main] *)

Lemma parseNotes_no_delimiter `{Lib : Libraries} data :
  containsDelimiter data = false -> parseNotes data = inr [].
Proof.
  intros H. unfold parseNotes, splitPairs.
  rewrite strings_Split_delim_none by assumption. reflexivity.
Qed.

Lemma ProcessNotes_no_delimiter `{Lib : Libraries} {S : Type} `{FS : FileSystem S} data dir fs :
  containsDelimiter data = false -> ProcessNotes data dir fs = (None, fs).
Proof.
  intros H. unfold ProcessNotes. rewrite parseNotes_no_delimiter by assumption. reflexivity.
Qed.

(** X15. [main] overwrites the buffer file only once its notes are
    saved. Its calls are [ReadFile] on the buffer file, the pairs of
    [ProcessNotes] and, last and only when [ProcessNotes] has returned [nil],
    one [WriteFile] of the empty text to the buffer file; nothing follows a
    failed read, and no [WriteFile] follows a failure of [ProcessNotes]. *)
Theorem buffer_cleared_only_after_success `{Lib : Libraries} {S : Type} `{FS : FileSystem S}
    (cfg : Config) (calls : list Call) (fs : S) :
  exists new,
    main (FS := TracedFS) cfg (calls, fs)
    = (fst (main cfg fs), (calls ++ CallReadFile (BufferFile cfg) :: new, snd (main cfg fs)))
    /\ match fst (main cfg fs) with
       | ErrorReadingBufferFile _ => new = []
       | ErrorProcessingNotes _ =>
           directoryThenFile new = true
           /\ Forall (fun c => readsOrOverwrites c = false) new
       | ErrorClearingBufferFile _ | BufferFileCleared =>
           exists saved,
             new = saved ++ [CallWriteFile (BufferFile cfg) EmptyString 420]
             /\ directoryThenFile saved = true
             /\ Forall (fun c => readsOrOverwrites c = false) saved
       end.
Proof.
  unfold main. cbn [ReadFile TracedFS fst snd].
  destruct (ReadFile (BufferFile cfg) fs) as [[err|data] fs1].
  { exists []. split; reflexivity. }
  destruct (ProcessNotes_traced data (NotesDir cfg) (calls ++ [CallReadFile (BufferFile cfg)]) fs1)
    as (saved & Hrun & Hsaved).
  pose proof (directoryThenFile_no_read_or_overwrite saved Hsaved) as Hnone.
  rewrite Hrun.
  destruct (ProcessNotes data (NotesDir cfg) fs1) as [[err|] fs2]; cbn [fst snd].
  { exists saved. rewrite <- app_assoc. repeat split; assumption. }
  cbn [WriteFile TracedFS fst snd].
  destruct (WriteFile (BufferFile cfg) EmptyString 420 fs2) as [[err|] fs3]; cbn [fst snd].
  - exists (saved ++ [CallWriteFile (BufferFile cfg) EmptyString 420]).
    rewrite <- !app_assoc. split; [reflexivity|]. exists saved. repeat split; assumption.
  - exists (saved ++ [CallWriteFile (BufferFile cfg) EmptyString 420]).
    rewrite <- !app_assoc. split; [reflexivity|]. exists saved. repeat split; assumption.
Qed.

(** X16. A buffer file whose text holds no delimiter is overwritten
    and nothing of it is saved: [main] calls [ReadFile] and [WriteFile] on
    the buffer file and nothing else. *)
Theorem buffer_without_delimiter_is_cleared `{Lib : Libraries} {S : Type} `{FS : FileSystem S}
    (cfg : Config) (data : string) (fs fs' : S) :
  ReadFile (BufferFile cfg) fs = (inr data, fs') ->
  containsDelimiter data = false ->
  main cfg fs
  = (match fst (WriteFile (BufferFile cfg) EmptyString 420 fs') with
     | Some err => ErrorClearingBufferFile err
     | None => BufferFileCleared
     end, snd (WriteFile (BufferFile cfg) EmptyString 420 fs'))
  /\ (forall calls,
        snd (main (FS := TracedFS) cfg (calls, fs))
        = (calls ++ [CallReadFile (BufferFile cfg);
                     CallWriteFile (BufferFile cfg) EmptyString 420],
           snd (WriteFile (BufferFile cfg) EmptyString 420 fs'))).
Proof.
  intros Hread Hdata. split.
  - unfold main. rewrite Hread, ProcessNotes_no_delimiter by assumption.
    destruct (WriteFile (BufferFile cfg) EmptyString 420 fs') as [[err|] fs2]; reflexivity.
  - intros calls. unfold main. cbn [ReadFile TracedFS fst snd]. rewrite Hread.
    rewrite ProcessNotes_no_delimiter by assumption.
    cbn [WriteFile TracedFS fst snd].
    destruct (WriteFile (BufferFile cfg) EmptyString 420 fs') as [[err|] fs2];
      cbn [fst snd]; rewrite <- app_assoc; reflexivity.
Qed.

Lemma buffer_without_delimiter_is_cleared_witness :
  let cfg := mkConfig "/home/u/note.md" "/home/u/notes" "/home/u/config.json" in
  let fs := mkMock {[ "/home/u/note.md" := "remember the milk" ]} ∅ in
  main (Lib := Yaml.Reference) cfg fs
  = (match fst (WriteFile (BufferFile cfg) EmptyString 420 fs) with
     | Some err => ErrorClearingBufferFile err
     | None => BufferFileCleared
     end, snd (WriteFile (BufferFile cfg) EmptyString 420 fs))
  /\ (forall calls,
        snd (main (Lib := Yaml.Reference) (FS := TracedFS) cfg (calls, fs))
        = (calls ++ [CallReadFile (BufferFile cfg);
                     CallWriteFile (BufferFile cfg) EmptyString 420],
           snd (WriteFile (BufferFile cfg) EmptyString 420 fs))).
Proof.
  apply (buffer_without_delimiter_is_cleared (Lib := Yaml.Reference) (FS := MockFS)
           (mkConfig "/home/u/note.md" "/home/u/notes" "/home/u/config.json")
           "remember the milk").
  - vm_compute. reflexivity.
  - reflexivity.
Defined.

(** ** The archive in the mock *)

Section Archive.

Context `{Lib : Libraries}.

(** Saving one note in the mock. *)
Lemma saveNote_mock note dir (fs : MockFileSystem) :
  saveNote note dir fs
  = match buildMarkdownPath note dir with
    | inl err => (Some err, fs)
    | inr filePath =>
        let dirs := <[filepath_Dir filePath := true]> (Dirs fs) in
        match formatNoteContent note with
        | inl err => (Some err, mkMock (Files fs) dirs)
        | inr fullNote =>
            (None, mkMock (<[filePath := fileContent fs filePath +:+ fullNote]> (Files fs)) dirs)
        end
    end.
Proof.
  unfold saveNote. destruct (buildMarkdownPath note dir) as [err|p]; [reflexivity|].
  cbn [MkdirAll MockFS]. destruct (formatNoteContent note) as [err|b]; reflexivity.
Qed.

Lemma fileContent_insert files dirs p text path :
  fileContent (mkMock (<[p := text]> files) dirs) path
  = if String.eqb p path then text else fileContent (mkMock files dirs) path.
Proof.
  unfold fileContent. cbn [Files].
  destruct (String.eqb p path) eqn:Hp.
  - apply String.eqb_eq in Hp. subst. rewrite lookup_insert_eq. reflexivity.
  - apply String.eqb_neq in Hp. rewrite lookup_insert_ne by assumption. reflexivity.
Qed.

Lemma saveNote_mock_content note dir (fs fs' : MockFileSystem) path :
  saveNote note dir fs = (None, fs') ->
  fileContent fs' path = fileContent fs path +:+ noteBlockAt dir path note.
Proof.
  rewrite saveNote_mock. unfold noteBlockAt.
  destruct (buildMarkdownPath note dir) as [err|p]; [discriminate|]. cbv zeta.
  destruct (formatNoteContent note) as [err|b]; [discriminate|].
  intros H. injection H as <-. rewrite fileContent_insert.
  destruct (String.eqb p path) eqn:Hp.
  - apply String.eqb_eq in Hp. subst. reflexivity.
  - rewrite append_nil_r. reflexivity.
Qed.

Lemma saveAll_mock_content notes dir (fs fs' : MockFileSystem) path :
  saveAll notes dir fs = (None, fs') ->
  fileContent fs' path = fileContent fs path +:+ blocksAt dir path notes.
Proof.
  revert fs. induction notes as [|n rest IH]; intros fs.
  - simpl. intros H. injection H as <-. rewrite append_nil_r. reflexivity.
  - cbn [saveAll]. destruct (saveNote n dir fs) as [[err|] fs1] eqn:Hsave; [discriminate|].
    intros Hrest. rewrite (IH fs1 Hrest), (saveNote_mock_content n dir fs fs1 path Hsave).
    unfold blocksAt. cbn [map sconcat]. rewrite append_assoc. reflexivity.
Qed.

Lemma saveNote_mock_append_only note dir (fs : MockFileSystem) path :
  exists suffix,
    fileContent (snd (saveNote note dir fs)) path = fileContent fs path +:+ suffix
    /\ (is_Some (Files fs !! path) -> is_Some (Files (snd (saveNote note dir fs)) !! path)).
Proof.
  rewrite saveNote_mock.
  destruct (buildMarkdownPath note dir) as [err|p].
  { exists EmptyString. rewrite append_nil_r. auto. }
  cbv zeta. destruct (formatNoteContent note) as [err|b].
  { exists EmptyString. rewrite append_nil_r. auto. }
  cbn [snd]. rewrite fileContent_insert. cbn [Files].
  destruct (String.eqb p path) eqn:Hp.
  - apply String.eqb_eq in Hp. subst. exists b. split; [reflexivity|].
    intros _. rewrite lookup_insert_eq. eauto.
  - apply String.eqb_neq in Hp. exists EmptyString. rewrite append_nil_r.
    split; [reflexivity|]. rewrite lookup_insert_ne by assumption. auto.
Qed.

Lemma saveAll_mock_append_only notes dir (fs : MockFileSystem) path :
  exists suffix,
    fileContent (snd (saveAll notes dir fs)) path = fileContent fs path +:+ suffix
    /\ (is_Some (Files fs !! path) -> is_Some (Files (snd (saveAll notes dir fs)) !! path)).
Proof.
  revert fs. induction notes as [|n rest IH]; intros fs.
  - exists EmptyString. rewrite append_nil_r. auto.
  - cbn [saveAll].
    destruct (saveNote_mock_append_only n dir fs path) as (s1 & Hc1 & He1).
    destruct (saveNote n dir fs) as [[err|] fs1]; cbn [snd] in *.
    + exists s1. auto.
    + destruct (IH fs1) as (s2 & Hc2 & He2).
      exists (s1 +:+ s2). rewrite Hc2, Hc1, append_assoc. auto.
Qed.

End Archive.

(** X11. In the mock of the tests a run only ever adds to the end of files,
    whatever the buffer and whether the run fails or not: what a path held
    before is a prefix of what it holds after, and no file goes away. *)
Theorem archive_is_append_only `{Lib : Libraries} (data markdownDir : string)
    (fs : MockFileSystem) (path : string) :
  exists suffix,
    fileContent (snd (ProcessNotes data markdownDir fs)) path = fileContent fs path +:+ suffix
    /\ (is_Some (Files fs !! path) ->
        is_Some (Files (snd (ProcessNotes data markdownDir fs)) !! path)).
Proof.
  unfold ProcessNotes.
  destruct (parseNotes data) as [err|notes].
  { exists EmptyString. rewrite append_nil_r. auto. }
  destruct (validateAll notes) as [err|].
  { exists EmptyString. rewrite append_nil_r. auto. }
  apply saveAll_mock_append_only.
Qed.

(** X12. In the mock of the tests, after a run without error every
    path holds what it held before followed by the blocks of the notes that
    go to this path, in the order of the buffer; a path where no note goes
    holds what it held. *)
Theorem archive_file_is_the_concatenation_of_its_blocks `{Lib : Libraries}
    (data markdownDir : string) (notes : list Note) (fs : MockFileSystem) :
  parseNotes data = inr notes ->
  fst (ProcessNotes data markdownDir fs) = None ->
  forall path,
    fileContent (snd (ProcessNotes data markdownDir fs)) path
    = fileContent fs path +:+ blocksAt markdownDir path notes.
Proof.
  unfold ProcessNotes. intros ->.
  destruct (validateAll notes) as [err|]; [discriminate|].
  destruct (saveAll notes markdownDir fs) as [r fs'] eqn:Hsave. cbn [fst snd].
  intros -> path. apply (saveAll_mock_content notes markdownDir fs fs' path Hsave).
Qed.

Lemma archive_file_is_the_concatenation_of_its_blocks_witness :
  let notes := [mkNote "First" "2024-09-12" ["a"] "One"; mkNote "Second" "2024-09-12" [] "Two"] in
  fileContent (snd (ProcessNotes (Lib := Yaml.Reference) buffer_two_notes "/archive"
                      NewMockFileSystem)) "/archive/2024/09/12.md"
  = fileContent NewMockFileSystem "/archive/2024/09/12.md"
    +:+ blocksAt (Lib := Yaml.Reference) "/archive" "/archive/2024/09/12.md" notes.
Proof.
  apply (archive_file_is_the_concatenation_of_its_blocks (Lib := Yaml.Reference)
           buffer_two_notes "/archive"
           [mkNote "First" "2024-09-12" ["a"] "One"; mkNote "Second" "2024-09-12" [] "Two"]
           NewMockFileSystem).
  - vm_compute. reflexivity.
  - vm_compute. reflexivity.
Defined.

(** ** The lines of the front matter *)

Lemma one_line_cons_head c l :
  negb (Ascii.eqb c LF) = true ->
  Forall (fun x => one_line x = true) l ->
  Forall (fun x => one_line x = true) (cons_head c l).
Proof.
  intros Hc Hl. destruct l as [|x l]; simpl.
  - repeat constructor. unfold one_line. simpl. rewrite Hc. reflexivity.
  - inversion Hl; subst. constructor; [|assumption].
    unfold one_line in *. simpl. rewrite Hc. assumption.
Qed.

Lemma split_LF_lines s : Forall (fun line => one_line line = true) (split_byte LF s).
Proof.
  induction s as [|c r IH]; [repeat constructor|].
  simpl. destruct (Ascii.eqb c LF) eqn:Hc.
  - constructor; [reflexivity | assumption].
  - apply one_line_cons_head; [rewrite Hc; reflexivity | assumption].
Qed.

Lemma split_LF_Join lines :
  lines <> [] -> Forall (fun line => one_line line = true) lines ->
  split_byte LF (strings_Join lines nl) = lines.
Proof.
  induction lines as [|a l IH]; [congruence|].
  intros _ H. inversion H as [|x y Ha Hl]; subst.
  destruct l as [|b l]; [apply split_LF_one_line; assumption|].
  rewrite strings_Join_cons by discriminate.
  rewrite split_LF_cons by assumption.
  rewrite IH by (assumption || discriminate). reflexivity.
Qed.

Lemma dateLine_one_line d line :
  one_line d = true -> one_line line = true -> one_line (dateLine d line) = true.
Proof.
  intros Hd Hl. unfold dateLine. destruct (strings_HasPrefix line "date:"); [|assumption].
  rewrite one_line_app, Hd. reflexivity.
Qed.

Lemma dateLine_idempotent d line : dateLine d (dateLine d line) = dateLine d line.
Proof.
  unfold dateLine. destruct (strings_HasPrefix line "date:") eqn:Hp.
  - reflexivity.
  - rewrite Hp. reflexivity.
Qed.

Lemma replaceDateLines_lines src d :
  one_line d = true ->
  split_byte LF (replaceDateLines src ("date: " +:+ d)) = map (dateLine d) (split_byte LF src).
Proof.
  intros Hd. unfold replaceDateLines.
  change (fun line : string => if strings_HasPrefix line "date:" then "date: " +:+ d else line)
    with (dateLine d).
  apply split_LF_Join.
  - pose proof (split_byte_nonempty LF src). destruct (split_byte LF src); [congruence|discriminate].
  - apply Forall_map. eapply List.Forall_impl; [|apply split_LF_lines].
    intros line Hl. simpl. apply dateLine_one_line; assumption.
Qed.

(** X10. [removeQuotesFromDateField] with a date without a dollar
    sign and without a line feed keeps the lines of the text in number and
    order, makes [date: ] followed by the date of every line that starts with
    [date:] and leaves the other lines as they are; every line of the result
    that starts with [date:] is that line, and a second pass changes
    nothing. *)
Theorem removeQuotesFromDateField_rewrites_date_lines `{Lib : Libraries}
    (yamlContent dateValue : string) :
  cut_dollar dateValue = None ->
  one_line dateValue = true ->
  split_byte LF (removeQuotesFromDateField yamlContent dateValue)
  = map (dateLine dateValue) (split_byte LF yamlContent)
  /\ Forall (fun line => strings_HasPrefix line "date:" = true -> line = "date: " +:+ dateValue)
            (split_byte LF (removeQuotesFromDateField yamlContent dateValue))
  /\ removeQuotesFromDateField (removeQuotesFromDateField yamlContent dateValue) dateValue
     = removeQuotesFromDateField yamlContent dateValue.
Proof.
  intros Hdollar Hline. unfold removeQuotesFromDateField. cbv zeta.
  rewrite !ReplaceAllString_no_dollar by assumption.
  pose proof (replaceDateLines_lines yamlContent dateValue Hline) as Hlines.
  split; [assumption|]. split.
  - rewrite Hlines. apply Forall_map. apply Forall_forall. intros line _. simpl.
    unfold dateLine. destruct (strings_HasPrefix line "date:") eqn:Hp; [reflexivity|].
    rewrite Hp. discriminate.
  - unfold replaceDateLines at 1.
    change (fun line : string =>
              if strings_HasPrefix line "date:" then "date: " +:+ dateValue else line)
      with (dateLine dateValue).
    rewrite Hlines, map_map.
    unfold replaceDateLines.
    f_equal. apply map_ext. intros line. apply dateLine_idempotent.
Qed.

Lemma removeQuotesFromDateField_rewrites_date_lines_witness :
  let yamlContent := "title: T
date: " +:+ str1 DQUOTE +:+ "2024-09-12" +:+ str1 DQUOTE +:+ "
date: again
tags: []
" in
  split_byte LF (removeQuotesFromDateField (Lib := Yaml.Reference) yamlContent "2024-09-12")
  = map (dateLine "2024-09-12") (split_byte LF yamlContent)
  /\ Forall (fun line => strings_HasPrefix line "date:" = true -> line = "date: " +:+ "2024-09-12")
            (split_byte LF
               (removeQuotesFromDateField (Lib := Yaml.Reference) yamlContent "2024-09-12"))
  /\ removeQuotesFromDateField (Lib := Yaml.Reference)
       (removeQuotesFromDateField (Lib := Yaml.Reference) yamlContent "2024-09-12") "2024-09-12"
     = removeQuotesFromDateField (Lib := Yaml.Reference) yamlContent "2024-09-12".
Proof.
  apply (removeQuotesFromDateField_rewrites_date_lines (Lib := Yaml.Reference)); reflexivity.
Defined.

(** ** [OSFileSystem] *)

(** X18. [OSFileSystem.AppendToFile] returns the error of opening the
    file, or else that of writing to it, and never that of closing it: the
    deferred function puts the error of [Close] into the variable [err]
    after the result is fixed. The method returns what the one of the first
    version returns, which ignores that error, and leaves the same state. *)
Theorem close_error_is_not_returned {W File : Type} `{OS : OperatingSystem W File}
    (path data : string) (w : W) :
  AppendToFile (FileSystem := OSFileSystem) path data w
  = match os_OpenFile path appendFlags 420 w with
    | (inl err, w1) => (Some err, w1)
    | (inr f, w1) =>
        (fst (File_WriteString f data w1),
         snd (File_Close f (snd (File_WriteString f data w1))))
    end
  /\ AppendToFile (FileSystem := OSFileSystem) path data w
     = Legacy.OSFileSystem_AppendToFile path data w
  /\ match os_OpenFile path appendFlags 420 w with
     | (inl err, _) => snd (fst (OSFileSystem_AppendToFile path data w)) = Some err
     | (inr f, w1) =>
         let '(err, w2) := File_WriteString f data w1 in
         match err, fst (File_Close f w2) with
         | None, Some closeError =>
             snd (fst (OSFileSystem_AppendToFile path data w)) = Some (errClose path closeError)
             /\ fst (AppendToFile (FileSystem := OSFileSystem) path data w) = None
         | _, _ => snd (fst (OSFileSystem_AppendToFile path data w)) = err
         end
     end.
Proof.
  cbn [AppendToFile OSFileSystem].
  unfold OSFileSystem_AppendToFile, Legacy.OSFileSystem_AppendToFile.
  destruct (os_OpenFile path appendFlags 420 w) as [[err|f] w1]; [repeat split|].
  destruct (File_WriteString f data w1) as [err w2]. cbn [fst snd].
  destruct (File_Close f w2) as [closeError w3]. cbn [fst snd].
  repeat split; destruct err, closeError; repeat split.
Qed.

(** ** The first version of the pipeline *)

Section LegacyFacts.

Context `{Lib : Libraries}.

Lemma with_Content_empty note : Content note = EmptyString -> with_Content note EmptyString = note.
Proof. destruct note. simpl. intros ->. reflexivity. Qed.

(** Where the later version reads notes out of a buffer whose kept pairs all
    have metadata, the first version reads the same notes. *)
Lemma parseEntries_parsePairs entries acc notes :
  leavesContent Lib ->
  parsePairs (pairUp entries) acc = inr notes ->
  Forall (fun p => strings_TrimSpace (fst p) <> EmptyString)
         (List.filter (fun p => negb (isNoOp p)) (pairUp entries)) ->
  Legacy.parseEntries entries acc = notes.
Proof.
  intros Hcontent. revert acc.
  induction entries as [|m|m c rest IH] using (@list_pairs_ind string); intros acc.
  - simpl. intros H _. congruence.
  - cbn [pairUp parsePairs Legacy.parseEntries List.filter]. unfold Legacy.parseEntry.
    unfold isNoOp. cbn [fst snd]. rewrite andb_true_r.
    destruct (String.eqb (strings_TrimSpace m) EmptyString) eqn:Hm.
    + simpl. intros H _. congruence.
    + destruct (yaml_Unmarshal m zeroNote) as [[err|] note] eqn:Hdec; [discriminate|].
      intros H _. injection H as <-.
      rewrite with_Content_empty by (eapply Hcontent; eassumption). reflexivity.
  - change (pairUp (m :: c :: rest)) with ((m, strings_TrimSpace c) :: pairUp rest).
    cbn [parsePairs Legacy.parseEntries List.filter]. unfold Legacy.parseEntry.
    destruct (isNoOp (m, strings_TrimSpace c)) eqn:Hnoop.
    + unfold isNoOp in Hnoop. cbn [fst snd] in Hnoop.
      apply andb_true_iff in Hnoop as [Hm _]. rewrite Hm. cbn [negb]. apply IH.
    + cbn [negb]. intros Hparse Hkept. inversion Hkept as [|p l Hp Hl]; subst.
      cbn [fst] in Hp. apply String.eqb_neq in Hp. rewrite Hp.
      destruct (yaml_Unmarshal m zeroNote) as [[err|] note]; [discriminate|].
      apply IH; assumption.
Qed.

Context {S : Type} `{FS : FileSystem S}.

Lemma legacy_saveAll_traced notes dir calls fs :
  exists k,
    Legacy.saveAll (FS := TracedFS) notes dir (calls, fs)
    = (fst (Legacy.saveAll notes dir fs),
       (calls ++ firstn k (concat (map (legacyCalls dir) notes)),
        snd (Legacy.saveAll notes dir fs)))
    /\ (fst (Legacy.saveAll notes dir fs) = None ->
        k = length (concat (map (legacyCalls dir) notes))).
Proof.
  revert calls fs. induction notes as [|n rest IH]; intros calls fs.
  - exists 0%nat. simpl. rewrite app_nil_r. auto.
  - cbn [Legacy.saveAll map concat]. unfold Legacy.saveNote, legacyCalls at 1 3.
    cbv zeta. set (p := Legacy.buildMarkdownPath n dir).
    cbn [MkdirAll AppendToFile TracedFS fst snd].
    destruct (MkdirAll (filepath_Dir p) os_ModePerm fs) as [[err|] fs1].
    { exists 1%nat. cbn [fst snd]. split; [reflexivity | discriminate]. }
    cbn [AppendToFile TracedFS fst snd].
    destruct (AppendToFile p (Legacy.fullNote n) fs1) as [[err|] fs2].
    { exists 2%nat. cbn [fst snd]. rewrite <- app_assoc. split; [reflexivity | discriminate]. }
    destruct (IH ((calls ++ [CallMkdirAll (filepath_Dir p) os_ModePerm])
                  ++ [CallAppendToFile p (Legacy.fullNote n)]) fs2) as (k & Hrun & Hk).
    exists (2 + k)%nat. rewrite Hrun, <- !app_assoc. split; [reflexivity|].
    intros Hnone. rewrite (Hk Hnone). reflexivity.
Qed.

End LegacyFacts.

(** X19. The first version validates nothing: for every note it
    reads, in order, it creates the directory and appends the block until a
    call fails. A note whose date does not parse goes to the empty path,
    after [MkdirAll] of [.]; for a date that parses the path is that of the
    later [buildMarkdownPath]. *)
Theorem legacy_processNotes_saves_every_note `{Lib : Libraries} {S : Type}
    `{FS : FileSystem S} (data markdownDir : string) :
  (forall calls fs, exists k,
      Legacy.processNotes (FS := TracedFS) data markdownDir (calls, fs)
      = (fst (Legacy.processNotes data markdownDir fs),
         (calls ++ firstn k (concat (map (legacyCalls markdownDir) (Legacy.parseNotes data))),
          snd (Legacy.processNotes data markdownDir fs)))
      /\ (fst (Legacy.processNotes data markdownDir fs) = None ->
          k = length (concat (map (legacyCalls markdownDir) (Legacy.parseNotes data)))))
  /\ (forall note,
        (exists pe, time_Parse (Date note) = inl pe) ->
        legacyCalls markdownDir note
        = [CallMkdirAll "." os_ModePerm; CallAppendToFile EmptyString (Legacy.fullNote note)])
  /\ (forall note filePath,
        buildMarkdownPath note markdownDir = inr filePath ->
        Legacy.buildMarkdownPath note markdownDir = filePath).
Proof.
  split; [|split].
  - intros calls fs. apply legacy_saveAll_traced.
  - intros note [pe Hpe]. unfold legacyCalls, Legacy.buildMarkdownPath. rewrite Hpe.
    reflexivity.
  - intros note filePath. unfold buildMarkdownPath, Legacy.buildMarkdownPath.
    destruct (time_Parse (Date note)); [discriminate|]. intros H. injection H. auto.
Qed.

(** X20. On a buffer that [parseNotes] of package [notes] reads, and
    whose kept pairs all have metadata, the first version reads the same
    notes, with any library that leaves alone the field [Content]. *)
Theorem versions_read_the_same_notes `{Lib : Libraries} (data : string) (notes : list Note) :
  leavesContent Lib ->
  parseNotes data = inr notes ->
  Forall (fun p => strings_TrimSpace (fst p) <> EmptyString) (keptPairs data) ->
  Legacy.parseNotes data = notes.
Proof.
  intros Hcontent Hparse Hkept. unfold Legacy.parseNotes.
  apply parseEntries_parsePairs; assumption.
Qed.

Lemma Reference_leavesContent : leavesContent Yaml.Reference.
Proof.
  intros data note. cbn [yaml_Unmarshal Yaml.Reference]. unfold Yaml.decode_front.
  destruct (Yaml.run _ _); intros H; inversion H; reflexivity.
Qed.

Lemma versions_read_the_same_notes_witness :
  Legacy.parseNotes (Lib := Yaml.Reference) buffer_parse_notes
  = [mkNote "First Note" "2023-10-01" ["test"] "Content of the first note.";
     mkNote "Second Note" "2023-10-02" ["test"] "Content of the second note."].
Proof.
  apply (versions_read_the_same_notes (Lib := Yaml.Reference) buffer_parse_notes).
  - exact Reference_leavesContent.
  - vm_compute. reflexivity.
  - vm_compute. repeat constructor; discriminate.
Defined.

(** The tests of the first version, on the model. *)
Example TestProcessNotes :
  let data := "
---
title: Test Note
date: 2024-09-12
tags:
  - test
---
This is the content of the test note.
" in
  let r := Legacy.processNotes (Lib := Yaml.Reference) (FS := Legacy.MockFS) data "./notes"
             (Legacy.mkMock EmptyString EmptyString EmptyString None) in
  fst r = None
  /\ Legacy.AppendedData (snd r) = "---
title: Test Note
date: 2024-09-12
tags:
  - test
---
This is the content of the test note.

".
Proof. vm_compute. split; reflexivity. Qed.

Example TestProcessNotesWithEmptyYAML :
  let r := Legacy.processNotes (Lib := Yaml.Reference) (FS := Legacy.MockFS) "---" "./notes"
             (Legacy.mkMock EmptyString EmptyString EmptyString None) in
  fst r = None /\ Legacy.AppendedData (snd r) = EmptyString.
Proof. vm_compute. split; reflexivity. Qed.

Example TestBuildMarkdownPath :
  Legacy.buildMarkdownPath (mkNote EmptyString "2024-09-12" [] EmptyString) "./notes"
  = "notes/2024/09/12.md".
Proof. vm_compute. reflexivity. Qed.

(** ** Reading an archive file back *)

(** A byte that is not a dash keeps the delimiter on one side of it. *)
Lemma strings_HasPrefix_before c x rest :
  is_dash c = false ->
  strings_HasPrefix (x +:+ String c rest) "---" = strings_HasPrefix x "---".
Proof.
  intros Hc. unfold is_dash in Hc. rewrite Ascii.eqb_sym in Hc.
  destruct x as [|a [|b [|d x]]]; cbn [String.append strings_HasPrefix];
    rewrite ?Hc, ?andb_false_r, ?strings_HasPrefix_empty; reflexivity.
Qed.

Lemma containsDelimiter_sep a c b :
  is_dash c = false ->
  containsDelimiter (a +:+ String c b) = containsDelimiter a || containsDelimiter b.
Proof.
  intros Hc. induction a as [|x a IH].
  - change (containsDelimiter (EmptyString +:+ String c b))
      with (strings_HasPrefix (EmptyString +:+ String c b) "---" || containsDelimiter b).
    rewrite strings_HasPrefix_before by assumption. reflexivity.
  - change (containsDelimiter (String x a +:+ String c b))
      with (strings_HasPrefix (String x a +:+ String c b) "---"
            || containsDelimiter (a +:+ String c b)).
    rewrite strings_HasPrefix_before, IH by assumption.
    change (containsDelimiter (String x a))
      with (strings_HasPrefix (String x a) "---" || containsDelimiter a).
    rewrite orb_assoc. reflexivity.
Qed.

Lemma containsDelimiter_cons c r :
  is_dash c = false -> containsDelimiter (String c r) = containsDelimiter r.
Proof. intros Hc. apply (containsDelimiter_sep EmptyString c r Hc). Qed.

Lemma all_chars_app p a b :
  Yaml.all_chars p (a +:+ b) = Yaml.all_chars p a && Yaml.all_chars p b.
Proof.
  induction a as [|c a IH]; [reflexivity|].
  simpl. rewrite IH, andb_assoc. reflexivity.
Qed.

Lemma containsDelimiter_no_dash s :
  Yaml.all_chars (fun c => negb (is_dash c)) s = true -> containsDelimiter s = false.
Proof.
  induction s as [|c r IH]; [reflexivity|].
  simpl Yaml.all_chars. intros H. apply andb_true_iff in H as [Hc Hr].
  rewrite containsDelimiter_cons by (destruct (is_dash c); [discriminate | reflexivity]).
  auto.
Qed.

Lemma word_char_no_dash c : Yaml.word_char c = true -> negb (is_dash c) = true.
Proof.
  destruct c as [[] [] [] [] [] [] [] []]; vm_compute; congruence.
Qed.

Lemma plain_out_no_dash t :
  Yaml.plain_out t = true -> Yaml.all_chars (fun c => negb (is_dash c)) t = true.
Proof.
  unfold Yaml.plain_out. destruct t as [|c r]; [discriminate|].
  intros H. do 3 (apply andb_true_iff in H as [H _]).
  apply andb_true_iff in H as [_ H].
  revert H. apply all_chars_impl. apply word_char_no_dash.
Qed.

Lemma containsDelimiter_dash_cons c r :
  is_dash c = false -> containsDelimiter (String "-"%char (String c r)) = containsDelimiter r.
Proof. intros Hc. apply (containsDelimiter_sep "-" c r Hc). Qed.

Lemma containsDelimiter_date s t : time_Parse s = inr t -> containsDelimiter s = false.
Proof.
  intros H. apply time_Parse_inr_shape in H
    as (c0 & c1 & c2 & c3 & m0 & m1 & d0 & d1 & -> & Hdigits & _).
  invert_Forall.
  repeat match goal with
         | H : isDigitB _ = true |- _ => apply isDigitB_not_dash in H
         end.
  rewrite !containsDelimiter_cons by assumption.
  rewrite containsDelimiter_dash_cons by assumption.
  rewrite !containsDelimiter_cons by assumption.
  rewrite containsDelimiter_dash_cons by assumption.
  rewrite !containsDelimiter_cons by assumption.
  reflexivity.
Qed.

Lemma is_dash_LF : is_dash LF = false.
Proof. reflexivity. Qed.

Lemma is_dash_SP : is_dash " "%char = false.
Proof. reflexivity. Qed.

Lemma containsDelimiter_items tags :
  Forall (fun t => Yaml.plain_out t = true) tags ->
  containsDelimiter (sconcat (map (fun t => "    - " +:+ t +:+ nl) tags) +:+ "--") = false.
Proof.
  induction 1 as [|t l Ht Hl IH]; [reflexivity|].
  cbn [map sconcat]. rewrite !append_assoc.
  change ("    - " +:+ t +:+ nl +:+ sconcat (map (fun t => "    - " +:+ t +:+ nl) l) +:+ "--")
    with ("    -" +:+ String " "%char
            (t +:+ String LF (sconcat (map (fun t => "    - " +:+ t +:+ nl) l) +:+ "--"))).
  rewrite (containsDelimiter_sep "    -" " "%char) by reflexivity.
  rewrite (containsDelimiter_sep t LF) by reflexivity.
  rewrite IH, (containsDelimiter_no_dash t) by (apply plain_out_no_dash; assumption).
  reflexivity.
Qed.

Lemma containsDelimiter_tagsBlock tags :
  Forall (fun t => Yaml.plain_out t = true) tags ->
  containsDelimiter (tagsBlock tags +:+ "--") = false.
Proof.
  intros H. destruct tags as [|t l]; [reflexivity|].
  unfold tagsBlock. rewrite !append_assoc.
  change ("tags:" +:+ nl +:+ sconcat (map (fun t => "    - " +:+ t +:+ nl) (t :: l)) +:+ "--")
    with ("tags:" +:+ String LF
            (sconcat (map (fun t => "    - " +:+ t +:+ nl) (t :: l)) +:+ "--")).
  rewrite (containsDelimiter_sep "tags:" LF) by reflexivity.
  rewrite containsDelimiter_items by assumption. reflexivity.
Qed.

Lemma containsDelimiter_blockMetadata note :
  archivable note -> containsDelimiter (blockMetadata note +:+ "--") = false.
Proof.
  intros (Hvalid & Htitle & Htags & _ & _).
  assert (Hdate : exists t, time_Parse (Date note) = inr t).
  { apply time_Parse_calendarDate. apply validateNote_None_iff in Hvalid. tauto. }
  destruct Hdate as [t Hdate].
  unfold blockMetadata, canonicalFrontMatter. rewrite !append_assoc.
  change (nl +:+ "title: " +:+ Title note +:+ nl +:+ "date: " +:+ Date note +:+ nl
          +:+ tagsBlock (Tags note) +:+ "--")
    with (EmptyString +:+ String LF
            ("title:" +:+ String " "%char
               (Title note +:+ String LF
                  ("date:" +:+ String " "%char
                     (Date note +:+ String LF (tagsBlock (Tags note) +:+ "--")))))).
  rewrite (containsDelimiter_sep EmptyString LF) by reflexivity.
  rewrite (containsDelimiter_sep "title:" " "%char) by reflexivity.
  rewrite (containsDelimiter_sep (Title note) LF) by reflexivity.
  rewrite (containsDelimiter_sep "date:" " "%char) by reflexivity.
  rewrite (containsDelimiter_sep (Date note) LF) by reflexivity.
  rewrite containsDelimiter_tagsBlock by assumption.
  rewrite (containsDelimiter_date _ _ Hdate).
  rewrite (containsDelimiter_no_dash (Title note)) by (apply plain_out_no_dash; assumption).
  reflexivity.
Qed.

Lemma containsDelimiter_blockBody note :
  archivable note -> containsDelimiter (blockBody note +:+ "--") = false.
Proof.
  intros (_ & _ & _ & _ & Hcontent).
  unfold blockBody. rewrite !append_assoc.
  change (nl +:+ Content note +:+ nl +:+ nl +:+ "--")
    with (EmptyString +:+ String LF (Content note +:+ String LF (nl +:+ "--"))).
  rewrite (containsDelimiter_sep EmptyString LF) by reflexivity.
  rewrite (containsDelimiter_sep (Content note) LF) by reflexivity.
  rewrite Hcontent. reflexivity.
Qed.

Lemma canonicalBlock_segments note : canonicalBlock note = blockOf blockMetadata note.
Proof.
  unfold canonicalBlock, blockOf, blockMetadata, blockBody. rewrite !append_assoc. reflexivity.
Qed.

(** The segments of a text made of blocks: what stands before the first
    delimiter, then the metadata and the body of every block. *)
Lemma strings_Split_delim_blocks (metadata : Note -> string) notes before :
  Forall (fun n => containsDelimiter (metadata n +:+ "--") = false
                   /\ containsDelimiter (blockBody n +:+ "--") = false) notes ->
  containsDelimiter (before +:+ "--") = false ->
  strings_Split_delim (before +:+ sconcat (map (blockOf metadata) notes))
  = before :: flat_map (fun n => [metadata n; blockBody n]) notes.
Proof.
  intros Hall. revert before. induction Hall as [|n rest [Hm Hb] Hrest IH]; intros before Hbefore.
  - cbn [map sconcat flat_map]. rewrite append_nil_r.
    apply strings_Split_delim_none. apply (containsDelimiter_app_l _ "--"). assumption.
  - cbn [map sconcat flat_map]. unfold blockOf at 1. rewrite !append_assoc.
    rewrite strings_Split_delim_cut by assumption.
    rewrite strings_Split_delim_cut by assumption.
    rewrite IH by assumption.
    reflexivity.
Qed.

Lemma trimRightSpace_length s : (String.length (trimRightSpace s) <= String.length s)%nat.
Proof.
  destruct (trimRightSpace_prefix s) as [post H]. rewrite H at 2. rewrite length_append. lia.
Qed.

Lemma strings_TrimSpace_fixed s :
  strings_TrimSpace s = s -> trimLeftSpace s = s /\ trimRightSpace s = s.
Proof.
  unfold strings_TrimSpace. intros H.
  assert (Hleft : trimLeftSpace s = s).
  { destruct (trimLeftSpace_suffix s) as [pre Hpre].
    pose proof (trimRightSpace_length (trimLeftSpace s)) as Hr.
    rewrite H in Hr.
    assert (Hp : pre = EmptyString).
    { apply (f_equal String.length) in Hpre. rewrite length_append in Hpre.
      destruct pre; [reflexivity | simpl in Hpre; lia]. }
    subst pre. symmetry. exact Hpre. }
  split; [assumption|]. rewrite Hleft in H. exact H.
Qed.

Lemma space2_LF a : space2 a LF = false.
Proof. unfold space2. change (code LF) with 10. simpl. apply andb_false_r. Qed.

Lemma space3_LF_last a b : space3 a b LF = false.
Proof.
  unfold space3. change (code LF) with 10. cbv zeta. simpl.
  rewrite !andb_false_r. reflexivity.
Qed.

Lemma space3_LF_middle a c : space3 a LF c = false.
Proof.
  unfold space3. change (code LF) with 10. cbv zeta. simpl.
  rewrite !andb_false_r. reflexivity.
Qed.

(** Line feeds after a text that starts with something else than white
    space do not change how it starts. *)
Lemma trimLeftSpace_before_LF s :
  s <> EmptyString -> trimLeftSpace s = s ->
  trimLeftSpace (s +:+ nl +:+ nl) = s +:+ nl +:+ nl.
Proof.
  intros Hne H.
  assert (Hlen : forall z, (String.length z < String.length s)%nat -> trimLeftSpace z <> s).
  { intros z Hz Heq. pose proof (trimLeftSpace_length z) as Hl. rewrite Heq in Hl. lia. }
  destruct s as [|a [|b [|c s]]]; [congruence | | |].
  - simpl in *. destruct (asciiSpace a) eqn:Ha; [discriminate|].
    rewrite space2_LF, space3_LF_middle. reflexivity.
  - simpl in *. destruct (asciiSpace a) eqn:Ha.
    { exfalso. apply (Hlen (String b EmptyString)); [simpl; lia | exact H]. }
    destruct (space2 a b) eqn:Hb; [discriminate|].
    rewrite space3_LF_last. reflexivity.
  - simpl in *. destruct (asciiSpace a) eqn:Ha.
    { exfalso. apply (Hlen (String b (String c s))); [simpl; lia | exact H]. }
    destruct (space2 a b) eqn:Hb.
    { exfalso. apply (Hlen (String c s)); [simpl; lia | exact H]. }
    destruct (space3 a b c) eqn:Hc; [|reflexivity].
    exfalso. apply (Hlen s); [simpl; lia | exact H].
Qed.

Lemma trimRightSpace_before_LF s : trimRightSpace (s +:+ nl +:+ nl) = trimRightSpace s.
Proof.
  unfold trimRightSpace. rewrite !srev_app. reflexivity.
Qed.

Lemma strings_TrimSpace_blockBody note :
  strings_TrimSpace (Content note) = Content note ->
  strings_TrimSpace (blockBody note) = Content note.
Proof.
  intros H. destruct (strings_TrimSpace_fixed _ H) as [Hl Hr].
  unfold blockBody, strings_TrimSpace.
  change (trimLeftSpace (nl +:+ Content note +:+ nl +:+ nl))
    with (trimLeftSpace (Content note +:+ nl +:+ nl)).
  destruct (Content note) as [|c r] eqn:Hc; [reflexivity|].
  rewrite trimLeftSpace_before_LF by (assumption || discriminate).
  rewrite trimRightSpace_before_LF. exact Hr.
Qed.

(** What the scan from the end removes entirely is white space: bytes of
    ASCII white space and bytes of runes beyond ASCII. *)
Lemma space2_high a b : space2 a b = true -> 128 <= code a /\ 128 <= code b.
Proof.
  unfold space2. intros H. apply andb_true_iff in H as [Ha Hb].
  apply Z.eqb_eq in Ha. apply orb_true_iff in Hb as [Hb|Hb]; apply Z.eqb_eq in Hb; lia.
Qed.

Lemma space3_high a b c :
  space3 a b c = true -> 128 <= code a /\ 128 <= code b /\ 128 <= code c.
Proof.
  unfold space3. cbv zeta. intros H.
  repeat match type of H with
         | _ || _ = true => apply orb_true_iff in H as [H|H]
         end;
    repeat match goal with
           | H : _ && _ = true |- _ => apply andb_true_iff in H as [? ?]
           | H : _ || _ = true |- _ => apply orb_true_iff in H as [?|?]
           | H : (_ =? _) = true |- _ => apply Z.eqb_eq in H
           | H : (_ <=? _) = true |- _ => apply Z.leb_le in H
           end; lia.
Qed.

Lemma trimLeftSpace_rev_all s :
  trimLeftSpace_rev s = EmptyString -> Yaml.all_chars spaceOrHigh s = true.
Proof.
  apply (trimLeftSpace_rev_cases
           (fun s t => t = EmptyString -> Yaml.all_chars spaceOrHigh s = true)).
  - reflexivity.
  - intros a r Ha IH Ht. simpl. unfold spaceOrHigh at 1. rewrite Ha. simpl. auto.
  - intros a b r _ Hb IH Ht. apply space2_high in Hb as [Hb Ha].
    simpl. unfold spaceOrHigh at 1 2.
    apply Z.leb_le in Ha, Hb. rewrite Ha, Hb, !orb_true_r. simpl. auto.
  - intros a b c r _ _ Hc IH Ht. apply space3_high in Hc as (Hc & Hb & Ha).
    simpl. unfold spaceOrHigh at 1 2 3.
    apply Z.leb_le in Ha, Hb, Hc. rewrite Ha, Hb, Hc, !orb_true_r. simpl. auto.
  - intros t Hne _ Ht. congruence.
Qed.

Lemma all_chars_srev p s : Yaml.all_chars p (srev s) = Yaml.all_chars p s.
Proof.
  induction s as [|c r IH]; [reflexivity|].
  rewrite srev_cons, all_chars_app, IH. simpl. rewrite andb_true_r. apply andb_comm.
Qed.

Lemma srev_nil s : srev s = EmptyString -> s = EmptyString.
Proof. intros H. rewrite <- (srev_involutive s), H. reflexivity. Qed.

Lemma trimRightSpace_all s :
  trimRightSpace s = EmptyString -> Yaml.all_chars spaceOrHigh s = true.
Proof.
  unfold trimRightSpace. intros H. apply srev_nil, trimLeftSpace_rev_all in H.
  rewrite all_chars_srev in H. exact H.
Qed.

Lemma strings_TrimSpace_blockMetadata note :
  strings_TrimSpace (blockMetadata note) <> EmptyString.
Proof.
  unfold strings_TrimSpace, blockMetadata, canonicalFrontMatter.
  change (trimLeftSpace (nl +:+ "title: " +:+ Title note +:+ nl +:+ "date: " +:+ Date note
                         +:+ nl +:+ tagsBlock (Tags note)))
    with ("title: " +:+ Title note +:+ nl +:+ "date: " +:+ Date note
          +:+ nl +:+ tagsBlock (Tags note)).
  intros H. apply trimRightSpace_all in H. discriminate H.
Qed.

Lemma trimRightSpace_not_all s :
  Yaml.all_chars spaceOrHigh s = false -> trimRightSpace s <> EmptyString.
Proof. intros H Hnil. apply trimRightSpace_all in Hnil. congruence. Qed.

Lemma strings_TrimSpace_legacyMetadata note :
  strings_TrimSpace (legacyMetadata note) <> EmptyString.
Proof.
  unfold strings_TrimSpace, legacyMetadata.
  match goal with
  | |- trimRightSpace (trimLeftSpace (nl +:+ ?rest)) <> _ =>
      change (trimLeftSpace (nl +:+ rest)) with rest
  end.
  apply trimRightSpace_not_all. reflexivity.
Qed.

(** The metadata of a block decodes to the note, without its content. *)
Lemma decode_front_blockMetadata note :
  archivable note ->
  Yaml.decode_front (blockMetadata note)
  = Some (mkNote (Title note) (Date note) (Tags note) EmptyString).
Proof.
  intros (Hvalid & Htitle & Htags & _ & _).
  rewrite <- (decode_front_canonical note).
  - reflexivity.
  - apply plain_out_plain_in. assumption.
  - apply validateNote_plain_date. assumption.
  - eapply List.Forall_impl; [|exact Htags]. intros t. apply plain_out_plain_in.
Qed.

(** The same for the front matter of the first version, whose tags stand
    after two spaces. *)
Lemma classify_item_two s :
  plain_in s = true -> Yaml.classify ("  - " +:+ s) = Yaml.Item 2 (Yaml.VStr s).
Proof.
  intros H. unfold Yaml.classify.
  change (Yaml.drop_spaces ("  - " +:+ s)) with (String "-"%char (String Yaml.SP s)).
  change (strings_HasPrefix ("  - " +:+ s) "title:") with false.
  change (strings_HasPrefix ("  - " +:+ s) "date:") with false.
  change (strings_HasPrefix ("  - " +:+ s) "tags:") with false.
  change (Yaml.count_spaces ("  - " +:+ s)) with 2%nat.
  cbv iota. rewrite Ascii.eqb_refl, (after_indicator_plain s H). reflexivity.
Qed.

Lemma split_LF_items_two tags :
  Forall (fun t => one_line t = true) tags ->
  split_byte LF (sconcat (map (fun t => "  - " +:+ t +:+ nl) tags))
  = map (fun t => "  - " +:+ t) tags ++ [EmptyString].
Proof.
  induction 1 as [|t l Ht Hl IH]; [reflexivity|].
  cbn [map sconcat]. rewrite !append_assoc.
  rewrite <- (append_assoc "  - " t).
  rewrite split_LF_cons by exact Ht. rewrite IH. reflexivity.
Qed.

Lemma run_items_two title date acc indent tags :
  Forall (fun t => plain_in t = true) tags ->
  indent = None \/ indent = Some 2%nat ->
  Yaml.run (Yaml.mkState title date (Some acc) (Some indent))
    (map Yaml.classify (map (fun t => "  - " +:+ t) tags ++ [EmptyString]))
  = Some (Yaml.mkState title date (Some (acc ++ tags))
            (Some (match tags with [] => indent | _ => Some 2%nat end))).
Proof.
  intros Htags. revert acc indent.
  induction Htags as [|t l Ht Hl IH]; intros acc indent Hindent.
  - cbn. rewrite app_nil_r. reflexivity.
  - cbn [map app Yaml.run]. rewrite (classify_item_two t Ht).
    cbn [Yaml.step Yaml.s_seq Yaml.s_title Yaml.s_date Yaml.s_tags default].
    assert (Hok : match indent with None => true | Some m => Nat.eqb m 2 end = true)
      by (destruct Hindent as [-> | ->]; reflexivity).
    rewrite Hok. cbn [map] in IH. rewrite IH by auto.
    rewrite <- app_assoc. destruct l; reflexivity.
Qed.

Lemma decode_front_legacyMetadata note :
  archivable note ->
  Yaml.decode_front (legacyMetadata note)
  = Some (mkNote (Title note) (Date note) (Tags note) EmptyString).
Proof.
  intros (Hvalid & Htitle & Htags & _ & _).
  assert (Ht : plain_in (Title note) = true) by (apply plain_out_plain_in; assumption).
  assert (Hd : plain_in (Date note) = true) by (apply validateNote_plain_date; assumption).
  assert (Hin : Forall (fun t => plain_in t = true) (Tags note)).
  { eapply List.Forall_impl; [|exact Htags]. intros t. apply plain_out_plain_in. }
  unfold Yaml.decode_front, legacyMetadata.
  change (split_byte LF (nl +:+ ?x)) with (EmptyString :: split_byte LF x).
  rewrite <- (append_assoc "title: "), split_LF_cons
    by (apply (plain_in_one_line (Title note)), Ht).
  rewrite <- (append_assoc "date: "), split_LF_cons
    by (apply (plain_in_one_line (Date note)), Hd).
  rewrite split_LF_cons by reflexivity.
  rewrite split_LF_items_two
    by (eapply List.Forall_impl; [|exact Hin]; intros x Hx; apply plain_in_one_line, Hx).
  cbn [map Yaml.run]. rewrite (classify_title _ Ht), (classify_date _ Hd).
  change (Yaml.classify EmptyString) with Yaml.Blank.
  change (Yaml.classify "tags:") with (Yaml.Key "tags" Yaml.VNull).
  cbn [Yaml.step Yaml.s_title Yaml.s_date Yaml.s_tags Yaml.s_seq Yaml.string_field
       String.eqb Ascii.eqb Bool.eqb].
  rewrite run_items_two by auto. reflexivity.
Qed.

Lemma containsDelimiter_items_two tags :
  Forall (fun t => Yaml.plain_out t = true) tags ->
  containsDelimiter (sconcat (map (fun t => "  - " +:+ t +:+ nl) tags) +:+ "--") = false.
Proof.
  induction 1 as [|t l Ht Hl IH]; [reflexivity|].
  cbn [map sconcat]. rewrite !append_assoc.
  change ("  - " +:+ t +:+ nl +:+ sconcat (map (fun t => "  - " +:+ t +:+ nl) l) +:+ "--")
    with ("  -" +:+ String " "%char
            (t +:+ String LF (sconcat (map (fun t => "  - " +:+ t +:+ nl) l) +:+ "--"))).
  rewrite (containsDelimiter_sep "  -" " "%char) by reflexivity.
  rewrite (containsDelimiter_sep t LF) by reflexivity.
  rewrite IH, (containsDelimiter_no_dash t) by (apply plain_out_no_dash; assumption).
  reflexivity.
Qed.

Lemma containsDelimiter_legacyMetadata note :
  archivable note -> containsDelimiter (legacyMetadata note +:+ "--") = false.
Proof.
  intros (Hvalid & Htitle & Htags & _ & _).
  assert (Hdate : exists t, time_Parse (Date note) = inr t).
  { apply time_Parse_calendarDate. apply validateNote_None_iff in Hvalid. tauto. }
  destruct Hdate as [t Hdate].
  unfold legacyMetadata. rewrite !append_assoc.
  change (nl +:+ "title: " +:+ Title note +:+ nl +:+ "date: " +:+ Date note +:+ nl
          +:+ "tags:" +:+ nl
          +:+ sconcat (map (fun t => "  - " +:+ t +:+ nl) (Tags note)) +:+ "--")
    with (EmptyString +:+ String LF
            ("title:" +:+ String " "%char
               (Title note +:+ String LF
                  ("date:" +:+ String " "%char
                     (Date note +:+ String LF
                        ("tags:" +:+ String LF
                           (sconcat (map (fun t => "  - " +:+ t +:+ nl) (Tags note))
                            +:+ "--"))))))).
  rewrite (containsDelimiter_sep EmptyString LF) by reflexivity.
  rewrite (containsDelimiter_sep "title:" " "%char) by reflexivity.
  rewrite (containsDelimiter_sep (Title note) LF) by reflexivity.
  rewrite (containsDelimiter_sep "date:" " "%char) by reflexivity.
  rewrite (containsDelimiter_sep (Date note) LF) by reflexivity.
  rewrite (containsDelimiter_sep "tags:" LF) by reflexivity.
  rewrite containsDelimiter_items_two by assumption.
  rewrite (containsDelimiter_date _ _ Hdate).
  rewrite (containsDelimiter_no_dash (Title note)) by (apply plain_out_no_dash; assumption).
  reflexivity.
Qed.

Lemma fold_left_tags tags acc :
  fold_left (fun tags tag => tags +:+ "  - " +:+ tag +:+ nl) tags acc
  = acc +:+ sconcat (map (fun t => "  - " +:+ t +:+ nl) tags).
Proof.
  revert acc. induction tags as [|t l IH]; intros acc.
  - simpl. rewrite append_nil_r. reflexivity.
  - cbn [fold_left map sconcat]. rewrite IH, !append_assoc. reflexivity.
Qed.

Lemma fullNote_segments note : Legacy.fullNote note = blockOf legacyMetadata note.
Proof.
  unfold Legacy.fullNote, blockOf, legacyMetadata, blockBody. cbv zeta.
  rewrite fold_left_tags. change (EmptyString +:+ ?x) with x.
  rewrite !append_assoc. reflexivity.
Qed.

Lemma pairUp_blocks (metadata : Note -> string) notes :
  Forall (fun n => strings_TrimSpace (Content n) = Content n) notes ->
  pairUp (flat_map (fun n => [metadata n; blockBody n]) notes)
  = map (fun n => (metadata n, Content n)) notes.
Proof.
  induction 1 as [|n rest Hn Hrest IH]; [reflexivity|].
  cbn [flat_map app map].
  change (pairUp (metadata n :: blockBody n
                  :: flat_map (fun n => [metadata n; blockBody n]) rest))
    with ((metadata n, strings_TrimSpace (blockBody n))
          :: pairUp (flat_map (fun n => [metadata n; blockBody n]) rest)).
  rewrite IH, strings_TrimSpace_blockBody by apply Hn. reflexivity.
Qed.

Section ReadBack.

Variable L : Libraries.
Hypothesis HL : Yaml.Conforms L.

Variable metadata : Note -> string.

Lemma parsePairs_blocks notes acc :
  Forall (readsBack metadata) notes ->
  parsePairs (Lib := L) (map (fun n => (metadata n, Content n)) notes) acc
  = inr (acc ++ notes).
Proof.
  intros Hall. revert acc.
  induction Hall as [|n rest (_ & Hblank & Hdec & _ & _) Hrest IH]; intros acc.
  - rewrite app_nil_r. reflexivity.
  - cbn [map parsePairs]. unfold isNoOp. cbn [fst snd].
    apply String.eqb_neq in Hblank. rewrite Hblank. cbn [andb].
    rewrite (proj1 HL _ _ Hdec).
    rewrite IH, <- app_assoc. destruct n. reflexivity.
Qed.

Lemma parseEntries_blocks notes acc :
  Forall (readsBack metadata) notes ->
  Legacy.parseEntries (Lib := L) (flat_map (fun n => [metadata n; blockBody n]) notes) acc
  = acc ++ notes.
Proof.
  intros Hall. revert acc.
  induction Hall as [|n rest (_ & Hblank & Hdec & Htrim & _) Hrest IH]; intros acc.
  - rewrite app_nil_r. reflexivity.
  - cbn [flat_map app].
    change (Legacy.parseEntries (metadata n :: blockBody n
              :: flat_map (fun n => [metadata n; blockBody n]) rest) acc)
      with (Legacy.parseEntries (flat_map (fun n => [metadata n; blockBody n]) rest)
              (Legacy.parseEntry (metadata n) (Some (blockBody n)) acc)).
    unfold Legacy.parseEntry.
    apply String.eqb_neq in Hblank. rewrite Hblank.
    rewrite (proj1 HL _ _ Hdec), strings_TrimSpace_blockBody by assumption.
    rewrite IH, <- app_assoc. destruct n. reflexivity.
Qed.

Lemma reads_segments notes :
  Forall (readsBack metadata) notes ->
  strings_Split_delim (sconcat (map (blockOf metadata) notes))
  = EmptyString :: flat_map (fun n => [metadata n; blockBody n]) notes.
Proof.
  intros Hall.
  change (sconcat (map (blockOf metadata) notes))
    with (EmptyString +:+ sconcat (map (blockOf metadata) notes)).
  apply strings_Split_delim_blocks; [|reflexivity].
  eapply List.Forall_impl; [|exact Hall].
  intros n (Hm & _ & _ & Htrim & Hc). split; [assumption|].
  unfold blockBody. rewrite !append_assoc.
  change (nl +:+ Content n +:+ nl +:+ nl +:+ "--")
    with (EmptyString +:+ String LF (Content n +:+ String LF (nl +:+ "--"))).
  rewrite (containsDelimiter_sep EmptyString LF) by reflexivity.
  rewrite (containsDelimiter_sep (Content n) LF) by reflexivity.
  rewrite Hc. reflexivity.
Qed.

Lemma parseNotes_blocks notes :
  Forall (readsBack metadata) notes ->
  parseNotes (Lib := L) (sconcat (map (blockOf metadata) notes)) = inr notes
  /\ Legacy.parseNotes (Lib := L) (sconcat (map (blockOf metadata) notes)) = notes.
Proof.
  intros Hall. unfold parseNotes, Legacy.parseNotes, splitPairs.
  rewrite reads_segments by assumption. cbn [tail]. split.
  - rewrite pairUp_blocks.
    + apply (parsePairs_blocks notes []). assumption.
    + eapply List.Forall_impl; [|exact Hall]. intros n H. apply H.
  - apply (parseEntries_blocks notes []). assumption.
Qed.

End ReadBack.

Lemma formatNoteContent_archivable (L : Libraries) note :
  Yaml.Conforms L ->
  archivable note -> formatNoteContent (Lib := L) note = inr (canonicalBlock note).
Proof.
  intros HL (Hvalid & Htitle & Htags & _ & _).
  unfold formatNoteContent.
  rewrite (yamlFrontMatterOf_plain L note HL Hvalid Htitle Htags). reflexivity.
Qed.

Lemma map_blockOf_canonical notes : map canonicalBlock notes = map (blockOf blockMetadata) notes.
Proof. apply map_ext. intros n. apply canonicalBlock_segments. Qed.

Lemma map_blockOf_legacy notes : map Legacy.fullNote notes = map (blockOf legacyMetadata) notes.
Proof. apply map_ext. intros n. apply fullNote_segments. Qed.

Lemma archivable_readsBack note : archivable note -> readsBack blockMetadata note.
Proof.
  intros Hn. pose proof Hn as (_ & _ & _ & Htrim & Hc).
  repeat split; try assumption.
  - apply containsDelimiter_blockMetadata, Hn.
  - apply strings_TrimSpace_blockMetadata.
  - apply decode_front_blockMetadata, Hn.
Qed.

Lemma archivable_readsBack_legacy note : archivable note -> readsBack legacyMetadata note.
Proof.
  intros Hn. pose proof Hn as (_ & _ & _ & Htrim & Hc).
  repeat split; try assumption.
  - apply containsDelimiter_legacyMetadata, Hn.
  - apply strings_TrimSpace_legacyMetadata.
  - apply decode_front_legacyMetadata, Hn.
Qed.

Lemma parseNotes_canonicalBlocks (L : Libraries) notes :
  Yaml.Conforms L -> Forall archivable notes ->
  parseNotes (Lib := L) (sconcat (map canonicalBlock notes)) = inr notes.
Proof.
  intros HL Hall. rewrite map_blockOf_canonical.
  apply (parseNotes_blocks L HL blockMetadata).
  eapply List.Forall_impl; [|exact Hall]. apply archivable_readsBack.
Qed.

(** X13. With a library that agrees with the description of [yaml.v3], the
    blocks of an archive file read back as the notes they were written from:
    for notes that pass validation, with a title and tags that are plain
    words and a content as [parseNotes] leaves one, [formatNoteContent]
    writes the canonical block of each note, and [parseNotes] on these blocks
    one after the other returns the notes, in order. *)
Theorem archive_reads_back (L : Libraries) (notes : list Note) :
  Yaml.Conforms L ->
  Forall archivable notes ->
  Forall (fun n => formatNoteContent (Lib := L) n = inr (canonicalBlock n)) notes
  /\ parseNotes (Lib := L) (sconcat (map canonicalBlock notes)) = inr notes.
Proof.
  intros HL Hall. split.
  - eapply List.Forall_impl; [|exact Hall]. intros n. apply formatNoteContent_archivable, HL.
  - apply parseNotes_canonicalBlocks; assumption.
Qed.

Lemma archive_reads_back_witness :
  let notes := [mkNote "First" "2024-09-12" ["a"] "One"; mkNote "Second" "2024-09-12" [] "Two"] in
  Forall (fun n => formatNoteContent (Lib := Yaml.Reference) n = inr (canonicalBlock n)) notes
  /\ parseNotes (Lib := Yaml.Reference) (sconcat (map canonicalBlock notes)) = inr notes.
Proof.
  apply (archive_reads_back Yaml.Reference
           [mkNote "First" "2024-09-12" ["a"] "One"; mkNote "Second" "2024-09-12" [] "Two"]).
  - exact Reference_conforms.
  - repeat constructor.
Defined.

(** X21. Each version reads the blocks of the other. With a library that
    agrees with the description of [yaml.v3] and for the same notes, the
    blocks that the first version writes, with the tags after two spaces, are
    read back as the notes by [parseNotes] of package [notes] and by that of
    the first version, and the first version reads the blocks of
    [formatNoteContent]. *)
Theorem versions_read_each_other (L : Libraries) (notes : list Note) :
  Yaml.Conforms L ->
  Forall archivable notes ->
  parseNotes (Lib := L) (sconcat (map Legacy.fullNote notes)) = inr notes
  /\ Legacy.parseNotes (Lib := L) (sconcat (map Legacy.fullNote notes)) = notes
  /\ Legacy.parseNotes (Lib := L) (sconcat (map canonicalBlock notes)) = notes.
Proof.
  intros HL Hall.
  assert (Hold : Forall (readsBack legacyMetadata) notes)
    by (eapply List.Forall_impl; [|exact Hall]; apply archivable_readsBack_legacy).
  assert (Hnew : Forall (readsBack blockMetadata) notes)
    by (eapply List.Forall_impl; [|exact Hall]; apply archivable_readsBack).
  rewrite map_blockOf_legacy, map_blockOf_canonical.
  destruct (parseNotes_blocks L HL legacyMetadata notes Hold) as [H1 H2].
  destruct (parseNotes_blocks L HL blockMetadata notes Hnew) as [_ H3].
  auto.
Qed.

Lemma versions_read_each_other_witness :
  let notes := [mkNote "First" "2024-09-12" ["a"; "b"] "One"; mkNote "Second" "2024-09-13" [] "Two"] in
  parseNotes (Lib := Yaml.Reference) (sconcat (map Legacy.fullNote notes)) = inr notes
  /\ Legacy.parseNotes (Lib := Yaml.Reference) (sconcat (map Legacy.fullNote notes)) = notes
  /\ Legacy.parseNotes (Lib := Yaml.Reference) (sconcat (map canonicalBlock notes)) = notes.
Proof.
  apply (versions_read_each_other Yaml.Reference
           [mkNote "First" "2024-09-12" ["a"; "b"] "One"; mkNote "Second" "2024-09-13" [] "Two"]).
  - exact Reference_conforms.
  - repeat constructor.
Defined.

(** ** An archive file as a buffer *)

Lemma saveAll_mock_None `{Lib : Libraries} notes dir (fs : MockFileSystem) :
  Forall (fun n => (exists p, buildMarkdownPath n dir = inr p)
                   /\ exists b, formatNoteContent n = inr b) notes ->
  fst (saveAll notes dir fs) = None.
Proof.
  intros Hall. revert fs. induction Hall as [|n rest [[p Hp] [b Hb]] Hrest IH]; intros fs.
  - reflexivity.
  - cbn [saveAll]. rewrite saveNote_mock, Hp, Hb. cbv zeta. apply IH.
Qed.

Lemma blocksAt_same_path `{Lib : Libraries} notes dir path :
  Forall (fun n => buildMarkdownPath n dir = inr path
                   /\ formatNoteContent n = inr (canonicalBlock n)) notes ->
  blocksAt dir path notes = sconcat (map canonicalBlock notes).
Proof.
  induction 1 as [|n rest [Hp Hb] Hrest IH]; [reflexivity|].
  unfold blocksAt in *. cbn [map sconcat]. rewrite IH.
  unfold noteBlockAt. rewrite Hp, Hb, String.eqb_refl. reflexivity.
Qed.

Lemma blocksAt_other_path `{Lib : Libraries} notes dir path other :
  other <> path ->
  Forall (fun n => buildMarkdownPath n dir = inr path) notes ->
  blocksAt dir other notes = EmptyString.
Proof.
  intros Hne. induction 1 as [|n rest Hp Hrest IH]; [reflexivity|].
  unfold blocksAt in *. cbn [map sconcat]. rewrite IH.
  unfold noteBlockAt. rewrite Hp.
  destruct (formatNoteContent n); [reflexivity|].
  destruct (String.eqb path other) eqn:He; [|reflexivity].
  apply String.eqb_eq in He. congruence.
Qed.

(** X14. A file of the archive, given back as the buffer, is written
    again as it is. With a library that agrees with the description of
    [yaml.v3], for notes of one day that read back, processing their blocks
    with the same base directory and an empty mock returns no error, writes
    the same text to the file of the day and nothing anywhere else. *)
Theorem archive_file_reproduces_itself (L : Libraries) (notes : list Note)
    (markdownDir filePath : string) :
  Yaml.Conforms L ->
  Forall archivable notes ->
  Forall (fun n => buildMarkdownPath n markdownDir = inr filePath) notes ->
  let text := sconcat (map canonicalBlock notes) in
  let r := ProcessNotes (Lib := L) (FS := MockFS) text markdownDir NewMockFileSystem in
  fst r = None
  /\ fileContent (snd r) filePath = text
  /\ (forall other, other <> filePath -> fileContent (snd r) other = EmptyString).
Proof.
  intros HL Hall Hpath. cbv zeta.
  assert (Hformat : Forall (fun n => formatNoteContent (Lib := L) n = inr (canonicalBlock n))
                           notes).
  { eapply List.Forall_impl; [|exact Hall]. intros n. apply formatNoteContent_archivable, HL. }
  assert (Hvalid : validateAll notes = None).
  { apply validateAll_None. eapply List.Forall_impl; [|exact Hall]. intros n Hn. apply Hn. }
  assert (Hboth : Forall (fun n => buildMarkdownPath n markdownDir = inr filePath
                                   /\ formatNoteContent (Lib := L) n = inr (canonicalBlock n))
                         notes).
  { apply Forall_forall. intros n Hin. rewrite Forall_forall in Hpath, Hformat. auto. }
  assert (Hnone : fst (saveAll (Lib := L) notes markdownDir NewMockFileSystem) = None).
  { apply saveAll_mock_None. eapply List.Forall_impl; [|exact Hboth].
    intros n [Hp Hb]. eauto. }
  unfold ProcessNotes.
  rewrite (parseNotes_canonicalBlocks L notes HL Hall), Hvalid.
  destruct (saveAll (Lib := L) notes markdownDir NewMockFileSystem) as [res fs'] eqn:Hsave.
  cbn [fst snd] in *. subst res.
  split; [reflexivity|]. split.
  - rewrite (saveAll_mock_content notes markdownDir _ _ filePath Hsave).
    rewrite (blocksAt_same_path notes markdownDir filePath Hboth). reflexivity.
  - intros other Hne.
    rewrite (saveAll_mock_content notes markdownDir _ _ other Hsave).
    rewrite (blocksAt_other_path notes markdownDir filePath other Hne Hpath). reflexivity.
Qed.

Lemma archive_file_reproduces_itself_witness :
  let notes := [mkNote "First" "2024-09-12" ["a"] "One"; mkNote "Second" "2024-09-12" [] "Two"] in
  let text := sconcat (map canonicalBlock notes) in
  let r := ProcessNotes (Lib := Yaml.Reference) (FS := MockFS) text "/archive"
             NewMockFileSystem in
  fst r = None
  /\ fileContent (snd r) "/archive/2024/09/12.md" = text
  /\ (forall other, other <> "/archive/2024/09/12.md" -> fileContent (snd r) other = EmptyString).
Proof.
  apply (archive_file_reproduces_itself Yaml.Reference
           [mkNote "First" "2024-09-12" ["a"] "One"; mkNote "Second" "2024-09-12" [] "Two"]
           "/archive" "/archive/2024/09/12.md").
  - exact Reference_conforms.
  - repeat constructor.
  - repeat constructor.
Defined.

(** ** The order of the archive *)

Lemma Ascii_compare_refl c : Ascii.compare c c = Eq.
Proof. unfold Ascii.compare. apply N.compare_refl. Qed.

Lemma String_compare_cons c1 s1 c2 s2 :
  String.compare (String c1 s1) (String c2 s2)
  = lexThen (Ascii.compare c1 c2) (String.compare s1 s2).
Proof. reflexivity. Qed.

Lemma String_compare_refl s : String.compare s s = Eq.
Proof.
  induction s as [|c s IH]; [reflexivity|].
  rewrite String_compare_cons, Ascii_compare_refl. exact IH.
Qed.

Lemma String_compare_app p a b : String.compare (p +:+ a) (p +:+ b) = String.compare a b.
Proof.
  induction p as [|c p IH]; [reflexivity|].
  cbn [String.append]. rewrite String_compare_cons, Ascii_compare_refl. exact IH.
Qed.

Lemma digitChar_compare a b :
  0 <= a <= 9 -> 0 <= b <= 9 -> Ascii.compare (digitChar a) (digitChar b) = (a ?= b).
Proof.
  intros Ha Hb.
  assert (H : forall x, 0 <= x <= 9 -> N_of_ascii (digitChar x) = Z.to_N (48 + x)).
  { intros x Hx.
    assert (Hc : x = 0 \/ x = 1 \/ x = 2 \/ x = 3 \/ x = 4 \/ x = 5 \/ x = 6 \/ x = 7
                 \/ x = 8 \/ x = 9) by lia.
    repeat (destruct Hc as [-> | Hc]; [reflexivity|]). subst. reflexivity. }
  unfold Ascii.compare. rewrite !H by assumption.
  rewrite <- N2Z.inj_compare, !Z2N.id by lia.
  apply Z.add_compare_mono_l.
Qed.

Lemma lexThen_Eq c : lexThen c Eq = c.
Proof. destruct c; reflexivity. Qed.

(** Two digits compare as the number they write. *)
Lemma two_digits_compare m1 m2 rest :
  0 <= m1 <= 99 -> 0 <= m2 <= 99 ->
  lexThen (m1 / 10 ?= m2 / 10) (lexThen (m1 mod 10 ?= m2 mod 10) rest)
  = lexThen (m1 ?= m2) rest.
Proof.
  intros H1 H2.
  destruct (Z.compare_spec (m1 / 10) (m2 / 10)) as [Ha|Ha|Ha]; cbn [lexThen].
  - destruct (Z.compare_spec (m1 mod 10) (m2 mod 10)) as [Hb|Hb|Hb]; cbn [lexThen].
    + assert (Heq : m1 = m2) by (Z.div_mod_to_equations; lia).
      subst. rewrite Z.compare_refl. reflexivity.
    + assert (Hlt : m1 < m2) by (Z.div_mod_to_equations; lia).
      apply Z.compare_lt_iff in Hlt. rewrite Hlt. reflexivity.
    + assert (Hgt : m2 < m1) by (Z.div_mod_to_equations; lia).
      apply Z.compare_gt_iff in Hgt. rewrite Hgt. reflexivity.
  - assert (Hlt : m1 < m2) by (Z.div_mod_to_equations; lia).
    apply Z.compare_lt_iff in Hlt. rewrite Hlt. reflexivity.
  - assert (Hgt : m2 < m1) by (Z.div_mod_to_equations; lia).
    apply Z.compare_gt_iff in Hgt. rewrite Hgt. reflexivity.
Qed.

Lemma four_digits_compare y1 y2 rest :
  0 <= y1 <= 9999 -> 0 <= y2 <= 9999 ->
  lexThen (y1 / 1000 ?= y2 / 1000)
    (lexThen (y1 / 100 mod 10 ?= y2 / 100 mod 10)
       (lexThen (y1 mod 100 / 10 ?= y2 mod 100 / 10)
          (lexThen (y1 mod 100 mod 10 ?= y2 mod 100 mod 10) rest)))
  = lexThen (y1 ?= y2) rest.
Proof.
  intros H1 H2.
  rewrite (two_digits_compare (y1 mod 100) (y2 mod 100))
    by (Z.div_mod_to_equations; lia).
  assert (Hhi : lexThen (y1 / 1000 ?= y2 / 1000)
                  (lexThen (y1 / 100 mod 10 ?= y2 / 100 mod 10)
                     (lexThen (y1 mod 100 ?= y2 mod 100) rest))
                = lexThen (y1 / 100 ?= y2 / 100) (lexThen (y1 mod 100 ?= y2 mod 100) rest)).
  { replace (y1 / 1000) with (y1 / 100 / 10) by (Z.div_mod_to_equations; lia).
    replace (y2 / 1000) with (y2 / 100 / 10) by (Z.div_mod_to_equations; lia).
    apply two_digits_compare; Z.div_mod_to_equations; lia. }
  rewrite Hhi.
  destruct (Z.compare_spec (y1 / 100) (y2 / 100)) as [Ha|Ha|Ha]; cbn [lexThen].
  - destruct (Z.compare_spec (y1 mod 100) (y2 mod 100)) as [Hb|Hb|Hb]; cbn [lexThen].
    + assert (Heq : y1 = y2) by (Z.div_mod_to_equations; lia).
      subst. rewrite Z.compare_refl. reflexivity.
    + assert (Hlt : y1 < y2) by (Z.div_mod_to_equations; lia).
      apply Z.compare_lt_iff in Hlt. rewrite Hlt. reflexivity.
    + assert (Hgt : y2 < y1) by (Z.div_mod_to_equations; lia).
      apply Z.compare_gt_iff in Hgt. rewrite Hgt. reflexivity.
  - assert (Hlt : y1 < y2) by (Z.div_mod_to_equations; lia).
    apply Z.compare_lt_iff in Hlt. rewrite Hlt. reflexivity.
  - assert (Hgt : y2 < y1) by (Z.div_mod_to_equations; lia).
    apply Z.compare_gt_iff in Hgt. rewrite Hgt. reflexivity.
Qed.

Ltac digit_range := Z.div_mod_to_equations; lia.

Lemma dayPath_compare y1 m1 d1 y2 m2 d2 :
  0 <= y1 <= 9999 -> 0 <= m1 <= 99 -> 0 <= d1 <= 99 ->
  0 <= y2 <= 9999 -> 0 <= m2 <= 99 -> 0 <= d2 <= 99 ->
  String.compare (dayPath y1 m1 d1) (dayPath y2 m2 d2) = dateCompare y1 m1 d1 y2 m2 d2.
Proof.
  intros. unfold dayPath, four_digits, two_digits, dateCompare.
  cbn [String.append].
  rewrite !String_compare_cons, !Ascii_compare_refl, !digitChar_compare by digit_range.
  cbn [lexThen String.compare].
  rewrite four_digits_compare, !two_digits_compare by assumption.
  rewrite lexThen_Eq. reflexivity.
Qed.

Lemma dateString_compare y1 m1 d1 y2 m2 d2 :
  0 <= y1 <= 9999 -> 0 <= m1 <= 99 -> 0 <= d1 <= 99 ->
  0 <= y2 <= 9999 -> 0 <= m2 <= 99 -> 0 <= d2 <= 99 ->
  String.compare (dateString y1 m1 d1) (dateString y2 m2 d2) = dateCompare y1 m1 d1 y2 m2 d2.
Proof.
  intros. unfold dateString, four_digits, two_digits, dateCompare.
  cbn [String.append].
  rewrite !String_compare_cons, !Ascii_compare_refl, !digitChar_compare by digit_range.
  cbn [lexThen String.compare].
  rewrite four_digits_compare, !two_digits_compare by assumption.
  rewrite lexThen_Eq. reflexivity.
Qed.

(** X9. The paths of the archive sort as the dates do: for two notes that
    pass validation and one base directory, comparing the two paths byte by
    byte, and comparing the two date strings byte by byte, both give the
    order of the calendar on year, month and day. *)
Theorem archive_paths_sort_by_date (note1 note2 : Note) (baseDir : string) :
  validateNote note1 = None ->
  validateNote note2 = None ->
  exists y1 m1 d1 y2 m2 d2 path1 path2,
    Date note1 = dateString y1 m1 d1 /\ Date note2 = dateString y2 m2 d2
    /\ buildMarkdownPath note1 baseDir = inr path1
    /\ buildMarkdownPath note2 baseDir = inr path2
    /\ String.compare path1 path2 = dateCompare y1 m1 d1 y2 m2 d2
    /\ String.compare (Date note1) (Date note2) = dateCompare y1 m1 d1 y2 m2 d2.
Proof.
  intros H1 H2.
  destruct (proj1 (validateNote_None_iff note1) H1)
    as (_ & _ & y1 & m1 & d1 & Hy1 & Hm1 & Hd1 & Hdate1).
  destruct (proj1 (validateNote_None_iff note2) H2)
    as (_ & _ & y2 & m2 & d2 & Hy2 & Hm2 & Hd2 & Hdate2).
  pose proof (daysIn_le_31 m1 y1). pose proof (daysIn_le_31 m2 y2).
  exists y1, m1, d1, y2, m2, d2.
  exists (archivePrefix baseDir +:+ dayPath y1 m1 d1), (archivePrefix baseDir +:+ dayPath y2 m2 d2).
  repeat split; try assumption.
  - apply buildMarkdownPath_dayPath; assumption.
  - apply buildMarkdownPath_dayPath; assumption.
  - rewrite String_compare_app. apply dayPath_compare; lia.
  - rewrite Hdate1, Hdate2. apply dateString_compare; lia.
Qed.

Lemma archive_paths_sort_by_date_witness :
  exists y1 m1 d1 y2 m2 d2 path1 path2,
    "2023-12-31" = dateString y1 m1 d1 /\ "2024-01-02" = dateString y2 m2 d2
    /\ buildMarkdownPath (mkNote "Old" "2023-12-31" [] EmptyString) "/archive" = inr path1
    /\ buildMarkdownPath (mkNote "New" "2024-01-02" [] EmptyString) "/archive" = inr path2
    /\ String.compare path1 path2 = dateCompare y1 m1 d1 y2 m2 d2
    /\ String.compare "2023-12-31" "2024-01-02" = dateCompare y1 m1 d1 y2 m2 d2.
Proof.
  apply (archive_paths_sort_by_date (mkNote "Old" "2023-12-31" [] EmptyString)
           (mkNote "New" "2024-01-02" [] EmptyString) "/archive");
    vm_compute; reflexivity.
Defined.

(** ** The default configuration *)

Lemma real_config_elems file :
  real_elem file = true ->
  Forall (fun e => real_elem e = true) [".config"; "chrononoteai"; file].
Proof. intros H. repeat constructor. assumption. Qed.

Lemma filepath_JoinN_config homeDir file :
  real_elem file = true ->
  filepath_JoinN [homeDir; ".config"; "chrononoteai"; file]
  = filepath_JoinN [homeDir; ".config"; "chrononoteai"] +:+ "/" +:+ file.
Proof.
  intros Hfile.
  assert (H2 : Forall (fun e => real_elem e = true) [".config"; "chrononoteai"])
    by (repeat constructor).
  pose proof (real_config_elems file Hfile) as H3.
  destruct homeDir as [|c r].
  - cbn [filepath_JoinN String.eqb].
    change (String.eqb ".config" EmptyString) with false. cbv iota.
    rewrite !filepath_Clean_real_elems by (assumption || discriminate).
    reflexivity.
  - cbn [filepath_JoinN String.eqb].
    change (strings_Join [String c r; ".config"; "chrononoteai"; file] "/")
      with (String c r +:+ "/" +:+ strings_Join [".config"; "chrononoteai"; file] "/").
    change (strings_Join [String c r; ".config"; "chrononoteai"] "/")
      with (String c r +:+ "/" +:+ strings_Join [".config"; "chrononoteai"] "/").
    rewrite !filepath_Clean_base_real by (assumption || discriminate).
    cbn [strings_Join]. rewrite !append_assoc. reflexivity.
Qed.

Lemma filepath_JoinN_clean elem :
  filepath_JoinN elem <> EmptyString ->
  filepath_Clean (filepath_JoinN elem) = filepath_JoinN elem.
Proof.
  induction elem as [|e rest IH]; [intros H; exfalso; apply H; reflexivity|].
  cbn [filepath_JoinN]. destruct (String.eqb e EmptyString); [assumption|].
  intros _. apply filepath_Clean_idempotent.
Qed.

Lemma filepath_JoinN_config_nonempty homeDir :
  filepath_JoinN [homeDir; ".config"; "chrononoteai"] <> EmptyString.
Proof.
  cbn [filepath_JoinN]. destruct (String.eqb homeDir EmptyString).
  - vm_compute. discriminate.
  - apply filepath_Clean_nonempty.
Qed.

Lemma filepath_Dir_config homeDir file :
  real_elem file = true ->
  filepath_Dir (filepath_JoinN [homeDir; ".config"; "chrononoteai"; file])
  = filepath_JoinN [homeDir; ".config"; "chrononoteai"].
Proof.
  intros Hfile. rewrite filepath_JoinN_config by assumption.
  assert (Hns : no_slash file = true).
  { unfold real_elem in Hfile. apply andb_true_iff in Hfile as [Hk _].
    apply kept_elem_spec in Hk. tauto. }
  unfold filepath_Dir. rewrite dir_prefix_app by assumption.
  rewrite filepath_Clean_trailing_slash by apply filepath_JoinN_config_nonempty.
  apply filepath_JoinN_clean, filepath_JoinN_config_nonempty.
Qed.

(** X22. The defaults of the configuration lie in one directory,
    [filepath.Join] of the home directory, [.config] and [chrononoteai]: [setDefaults] puts the
    buffer file at [note.md] and the notes at [notes] in it and keeps the
    path of the configuration file, the default configuration file is
    [config.json] in it, and [filepath.Dir] of each of the three is that
    directory. *)
Theorem defaults_share_the_configuration_directory (homeDir : string) (c : Config) :
  let dir := filepath_JoinN [homeDir; ".config"; "chrononoteai"] in
  setDefaults (inr homeDir) c
  = (None, mkConfig (dir +:+ "/note.md") (dir +:+ "/notes") (ConfigFile c))
  /\ defaultConfigPath homeDir = dir +:+ "/config.json"
  /\ filepath_Dir (defaultConfigPath homeDir) = dir
  /\ filepath_Dir (dir +:+ "/note.md") = dir
  /\ filepath_Dir (dir +:+ "/notes") = dir.
Proof.
  cbv zeta. unfold setDefaults, defaultConfigPath, dirName.
  pose proof (filepath_JoinN_config homeDir "note.md" eq_refl) as Hbuffer.
  pose proof (filepath_JoinN_config homeDir "notes" eq_refl) as Hnotes.
  pose proof (filepath_JoinN_config homeDir "config.json" eq_refl) as Hconfig.
  pose proof (filepath_Dir_config homeDir "note.md" eq_refl) as Dbuffer.
  pose proof (filepath_Dir_config homeDir "notes" eq_refl) as Dnotes.
  pose proof (filepath_Dir_config homeDir "config.json" eq_refl) as Dconfig.
  rewrite Hbuffer in Dbuffer. rewrite Hnotes in Dnotes.
  rewrite Hbuffer, Hnotes, Hconfig.
  rewrite Hconfig in Dconfig.
  split; [reflexivity|]. split; [reflexivity|]. split; [exact Dconfig|].
  split; [exact Dbuffer | exact Dnotes].
Qed.
